(** * ecom backend: value objects, entities and the checkout service

    A shallow embedding of the Go packages [domain/value], [domain/entity]
    and [application/service] of the e-commerce backend, together with
    the properties of Money arithmetic, stock reduction, the basket, the
    order status machine and the checkout sequence.

    Conventions of the embedding.
    - Go's [int64], and [int] on the 64-bit targets the server is built
      for, are integers of [Z] kept in range by [wrap64], which is written
      at every arithmetic operation of the source.
    - A Go [error] is its message.  A function returning [(T, error)] is a
      function into [result T]; a method that mutates its receiver and
      returns [error] is a function into the receiver after the call
      paired with [option error].
    - A pointer parameter that the source compares with [nil] is an
      [option]; the other pointers are taken non-nil (the source would
      dereference nil and panic there).
    - [time.Now()] and [uuid.New().String()] are read from the
      environment: they are explicit parameters.
    - The repositories are the interfaces of [domain/repository]; their
      state is a finite map from identifiers to entities, with the
      operations of [mockProductRepo] (product_service_test.go) and the
      not-found messages of the SQL implementations. *)

From Stdlib Require Import ZArith Lia List.
From stdpp Require Import gmap strings list fin_maps.

Open Scope string_scope.
Open Scope Z_scope.

(** ** Go runtime: machine integers, errors *)

Module Go.

Definition min_int64 : Z := - 2 ^ 63.
Definition max_int64 : Z := 2 ^ 63 - 1.

(** Two's complement wrap-around of a 64-bit signed integer. *)
Definition wrap64 (z : Z) : Z := (z + 2 ^ 63) mod 2 ^ 64 - 2 ^ 63.

Definition in_int64 (z : Z) : Prop := min_int64 <= z <= max_int64.

Definition error : Type := string.

Inductive result (A : Type) : Type :=
| Ok (a : A)
| Err (e : error).
Arguments Ok {A} a.
Arguments Err {A} e.

Definition bind {A B : Type} (r : result A) (k : A -> result B) : result B :=
  match r with
  | Ok a => k a
  | Err e => Err e
  end.

Definition is_Ok {A : Type} (r : result A) : Prop :=
  match r with Ok _ => True | Err _ => False end.

Definition is_Err {A : Type} (r : result A) : Prop :=
  match r with Ok _ => False | Err _ => True end.

Definition Time : Type := Z.

End Go.
Export Go.

Notation "'try' x <- e ; k" := (bind e (fun x => k))
  (at level 10, x name, e at level 100, k at level 200).

(** ** package value *)

Module Value.

(** type Money struct { amount int64; currency string } *)
Record Money : Type := mkMoney { amount : Z; currency : string }.

Definition NewMoney (amount : Z) (currency : string) : result Money :=
  if amount <? 0 then Err "amount cannot be negative"
  else if decide (currency = "") then Err "currency cannot be empty"
  else Ok (mkMoney amount currency).

Definition Money_Add (m other : Money) : result Money :=
  if decide (currency m <> currency other)
  then Err "cannot add money with different currencies"
  else NewMoney (wrap64 (amount m + amount other)) (currency m).

(** [quantity] is a Go [int]; [int64(quantity)] is the identity on 64 bits. *)
Definition Money_Multiply (m : Money) (quantity : Z) : result Money :=
  if quantity <? 0 then Err "quantity cannot be negative"
  else NewMoney (wrap64 (amount m * quantity)) (currency m).

Definition Money_Equals (m other : Money) : bool :=
  (amount m =? amount other) && bool_decide (currency m = currency other).

(** type Quantity struct { value int } *)
Record Quantity : Type := mkQuantity { value : Z }.

Definition NewQuantity (value : Z) : result Quantity :=
  if value <? 0 then Err "quantity cannot be negative"
  else Ok (mkQuantity value).

Definition Quantity_Add (q other : Quantity) : result Quantity :=
  NewQuantity (wrap64 (value q + value other)).

Definition Quantity_Subtract (q other : Quantity) : result Quantity :=
  let result := wrap64 (value q - value other) in
  if result <? 0 then Err "resulting quantity cannot be negative"
  else NewQuantity result.

Definition Quantity_IsZero (q : Quantity) : bool := value q =? 0.

Definition Quantity_Equals (q other : Quantity) : bool := value q =? value other.

(** What the constructors guarantee: the fields are unexported, so every
    [Money] and [Quantity] of the program went through [NewMoney] or
    [NewQuantity] with an argument of its machine type. *)
Definition Money_valid (m : Money) : Prop :=
  0 <= amount m <= max_int64 /\ currency m <> "".

Definition Quantity_valid (q : Quantity) : Prop :=
  0 <= value q <= max_int64.

End Value.
Export Value.

(** ** package entity *)

Module Entity.

(** *** Product *)

Record Product : Type := mkProduct {
  Product_id : string;
  Product_name : string;
  Product_description : string;
  Product_price : Money;
  Product_stock : Quantity;
  Product_createdAt : Time;
  Product_updatedAt : Time
}.

Definition NewProduct (name description : string)
    (price : option Money) (stock : option Quantity)
    (uuid : string) (now : Time) : result Product :=
  if decide (name = "") then Err "product name cannot be empty"
  else match price with
  | None => Err "product price cannot be nil"
  | Some price =>
    match stock with
    | None => Err "product stock cannot be nil"
    | Some stock => Ok (mkProduct uuid name description price stock now now)
    end
  end.

Definition ReconstructProduct (id name description : string)
    (price : Money) (stock : Quantity) (createdAt updatedAt : Time) : Product :=
  mkProduct id name description price stock createdAt updatedAt.

Definition Product_UpdateDetails (p : Product) (name description : string)
    (price : option Money) (now : Time) : Product * option error :=
  if decide (name = "") then (p, Some "product name cannot be empty")
  else match price with
  | None => (p, Some "product price cannot be nil")
  | Some price =>
    (mkProduct (Product_id p) name description price (Product_stock p)
       (Product_createdAt p) now, None)
  end.

Definition Product_UpdateStock (p : Product) (stock : option Quantity)
    (now : Time) : Product * option error :=
  match stock with
  | None => (p, Some "product stock cannot be nil")
  | Some stock =>
    (mkProduct (Product_id p) (Product_name p) (Product_description p)
       (Product_price p) stock (Product_createdAt p) now, None)
  end.

Definition Product_ReduceStock (p : Product) (quantity : Quantity)
    (now : Time) : Product * option error :=
  match Quantity_Subtract (Product_stock p) quantity with
  | Err _ => (p, Some "insufficient stock")
  | Ok newStock =>
    (mkProduct (Product_id p) (Product_name p) (Product_description p)
       (Product_price p) newStock (Product_createdAt p) now, None)
  end.

Definition Product_IsAvailable (p : Product) : bool :=
  negb (Quantity_IsZero (Product_stock p)).

(** *** Basket *)

Record BasketItem : Type := mkBasketItem {
  BasketItem_productID : string;
  BasketItem_quantity : Quantity;
  BasketItem_price : Money
}.

Definition NewBasketItem (productID : string)
    (quantity : option Quantity) (price : option Money) : result BasketItem :=
  if decide (productID = "") then Err "product ID cannot be empty"
  else match quantity with
  | None => Err "quantity must be greater than zero"
  | Some quantity =>
    if Quantity_IsZero quantity then Err "quantity must be greater than zero"
    else match price with
    | None => Err "price cannot be nil"
    | Some price => Ok (mkBasketItem productID quantity price)
    end
  end.

Definition BasketItem_Subtotal (bi : BasketItem) : result Money :=
  Money_Multiply (BasketItem_price bi) (value (BasketItem_quantity bi)).

Record Basket : Type := mkBasket {
  Basket_id : string;
  Basket_items : list BasketItem;
  Basket_createdAt : Time;
  Basket_updatedAt : Time
}.

Definition NewBasket (uuid : string) (now : Time) : Basket :=
  mkBasket uuid [] now now.

Definition ReconstructBasket (id : string) (items : list BasketItem)
    (createdAt updatedAt : Time) : Basket :=
  mkBasket id items createdAt updatedAt.

(** [b.items = items; b.updatedAt = time.Now()] *)
Definition Basket_set_items (b : Basket) (items : list BasketItem)
    (now : Time) : Basket :=
  mkBasket (Basket_id b) items (Basket_createdAt b) now.

(** [for i, item := range b.items { if item.productID == productID {..} }]:
    the first index whose item has the product ID, with that item. *)
Definition Basket_find (b : Basket) (productID : string)
    : option (nat * BasketItem) :=
  list_find (fun item => BasketItem_productID item = productID)
    (Basket_items b).

Definition Basket_AddItem (b : Basket) (productID : string)
    (quantity : Quantity) (price : option Money) (now : Time)
    : Basket * option error :=
  match Basket_find b productID with
  | Some (i, item) =>
    match Quantity_Add (BasketItem_quantity item) quantity with
    | Err err => (b, Some err)
    | Ok newQuantity =>
      match NewBasketItem productID (Some newQuantity) price with
      | Err err => (b, Some err)
      | Ok newItem =>
        (Basket_set_items b (<[i := newItem]> (Basket_items b)) now, None)
      end
    end
  | None =>
    match NewBasketItem productID (Some quantity) price with
    | Err err => (b, Some err)
    | Ok item => (Basket_set_items b (Basket_items b ++ [item]) now, None)
    end
  end.

(** [append(b.items[:i], b.items[i+1:]...)] *)
Definition Basket_RemoveItem (b : Basket) (productID : string) (now : Time)
    : Basket * option error :=
  match Basket_find b productID with
  | Some (i, _) =>
    (Basket_set_items b
       (take i (Basket_items b) ++ drop (S i) (Basket_items b)) now, None)
  | None => (b, Some "item not found in basket")
  end.

Definition Basket_UpdateItemQuantity (b : Basket) (productID : string)
    (quantity : Quantity) (now : Time) : Basket * option error :=
  if Quantity_IsZero quantity then Basket_RemoveItem b productID now
  else match Basket_find b productID with
  | Some (i, item) =>
    match NewBasketItem productID (Some quantity) (Some (BasketItem_price item)) with
    | Err err => (b, Some err)
    | Ok newItem =>
      (Basket_set_items b (<[i := newItem]> (Basket_items b)) now, None)
    end
  | None => (b, Some "item not found in basket")
  end.

Definition Basket_Clear (b : Basket) (now : Time) : Basket :=
  Basket_set_items b [] now.

Definition Basket_IsEmpty (b : Basket) : bool :=
  (length (Basket_items b) =? 0)%nat.

(** The loop of [Total]: [total, err = total.Add(subtotal)] over the items. *)
Fixpoint Basket_Total_loop (total : Money) (items : list BasketItem)
    : result Money :=
  match items with
  | [] => Ok total
  | item :: rest =>
    try subtotal <- BasketItem_Subtotal item;
    try total' <- Money_Add total subtotal;
    Basket_Total_loop total' rest
  end.

Definition Basket_Total (b : Basket) : result Money :=
  if Basket_IsEmpty b then NewMoney 0 "USD"
  else match Basket_items b with
  | [] => NewMoney 0 "USD"
  | first :: _ =>
    try total <- NewMoney 0 (currency (BasketItem_price first));
    Basket_Total_loop total (Basket_items b)
  end.

Definition Basket_ItemCount (b : Basket) : Z :=
  fold_left (fun count item => wrap64 (count + value (BasketItem_quantity item)))
    (Basket_items b) 0.

(** *** Order *)

Definition OrderStatus : Type := string.
Definition OrderStatusPending : OrderStatus := "PENDING".
Definition OrderStatusConfirmed : OrderStatus := "CONFIRMED".
Definition OrderStatusShipped : OrderStatus := "SHIPPED".
Definition OrderStatusDelivered : OrderStatus := "DELIVERED".
Definition OrderStatusCancelled : OrderStatus := "CANCELLED".

Record OrderItem : Type := mkOrderItem {
  OrderItem_productID : string;
  OrderItem_quantity : Quantity;
  OrderItem_price : Money
}.

Definition NewOrderItem (productID : string)
    (quantity : option Quantity) (price : option Money) : result OrderItem :=
  if decide (productID = "") then Err "product ID cannot be empty"
  else match quantity with
  | None => Err "quantity must be greater than zero"
  | Some quantity =>
    if Quantity_IsZero quantity then Err "quantity must be greater than zero"
    else match price with
    | None => Err "price cannot be nil"
    | Some price => Ok (mkOrderItem productID quantity price)
    end
  end.

Definition OrderItem_Subtotal (oi : OrderItem) : result Money :=
  Money_Multiply (OrderItem_price oi) (value (OrderItem_quantity oi)).

Record Order : Type := mkOrder {
  Order_id : string;
  Order_items : list OrderItem;
  Order_total : Money;
  Order_status : OrderStatus;
  Order_createdAt : Time;
  Order_updatedAt : Time
}.

(** First loop of [NewOrder]: basket items to order items, in order. *)
Fixpoint NewOrder_convert (basketItems : list BasketItem)
    : result (list OrderItem) :=
  match basketItems with
  | [] => Ok []
  | bi :: rest =>
    try orderItem <- NewOrderItem (BasketItem_productID bi)
                       (Some (BasketItem_quantity bi)) (Some (BasketItem_price bi));
    try orderItems <- NewOrder_convert rest;
    Ok (orderItem :: orderItems)
  end.

(** Second loop of [NewOrder]: the total of the order items. *)
Fixpoint NewOrder_total_loop (total : Money) (orderItems : list OrderItem)
    : result Money :=
  match orderItems with
  | [] => Ok total
  | item :: rest =>
    try subtotal <- OrderItem_Subtotal item;
    try total' <- Money_Add total subtotal;
    NewOrder_total_loop total' rest
  end.

Definition NewOrder (basketItems : list BasketItem)
    (uuid : string) (now : Time) : result Order :=
  match basketItems with
  | [] => Err "cannot create order with empty basket"
  | first :: _ =>
    try orderItems <- NewOrder_convert basketItems;
    try total <- NewMoney 0 (currency (BasketItem_price first));
    try total <- NewOrder_total_loop total orderItems;
    Ok (mkOrder uuid orderItems total OrderStatusPending now now)
  end.

Definition ReconstructOrder (id : string) (items : list OrderItem)
    (total : Money) (status : OrderStatus) (createdAt updatedAt : Time) : Order :=
  mkOrder id items total status createdAt updatedAt.

(** [o.status = status; o.updatedAt = time.Now()] *)
Definition Order_set_status (o : Order) (status : OrderStatus) (now : Time)
    : Order :=
  mkOrder (Order_id o) (Order_items o) (Order_total o) status
    (Order_createdAt o) now.

Definition Order_Confirm (o : Order) (now : Time) : Order * option error :=
  if decide (Order_status o <> OrderStatusPending)
  then (o, Some "only pending orders can be confirmed")
  else (Order_set_status o OrderStatusConfirmed now, None).

Definition Order_Ship (o : Order) (now : Time) : Order * option error :=
  if decide (Order_status o <> OrderStatusConfirmed)
  then (o, Some "only confirmed orders can be shipped")
  else (Order_set_status o OrderStatusShipped now, None).

Definition Order_Deliver (o : Order) (now : Time) : Order * option error :=
  if decide (Order_status o <> OrderStatusShipped)
  then (o, Some "only shipped orders can be delivered")
  else (Order_set_status o OrderStatusDelivered now, None).

Definition Order_Cancel (o : Order) (now : Time) : Order * option error :=
  if decide (Order_status o = OrderStatusDelivered)
  then (o, Some "delivered orders cannot be cancelled")
  else if decide (Order_status o = OrderStatusCancelled)
  then (o, Some "order is already cancelled")
  else (Order_set_status o OrderStatusCancelled now, None).

Definition Order_IsCancellable (o : Order) : bool :=
  bool_decide (Order_status o <> OrderStatusDelivered)
  && bool_decide (Order_status o <> OrderStatusCancelled).

End Entity.
Export Entity.

(** ** package service: the order service over in-memory repositories *)

Module Service.

(** *** Repositories *)

Definition ProductRepo_FindByID (products : gmap string Product) (id : string)
    : result Product :=
  match products !! id with
  | Some product => Ok product
  | None => Err "product not found"
  end.

Definition ProductRepo_Update (products : gmap string Product)
    (product : Product) : gmap string Product * option error :=
  match products !! Product_id product with
  | None => (products, Some "product not found")
  | Some _ => (<[Product_id product := product]> products, None)
  end.

Definition BasketRepo_FindByID (baskets : gmap string Basket) (id : string)
    : result Basket :=
  match baskets !! id with
  | Some basket => Ok basket
  | None => Err "basket not found"
  end.

Definition BasketRepo_Update (baskets : gmap string Basket)
    (basket : Basket) : gmap string Basket * option error :=
  match baskets !! Basket_id basket with
  | None => (baskets, Some "basket not found")
  | Some _ => (<[Basket_id basket := basket]> baskets, None)
  end.

Definition OrderRepo_Save (orders : gmap string Order) (order : Order)
    : gmap string Order * option error :=
  (<[Order_id order := order]> orders, None).

(** The three repositories an [OrderService] holds. *)
Record Store : Type := mkStore {
  orderRepo : gmap string Order;
  basketRepo : gmap string Basket;
  productRepo : gmap string Product
}.

(** *** DTOs *)

Record CreateOrderRequest : Type := mkCreateOrderRequest { BasketID : string }.

Record OrderItemResponse : Type := mkOrderItemResponse {
  OrderItemResponse_ProductID : string;
  OrderItemResponse_Quantity : Z;
  OrderItemResponse_Price : Z;
  OrderItemResponse_Currency : string;
  OrderItemResponse_Subtotal : Z
}.

Record OrderResponse : Type := mkOrderResponse {
  OrderResponse_ID : string;
  OrderResponse_Items : list OrderItemResponse;
  OrderResponse_Total : Z;
  OrderResponse_Currency : string;
  OrderResponse_Status : string;
  OrderResponse_CreatedAt : Time;
  OrderResponse_UpdatedAt : Time
}.

(** [subtotal, _ := item.Subtotal()] drops the error and reads
    [subtotal.Amount()]: on a failed subtotal that is a nil dereference,
    which aborts the request with Go's runtime panic. *)
Definition nil_dereference : error :=
  "runtime error: invalid memory address or nil pointer dereference".

Fixpoint toOrderResponse_items (items : list OrderItem)
    : result (list OrderItemResponse) :=
  match items with
  | [] => Ok []
  | item :: rest =>
    match OrderItem_Subtotal item with
    | Err _ => Err nil_dereference
    | Ok subtotal =>
      try responses <- toOrderResponse_items rest;
      Ok (mkOrderItemResponse (OrderItem_productID item)
            (value (OrderItem_quantity item))
            (amount (OrderItem_price item))
            (currency (OrderItem_price item))
            (amount subtotal) :: responses)
    end
  end.

Definition toOrderResponse (order : Order) : result OrderResponse :=
  try items <- toOrderResponse_items (Order_items order);
  Ok (mkOrderResponse (Order_id order) items
        (amount (Order_total order)) (currency (Order_total order))
        (Order_status order) (Order_createdAt order) (Order_updatedAt order)).

(** *** CreateOrder (checkout) *)

(** First pass: "Verify stock availability for all items".  [None] when
    every item passes, else the error of the first item that does not. *)
Fixpoint CreateOrder_verify (products : gmap string Product)
    (items : list BasketItem) : option error :=
  match items with
  | [] => None
  | item :: rest =>
    match ProductRepo_FindByID products (BasketItem_productID item) with
    | Err err => Some err
    | Ok product =>
      if value (Product_stock product) <? value (BasketItem_quantity item)
      then Some ("insufficient stock for product: " +:+ Product_name product)
      else CreateOrder_verify products rest
    end
  end.

(** Second pass: "Reduce stock for all items".  [now k] is the reading of
    the clock at the [k]-th item.  The repository is returned as the loop
    left it, also when it stops on an error. *)
Fixpoint CreateOrder_reduce (products : gmap string Product)
    (items : list BasketItem) (now : nat -> Time) (k : nat)
    : gmap string Product * option error :=
  match items with
  | [] => (products, None)
  | item :: rest =>
    match ProductRepo_FindByID products (BasketItem_productID item) with
    | Err err => (products, Some err)
    | Ok product =>
      match Product_ReduceStock product (BasketItem_quantity item) (now k) with
      | (_, Some err) => (products, Some err)
      | (product', None) =>
        match ProductRepo_Update products product' with
        | (products', Some err) => (products', Some err)
        | (products', None) => CreateOrder_reduce products' rest now (S k)
        end
      end
    end
  end.

Definition OrderService_CreateOrder (s : Store) (req : CreateOrderRequest)
    (uuid : string) (now : nat -> Time) : Store * result OrderResponse :=
  if decide (BasketID req = "") then (s, Err "basket ID is required")
  else match BasketRepo_FindByID (basketRepo s) (BasketID req) with
  | Err err => (s, Err err)
  | Ok basket =>
    if Basket_IsEmpty basket
    then (s, Err "cannot create order from empty basket")
    else match CreateOrder_verify (productRepo s) (Basket_items basket) with
    | Some err => (s, Err err)
    | None =>
      let n := length (Basket_items basket) in
      let '(products, reduced) :=
        CreateOrder_reduce (productRepo s) (Basket_items basket) now 0 in
      let s1 := mkStore (orderRepo s) (basketRepo s) products in
      match reduced with
      | Some err => (s1, Err err)
      | None =>
        match NewOrder (Basket_items basket) uuid (now n) with
        | Err err => (s1, Err err)
        | Ok order =>
          match OrderRepo_Save (orderRepo s1) order with
          | (_, Some err) => (s1, Err err)
          | (orders, None) =>
            let s2 := mkStore orders (basketRepo s1) (productRepo s1) in
            let basket' := Basket_Clear basket (now (S n)) in
            match BasketRepo_Update (basketRepo s2) basket' with
            | (_, Some err) => (s2, Err err)
            | (baskets, None) =>
              (mkStore (orderRepo s2) baskets (productRepo s2),
               toOrderResponse order)
            end
          end
        end
      end
    end
  end.

(** *** Repositories: the remaining operations *)

Definition ProductRepo_Save (products : gmap string Product)
    (product : Product) : gmap string Product * option error :=
  (<[Product_id product := product]> products, None).

Definition ProductRepo_Delete (products : gmap string Product) (id : string)
    : gmap string Product * option error :=
  match products !! id with
  | None => (products, Some "product not found")
  | Some _ => (delete id products, None)
  end.

Definition ProductRepo_ExistsByID (products : gmap string Product)
    (id : string) : bool :=
  bool_decide (is_Some (products !! id)).

Definition BasketRepo_Save (baskets : gmap string Basket) (basket : Basket)
    : gmap string Basket * option error :=
  (<[Basket_id basket := basket]> baskets, None).

Definition OrderRepo_FindByID (orders : gmap string Order) (id : string)
    : result Order :=
  match orders !! id with
  | Some order => Ok order
  | None => Err "order not found"
  end.

Definition OrderRepo_Update (orders : gmap string Order) (order : Order)
    : gmap string Order * option error :=
  match orders !! Order_id order with
  | None => (orders, Some "order not found")
  | Some _ => (<[Order_id order := order]> orders, None)
  end.

(** *** ProductService *)

Record CreateProductRequest : Type := mkCreateProductRequest {
  CreateProductRequest_Name : string;
  CreateProductRequest_Description : string;
  CreateProductRequest_Price : Z;
  CreateProductRequest_Currency : string;
  CreateProductRequest_Stock : Z
}.

Record UpdateProductRequest : Type := mkUpdateProductRequest {
  UpdateProductRequest_Name : string;
  UpdateProductRequest_Description : string;
  UpdateProductRequest_Price : Z;
  UpdateProductRequest_Currency : string
}.

Record UpdateStockRequest : Type := mkUpdateStockRequest {
  UpdateStockRequest_Stock : Z
}.

Record ProductResponse : Type := mkProductResponse {
  ProductResponse_ID : string;
  ProductResponse_Name : string;
  ProductResponse_Description : string;
  ProductResponse_Price : Z;
  ProductResponse_Currency : string;
  ProductResponse_Stock : Z;
  ProductResponse_CreatedAt : Time;
  ProductResponse_UpdatedAt : Time
}.

Definition toProductResponse (product : Product) : ProductResponse :=
  mkProductResponse (Product_id product) (Product_name product)
    (Product_description product) (amount (Product_price product))
    (currency (Product_price product)) (value (Product_stock product))
    (Product_createdAt product) (Product_updatedAt product).

Definition ProductService_CreateProduct (products : gmap string Product)
    (req : CreateProductRequest) (uuid : string) (now : Time)
    : gmap string Product * result ProductResponse :=
  if decide (CreateProductRequest_Name req = "")
  then (products, Err "product name is required")
  else if CreateProductRequest_Price req <? 0
  then (products, Err "price cannot be negative")
  else if CreateProductRequest_Stock req <? 0
  then (products, Err "stock cannot be negative")
  else match NewMoney (CreateProductRequest_Price req)
               (CreateProductRequest_Currency req) with
  | Err err => (products, Err err)
  | Ok price =>
    match NewQuantity (CreateProductRequest_Stock req) with
    | Err err => (products, Err err)
    | Ok stock =>
      match NewProduct (CreateProductRequest_Name req)
              (CreateProductRequest_Description req)
              (Some price) (Some stock) uuid now with
      | Err err => (products, Err err)
      | Ok product =>
        match ProductRepo_Save products product with
        | (_, Some err) => (products, Err err)
        | (products', None) => (products', Ok (toProductResponse product))
        end
      end
    end
  end.


Definition ProductService_UpdateProduct (products : gmap string Product)
    (id : string) (req : UpdateProductRequest) (now : Time)
    : gmap string Product * result ProductResponse :=
  if decide (UpdateProductRequest_Name req = "")
  then (products, Err "product name is required")
  else if UpdateProductRequest_Price req <? 0
  then (products, Err "price cannot be negative")
  else match ProductRepo_FindByID products id with
  | Err err => (products, Err err)
  | Ok product =>
    match NewMoney (UpdateProductRequest_Price req)
            (UpdateProductRequest_Currency req) with
    | Err err => (products, Err err)
    | Ok price =>
      match Product_UpdateDetails product (UpdateProductRequest_Name req)
              (UpdateProductRequest_Description req) (Some price) now with
      | (_, Some err) => (products, Err err)
      | (product', None) =>
        match ProductRepo_Update products product' with
        | (_, Some err) => (products, Err err)
        | (products', None) => (products', Ok (toProductResponse product'))
        end
      end
    end
  end.

Definition ProductService_UpdateStock (products : gmap string Product)
    (id : string) (req : UpdateStockRequest) (now : Time)
    : gmap string Product * result ProductResponse :=
  if UpdateStockRequest_Stock req <? 0
  then (products, Err "stock cannot be negative")
  else match ProductRepo_FindByID products id with
  | Err err => (products, Err err)
  | Ok product =>
    match NewQuantity (UpdateStockRequest_Stock req) with
    | Err err => (products, Err err)
    | Ok stock =>
      match Product_UpdateStock product (Some stock) now with
      | (_, Some err) => (products, Err err)
      | (product', None) =>
        match ProductRepo_Update products product' with
        | (_, Some err) => (products, Err err)
        | (products', None) => (products', Ok (toProductResponse product'))
        end
      end
    end
  end.

Definition ProductService_DeleteProduct (products : gmap string Product)
    (id : string) : gmap string Product * option error :=
  if ProductRepo_ExistsByID products id
  then ProductRepo_Delete products id
  else (products, Some "product not found").

(** *** BasketService *)

Record AddItemRequest : Type := mkAddItemRequest {
  AddItemRequest_ProductID : string;
  AddItemRequest_Quantity : Z
}.

Record UpdateItemQuantityRequest : Type := mkUpdateItemQuantityRequest {
  UpdateItemQuantityRequest_Quantity : Z
}.

Record BasketItemResponse : Type := mkBasketItemResponse {
  BasketItemResponse_ProductID : string;
  BasketItemResponse_Quantity : Z;
  BasketItemResponse_Price : Z;
  BasketItemResponse_Currency : string;
  BasketItemResponse_Subtotal : Z
}.

Record BasketResponse : Type := mkBasketResponse {
  BasketResponse_ID : string;
  BasketResponse_Items : list BasketItemResponse;
  BasketResponse_Total : Z;
  BasketResponse_Currency : string;
  BasketResponse_ItemCount : Z;
  BasketResponse_CreatedAt : Time;
  BasketResponse_UpdatedAt : Time
}.

Fixpoint toBasketResponse_items (items : list BasketItem)
    : result (list BasketItemResponse) :=
  match items with
  | [] => Ok []
  | item :: rest =>
    try subtotal <- BasketItem_Subtotal item;
    try responses <- toBasketResponse_items rest;
    Ok (mkBasketItemResponse (BasketItem_productID item)
          (value (BasketItem_quantity item))
          (amount (BasketItem_price item))
          (currency (BasketItem_price item))
          (amount subtotal) :: responses)
  end.

Definition toBasketResponse (basket : Basket) : result BasketResponse :=
  try items <- toBasketResponse_items (Basket_items basket);
  try total <- Basket_Total basket;
  let currency :=
    match Basket_items basket with
    | [] => "USD"
    | first :: _ => currency (BasketItem_price first)
    end in
  Ok (mkBasketResponse (Basket_id basket) items (amount total) currency
        (Basket_ItemCount basket) (Basket_createdAt basket)
        (Basket_updatedAt basket)).

Definition BasketService_CreateBasket (s : Store) (uuid : string) (now : Time)
    : Store * result BasketResponse :=
  let basket := NewBasket uuid now in
  match BasketRepo_Save (basketRepo s) basket with
  | (_, Some err) => (s, Err err)
  | (baskets, None) =>
    (mkStore (orderRepo s) baskets (productRepo s), toBasketResponse basket)
  end.

Definition BasketService_GetBasket (s : Store) (id : string)
    : result BasketResponse :=
  try basket <- BasketRepo_FindByID (basketRepo s) id;
  toBasketResponse basket.

(** The tail shared by the mutating operations: "Persist", then the
    response; the basket is stored before the response is computed. *)
Definition BasketService_persist (s : Store) (basket : Basket)
    : Store * result BasketResponse :=
  match BasketRepo_Update (basketRepo s) basket with
  | (_, Some err) => (s, Err err)
  | (baskets, None) =>
    (mkStore (orderRepo s) baskets (productRepo s), toBasketResponse basket)
  end.

Definition BasketService_AddItem (s : Store) (basketID : string)
    (req : AddItemRequest) (now : Time) : Store * result BasketResponse :=
  if decide (AddItemRequest_ProductID req = "")
  then (s, Err "product ID is required")
  else if AddItemRequest_Quantity req <=? 0
  then (s, Err "quantity must be greater than zero")
  else match BasketRepo_FindByID (basketRepo s) basketID with
  | Err err => (s, Err err)
  | Ok basket =>
    match ProductRepo_FindByID (productRepo s) (AddItemRequest_ProductID req) with
    | Err err => (s, Err err)
    | Ok product =>
      match NewQuantity (AddItemRequest_Quantity req) with
      | Err err => (s, Err err)
      | Ok requestedQty =>
        if value (Product_stock product) <? AddItemRequest_Quantity req
        then (s, Err "insufficient stock")
        else match Basket_AddItem basket (Product_id product) requestedQty
                     (Some (Product_price product)) now with
        | (_, Some err) => (s, Err err)
        | (basket', None) => BasketService_persist s basket'
        end
      end
    end
  end.

Definition BasketService_RemoveItem (s : Store) (basketID productID : string)
    (now : Time) : Store * result BasketResponse :=
  match BasketRepo_FindByID (basketRepo s) basketID with
  | Err err => (s, Err err)
  | Ok basket =>
    match Basket_RemoveItem basket productID now with
    | (_, Some err) => (s, Err err)
    | (basket', None) => BasketService_persist s basket'
    end
  end.

Definition BasketService_UpdateItemQuantity (s : Store)
    (basketID productID : string) (req : UpdateItemQuantityRequest)
    (now : Time) : Store * result BasketResponse :=
  if UpdateItemQuantityRequest_Quantity req <? 0
  then (s, Err "quantity cannot be negative")
  else match BasketRepo_FindByID (basketRepo s) basketID with
  | Err err => (s, Err err)
  | Ok basket =>
    if UpdateItemQuantityRequest_Quantity req =? 0
    then match Basket_RemoveItem basket productID now with
         | (_, Some err) => (s, Err err)
         | (basket', None) => BasketService_persist s basket'
         end
    else match ProductRepo_FindByID (productRepo s) productID with
    | Err err => (s, Err err)
    | Ok product =>
      if value (Product_stock product) <? UpdateItemQuantityRequest_Quantity req
      then (s, Err "insufficient stock")
      else match NewQuantity (UpdateItemQuantityRequest_Quantity req) with
      | Err err => (s, Err err)
      | Ok quantity =>
        match Basket_UpdateItemQuantity basket productID quantity now with
        | (_, Some err) => (s, Err err)
        | (basket', None) => BasketService_persist s basket'
        end
      end
    end
  end.

Definition BasketService_ClearBasket (s : Store) (basketID : string)
    (now : Time) : Store * result BasketResponse :=
  match BasketRepo_FindByID (basketRepo s) basketID with
  | Err err => (s, Err err)
  | Ok basket => BasketService_persist s (Basket_Clear basket now)
  end.

(** *** OrderService: reading and moving an order *)

Definition OrderService_GetOrder (s : Store) (id : string)
    : result OrderResponse :=
  try order <- OrderRepo_FindByID (orderRepo s) id;
  toOrderResponse order.

(** [ConfirmOrder], [ShipOrder], [DeliverOrder] and [CancelOrder] are one
    body around the method of [Order] they call. *)
Definition OrderService_transition
    (method : Order -> Time -> Order * option error)
    (s : Store) (id : string) (now : Time) : Store * result OrderResponse :=
  match OrderRepo_FindByID (orderRepo s) id with
  | Err err => (s, Err err)
  | Ok order =>
    match method order now with
    | (_, Some err) => (s, Err err)
    | (order', None) =>
      match OrderRepo_Update (orderRepo s) order' with
      | (_, Some err) => (s, Err err)
      | (orders, None) =>
        (mkStore orders (basketRepo s) (productRepo s), toOrderResponse order')
      end
    end
  end.

Definition OrderService_ConfirmOrder := OrderService_transition Order_Confirm.
Definition OrderService_ShipOrder := OrderService_transition Order_Ship.
Definition OrderService_DeliverOrder := OrderService_transition Order_Deliver.
Definition OrderService_CancelOrder := OrderService_transition Order_Cancel.

End Service.
Export Service.

(** ** Specification-side definitions *)

(** Adding [m] to the zero Money of its currency [n] times, with the
    program's own [NewMoney] and [Money_Add]. *)
Fixpoint Money_add_times (m : Money) (n : nat) : result Money :=
  match n with
  | O => NewMoney 0 (currency m)
  | S k => try acc <- Money_add_times m k; Money_Add acc m
  end.

(** A call that mutates its receiver succeeded when it returned no error. *)
Definition succeeds {A : Type} (r : A * option error) : Prop := r.2 = None.

(** What [NewBasketItem] guarantees of an item, given arguments that are
    themselves valid. *)
Definition BasketItem_valid (item : BasketItem) : Prop :=
  BasketItem_productID item <> "" /\
  Quantity_valid (BasketItem_quantity item) /\
  value (BasketItem_quantity item) <> 0 /\
  Money_valid (BasketItem_price item).

(** The items with a given product ID. *)
Definition Basket_items_of (b : Basket) (productID : string) : list BasketItem :=
  filter (fun item => BasketItem_productID item = productID) (Basket_items b).

(** The sum of the subtotals (price times quantity), in the integers. *)
Definition subtotal_sum (items : list BasketItem) : Z :=
  foldr (fun item acc =>
           amount (BasketItem_price item) * value (BasketItem_quantity item) + acc)
    0 items.

(** The two invariants of a basket: no product ID twice, and every item
    with a positive quantity. *)
Definition Basket_inv (b : Basket) : Prop :=
  NoDup (BasketItem_productID <$> Basket_items b) /\
  Forall (fun item => 0 < value (BasketItem_quantity item)) (Basket_items b).

(** The baskets built by [NewBasket] and changed only by the methods of
    [Basket], whatever they returned. *)
Inductive Basket_built : Basket -> Prop :=
| built_NewBasket uuid now :
    Basket_built (NewBasket uuid now)
| built_AddItem b productID quantity price now :
    Basket_built b -> Quantity_valid quantity ->
    Basket_built (Basket_AddItem b productID quantity price now).1
| built_RemoveItem b productID now :
    Basket_built b ->
    Basket_built (Basket_RemoveItem b productID now).1
| built_UpdateItemQuantity b productID quantity now :
    Basket_built b -> Quantity_valid quantity ->
    Basket_built (Basket_UpdateItemQuantity b productID quantity now).1
| built_Clear b now :
    Basket_built b ->
    Basket_built (Basket_Clear b now).

(** The sequential storage model: a product is stored under its own ID and
    its stock is a valid quantity, as [Save] and [Update] store it. *)
Definition products_wf (products : gmap string Product) : Prop :=
  forall id p, products !! id = Some p ->
    Product_id p = id /\ Quantity_valid (Product_stock p).

(** The item references an existing product whose stock is at least the
    requested quantity. *)
Definition in_stock (products : gmap string Product) (item : BasketItem) : Prop :=
  exists p, products !! BasketItem_productID item = Some p /\
    value (BasketItem_quantity item) <= value (Product_stock p).

(** The item references an existing product whose stock is strictly less
    than the requested quantity. *)
Definition under_stocked (products : gmap string Product) (item : BasketItem)
    : Prop :=
  exists p, products !! BasketItem_productID item = Some p /\
    value (Product_stock p) < value (BasketItem_quantity item).

(** The order item [NewOrderItem] makes of a basket item it accepts. *)
Definition toOrderItem (bi : BasketItem) : OrderItem :=
  mkOrderItem (BasketItem_productID bi) (BasketItem_quantity bi)
    (BasketItem_price bi).

(** The end-to-end scenarios: product "P" at 1000 cents USD, a basket "B",
    an empty order repository, and a clock. *)
Definition scenario_P (stock : Z) : Product :=
  ReconstructProduct "P" "Pen" "" (mkMoney 1000 "USD") (mkQuantity stock) 0 0.

Definition scenario_store (items : list BasketItem)
    (products : gmap string Product) : Store :=
  mkStore ∅ {["B" := ReconstructBasket "B" items 0 0]} products.

Definition scenario_now (k : nat) : Time := Z.of_nat k + 1.

(** The number of units in a list of items, in the integers. *)
Definition quantity_sum (items : list BasketItem) : Z :=
  foldr (fun item acc => value (BasketItem_quantity item) + acc) 0 items.

(** The orders made by [NewOrder] and moved only by the methods of
    [Order], whatever they returned. *)
Inductive Order_built : Order -> Prop :=
| built_NewOrder basketItems uuid now o :
    NewOrder basketItems uuid now = Ok o -> Order_built o
| built_Confirm o now : Order_built o -> Order_built (Order_Confirm o now).1
| built_Ship o now : Order_built o -> Order_built (Order_Ship o now).1
| built_Deliver o now : Order_built o -> Order_built (Order_Deliver o now).1
| built_Cancel o now : Order_built o -> Order_built (Order_Cancel o now).1.

(** What such an order satisfies. *)
Definition Order_inv (o : Order) : Prop :=
  Order_status o ∈ [OrderStatusPending; OrderStatusConfirmed;
                    OrderStatusShipped; OrderStatusDelivered;
                    OrderStatusCancelled] /\
  Order_items o <> [] /\
  Forall (fun item => OrderItem_productID item <> "" /\
                      value (OrderItem_quantity item) <> 0) (Order_items o) /\
  Money_valid (Order_total o).

(** The invariant of the product repository: [products_wf], and every
    price a valid Money. *)
Definition products_inv (products : gmap string Product) : Prop :=
  products_wf products /\
  forall id p, products !! id = Some p -> Money_valid (Product_price p).

(** A well-formed basket: no product ID twice, every item valid. *)
Definition Basket_wf (b : Basket) : Prop :=
  NoDup (BasketItem_productID <$> Basket_items b) /\
  Forall BasketItem_valid (Basket_items b).

(** The invariant of the basket repository: every basket is stored under
    its own ID and is well formed. *)
Definition baskets_inv (baskets : gmap string Basket) : Prop :=
  forall id b, baskets !! id = Some b -> Basket_id b = id /\ Basket_wf b.

(** [p'] is [p] with a stock that is not larger: same ID, name,
    description, price and creation time. *)
Definition stock_not_raised (p p' : Product) : Prop :=
  value (Product_stock p') <= value (Product_stock p) /\
  Product_id p' = Product_id p /\ Product_name p' = Product_name p /\
  Product_description p' = Product_description p /\
  Product_price p' = Product_price p /\
  Product_createdAt p' = Product_createdAt p.

(** The same product IDs, and no stock raised. *)
Definition products_not_raised (products products' : gmap string Product)
    : Prop :=
  forall id, option_Forall2 stock_not_raised (products !! id) (products' !! id).

(** ** The repository's unit tests, replayed on the embedding *)

(** Package value: TestMoney_Add, TestMoney_Multiply. *)
Example test_Money_Add :
  Money_Add (mkMoney 1000 "USD") (mkMoney 500 "USD") = Ok (mkMoney 1500 "USD")
  /\ is_Err (Money_Add (mkMoney 1000 "USD") (mkMoney 1000 "EUR")).
Proof. split; [reflexivity|exact I]. Qed.

Example test_Money_Multiply :
  Money_Multiply (mkMoney 1000 "USD") 3 = Ok (mkMoney 3000 "USD")
  /\ is_Err (Money_Multiply (mkMoney 1000 "USD") (-1)).
Proof. split; [reflexivity|exact I]. Qed.

(** product_test.go: TestProduct_ReduceStock, 10 - 3 = 7, then 7 - 10 fails. *)
Example test_Product_ReduceStock :
  let p := ReconstructProduct "P" "Test" "Test" (mkMoney 1000 "USD") (mkQuantity 10) 0 0 in
  let r := Product_ReduceStock p (mkQuantity 3) 1 in
  value (Product_stock r.1) = 7 /\ r.2 = None /\
  (Product_ReduceStock r.1 (mkQuantity 10) 2).2 = Some "insufficient stock".
Proof. repeat split. Qed.

(** Package entity: TestBasket_AddItem_IncrementsQuantity and
    TestBasket_Total; a basket with product P at 1000 cents, quantity 2, has
    total 2000 and item count 2. *)
Example test_Basket_AddItem_IncrementsQuantity :
  let price := Some (mkMoney 1000 "USD") in
  let b1 := (Basket_AddItem (NewBasket "B" 0) "product-1" (mkQuantity 2) price 1).1 in
  let b2 := (Basket_AddItem b1 "product-1" (mkQuantity 3) price 2).1 in
  length (Basket_items b2) = 1%nat /\ Basket_ItemCount b2 = 5.
Proof. split; reflexivity. Qed.

Example test_Basket_Total :
  let b1 := (Basket_AddItem (NewBasket "B" 0) "product-1" (mkQuantity 2)
               (Some (mkMoney 1000 "USD")) 1).1 in
  let b2 := (Basket_AddItem b1 "product-2" (mkQuantity 1)
               (Some (mkMoney 1500 "USD")) 2).1 in
  Basket_Total b1 = Ok (mkMoney 2000 "USD") /\ Basket_ItemCount b1 = 2 /\
  Basket_Total b2 = Ok (mkMoney 3500 "USD").
Proof. repeat split. Qed.

(** ** Machine integers *)

(** Range side conditions on concrete or bounded quantities. *)
Ltac in_range :=
  unfold Quantity_valid, in_int64, min_int64, max_int64 in *; simpl in *; lia.

Lemma wrap64_id z : in_int64 z -> wrap64 z = z.
Proof.
  unfold in_int64, min_int64, max_int64, wrap64. intros H.
  rewrite Z.mod_small; lia.
Qed.

Lemma wrap64_overflow z : max_int64 < z < 2 ^ 64 -> wrap64 z = z - 2 ^ 64.
Proof.
  unfold max_int64, wrap64. intros H.
  replace (z + 2 ^ 63) with ((z - 2 ^ 63) + 1 * 2 ^ 64) by lia.
  rewrite Z.mod_add by lia. rewrite Z.mod_small; lia.
Qed.

Lemma wrap64_range z : in_int64 (wrap64 z).
Proof.
  unfold in_int64, min_int64, max_int64, wrap64.
  pose proof (Z.mod_pos_bound (z + 2 ^ 63) (2 ^ 64)). lia.
Qed.

(** ** Money *)

Lemma NewMoney_Ok a c :
  0 <= a -> c <> "" -> NewMoney a c = Ok (mkMoney a c).
Proof.
  intros Ha Hc. unfold NewMoney.
  destruct (Z.ltb_spec a 0); [lia|].
  destruct (decide (c = "")); [contradiction|reflexivity].
Qed.

Lemma NewMoney_negative a c :
  a < 0 -> NewMoney a c = Err "amount cannot be negative".
Proof.
  intros Ha. unfold NewMoney. destruct (Z.ltb_spec a 0); [reflexivity|lia].
Qed.

Lemma NewMoney_valid a c m :
  in_int64 a -> NewMoney a c = Ok m -> Money_valid m /\ m = mkMoney a c.
Proof.
  unfold NewMoney, in_int64, Money_valid. intros Ha H.
  destruct (Z.ltb_spec a 0); [discriminate|].
  destruct (decide (c = "")); [discriminate|].
  inversion H; subst; simpl. repeat split; [lia|lia|assumption].
Qed.

(** [Add] on valid operands of one currency: the exact sum when it fits in
    an int64, and the negative-amount error of [NewMoney] when it wraps. *)
Lemma Money_Add_same a b :
  Money_valid a -> Money_valid b -> currency a = currency b ->
  Money_Add a b =
    if amount a + amount b <=? max_int64
    then Ok (mkMoney (amount a + amount b) (currency a))
    else Err "amount cannot be negative".
Proof.
  intros [Ha Hca] [Hb Hcb] Hc. unfold Money_Add.
  destruct (decide (currency a <> currency b)); [contradiction|].
  destruct (Z.leb_spec (amount a + amount b) max_int64).
  - rewrite wrap64_id by in_range.
    apply NewMoney_Ok; [lia|assumption].
  - rewrite wrap64_overflow by (unfold max_int64 in *; lia).
    apply NewMoney_negative. unfold max_int64 in *. lia.
Qed.

Lemma Money_Add_mismatch a b :
  currency a <> currency b ->
  Money_Add a b = Err "cannot add money with different currencies".
Proof.
  intros H. unfold Money_Add.
  destruct (decide (currency a <> currency b)); [reflexivity|contradiction].
Qed.

(** C3: on valid Money values of one currency [Add] is commutative and
    associative (the results are equal as results: the same sum, or the same
    error when the sum leaves the int64 range), and on values of different
    currencies it returns the currency-mismatch error and no Money. *)
Theorem Money_Add_comm_assoc (a b c : Money) :
  Money_valid a -> Money_valid b -> Money_valid c ->
  (currency a = currency b -> Money_Add a b = Money_Add b a) /\
  (currency a = currency b -> currency b = currency c ->
     (try ab <- Money_Add a b; Money_Add ab c)
     = (try bc <- Money_Add b c; Money_Add a bc)) /\
  (currency a <> currency b ->
     Money_Add a b = Err "cannot add money with different currencies").
Proof.
  intros Ha Hb Hc. split; [|split].
  - intros Hab. rewrite !Money_Add_same by (assumption || congruence).
    rewrite (Z.add_comm (amount b)), Hab. reflexivity.
  - intros Hab Hbc.
    rewrite (Money_Add_same a b), (Money_Add_same b c) by assumption.
    pose proof Ha as [Ha' Hca]. pose proof Hb as [Hb' _].
    pose proof Hc as [Hc' _].
    destruct (Z.leb_spec (amount a + amount b) max_int64) as [H1|H1];
      destruct (Z.leb_spec (amount b + amount c) max_int64) as [H2|H2];
      simpl.
    + rewrite !Money_Add_same; simpl; try (assumption || congruence).
      * rewrite Z.add_assoc. reflexivity.
      * split; simpl; [lia|congruence].
      * split; simpl; [lia|assumption].
    + rewrite Money_Add_same; simpl; try (assumption || congruence).
      * destruct (Z.leb_spec (amount a + amount b + amount c) max_int64);
          [lia|reflexivity].
      * split; simpl; [lia|assumption].
    + rewrite Money_Add_same; simpl; try (assumption || congruence).
      * destruct (Z.leb_spec (amount a + (amount b + amount c)) max_int64);
          [lia|reflexivity].
      * split; simpl; [lia|congruence].
    + reflexivity.
  - apply Money_Add_mismatch.
Qed.

Lemma Money_Add_comm_assoc_witness :
  Money_Add (mkMoney 100 "USD") (mkMoney 250 "USD")
    = Money_Add (mkMoney 250 "USD") (mkMoney 100 "USD")
  /\ Money_Add (mkMoney 100 "USD") (mkMoney 100 "EUR")
    = Err "cannot add money with different currencies".
Proof.
  assert (V : forall a c, 0 <= a <= max_int64 -> c <> "" ->
                          Money_valid (mkMoney a c)) by (intros; split; assumption).
  split.
  - apply (Money_Add_comm_assoc (mkMoney 100 "USD") (mkMoney 250 "USD")
             (mkMoney 7 "USD")); try reflexivity;
      apply V; (unfold max_int64; lia) || discriminate.
  - apply (Money_Add_comm_assoc (mkMoney 100 "USD") (mkMoney 100 "EUR")
             (mkMoney 7 "USD")); try discriminate;
      apply V; (unfold max_int64; lia) || discriminate.
Defined.

Lemma Money_Multiply_exact (m : Money) (n : Z) :
  Money_valid m -> 0 <= n -> amount m * n <= max_int64 ->
  Money_Multiply m n = Ok (mkMoney (amount m * n) (currency m)).
Proof.
  intros [Hm Hc] Hn Hfit. unfold Money_Multiply.
  destruct (Z.ltb_spec n 0); [lia|].
  rewrite wrap64_id by (unfold in_int64, min_int64, max_int64 in *; nia).
  apply NewMoney_Ok; [nia|assumption].
Qed.

Lemma Money_add_times_exact (m : Money) (n : nat) :
  Money_valid m -> amount m * Z.of_nat n <= max_int64 ->
  Money_add_times m n = Ok (mkMoney (amount m * Z.of_nat n) (currency m)).
Proof.
  intros Hm. pose proof Hm as [Ha Hc]. induction n as [|n IH]; intros Hfit.
  - simpl. rewrite Z.mul_0_r. apply NewMoney_Ok; [lia|assumption].
  - cbn [Money_add_times]. rewrite IH by nia. cbn [bind].
    rewrite Money_Add_same; simpl; try (assumption || reflexivity).
    + destruct (Z.leb_spec (amount m * Z.of_nat n + amount m) max_int64);
        [|nia].
      do 2 f_equal. lia.
    + split; simpl; [nia|assumption].
Qed.

(** C4 (as amended): for a valid Money [m] and a factor [n >= 0] whose
    product [amount m * n] fits in an int64, [Multiply] succeeds with exactly
    that amount and equals adding [m] to the zero Money of its currency [n]
    times; for every negative [n], [Multiply] fails. *)
Theorem Money_Multiply_repeated_add (m : Money) (n : Z) :
  Money_valid m ->
  (0 <= n -> amount m * n <= max_int64 ->
     Money_Multiply m n = Ok (mkMoney (amount m * n) (currency m)) /\
     Money_Multiply m n = Money_add_times m (Z.to_nat n)) /\
  (n < 0 -> Money_Multiply m n = Err "quantity cannot be negative").
Proof.
  intros Hm. split.
  - intros Hn Hfit. split.
    + apply Money_Multiply_exact; assumption.
    + rewrite Money_Multiply_exact by assumption.
      rewrite Money_add_times_exact; rewrite ?Z2Nat.id; auto.
  - intros Hn. unfold Money_Multiply.
    destruct (Z.ltb_spec n 0); [reflexivity|lia].
Qed.

Lemma Money_Multiply_repeated_add_witness :
  Money_Multiply (mkMoney 1000 "USD") 3 = Ok (mkMoney 3000 "USD")
  /\ Money_Multiply (mkMoney 1000 "USD") 3
     = Money_add_times (mkMoney 1000 "USD") 3
  /\ Money_Multiply (mkMoney 1000 "USD") (-1)
     = Err "quantity cannot be negative".
Proof.
  assert (V : Money_valid (mkMoney 1000 "USD")).
  { split; simpl; [unfold max_int64; lia|discriminate]. }
  destruct (Money_Multiply_repeated_add (mkMoney 1000 "USD") 3 V) as [H3 _].
  destruct (Money_Multiply_repeated_add (mkMoney 1000 "USD") (-1) V) as [_ Hn].
  destruct H3 as [H3a H3b]; [lia|simpl; unfold max_int64; lia|].
  split; [exact H3a|split; [exact H3b|apply Hn; lia]].
Defined.

(** C4, as stated, fails: [Multiply] by a non-negative factor does not always
    succeed, and when it succeeds it need not equal the repeated addition.
    With amount 2^62: the factor 2 wraps to a negative int64 and is
    rejected; the factor 4 wraps to 0 and is returned, while adding four
    times fails. *)
Lemma Money_Multiply_overflow_counterexample :
  let m := mkMoney (2 ^ 62) "USD" in
  Money_valid m /\
  Money_Multiply m 2 = Err "amount cannot be negative" /\
  Money_Multiply m 4 = Ok (mkMoney 0 "USD") /\
  Money_add_times m 4 = Err "amount cannot be negative".
Proof.
  simpl. split; [|split; [|split]]; try reflexivity.
  split; simpl; [unfold max_int64; lia|discriminate].
Qed.

(** ** Quantity and Product *)

Lemma Quantity_Subtract_spec (q other : Quantity) :
  Quantity_valid q -> Quantity_valid other ->
  Quantity_Subtract q other =
    if value q <? value other
    then Err "resulting quantity cannot be negative"
    else Ok (mkQuantity (value q - value other)).
Proof.
  unfold Quantity_valid, Quantity_Subtract. intros Hq Ho. cbv zeta.
  rewrite wrap64_id by in_range.
  destruct (Z.ltb_spec (value q) (value other));
    destruct (Z.ltb_spec (value q - value other) 0); try lia; try reflexivity.
  unfold NewQuantity.
  destruct (Z.ltb_spec (value q - value other) 0); [lia|reflexivity].
Qed.

Lemma Product_ReduceStock_Ok (p : Product) (q : Quantity) (now : Time) :
  Quantity_valid (Product_stock p) -> Quantity_valid q ->
  value q <= value (Product_stock p) ->
  Product_ReduceStock p q now
  = (mkProduct (Product_id p) (Product_name p) (Product_description p)
       (Product_price p) (mkQuantity (value (Product_stock p) - value q))
       (Product_createdAt p) now, None).
Proof.
  intros Hs Hq Hle. unfold Product_ReduceStock.
  rewrite Quantity_Subtract_spec by assumption.
  destruct (Z.ltb_spec (value (Product_stock p)) (value q)); [lia|reflexivity].
Qed.

(** C5: for every product and quantity (valid quantities, as every
    [Quantity] that [NewQuantity] returned is), when the requested quantity
    exceeds the stock, [ReduceStock] returns the insufficient-stock error and
    the product, its stock included, is unchanged; otherwise it succeeds and
    the new stock is the old stock minus the quantity. *)
Theorem Product_ReduceStock_spec (p : Product) (q : Quantity) (now : Time) :
  Quantity_valid (Product_stock p) -> Quantity_valid q ->
  (value q > value (Product_stock p) ->
     Product_ReduceStock p q now = (p, Some "insufficient stock")) /\
  (value q <= value (Product_stock p) ->
     exists p', Product_ReduceStock p q now = (p', None) /\
       value (Product_stock p') = value (Product_stock p) - value q /\
       Product_id p' = Product_id p /\ Product_name p' = Product_name p /\
       Product_price p' = Product_price p).
Proof.
  intros Hs Hq. unfold Product_ReduceStock.
  rewrite Quantity_Subtract_spec by assumption.
  split; intros H; destruct (Z.ltb_spec (value (Product_stock p)) (value q));
    try lia; [reflexivity|].
  eexists. split; [reflexivity|]. simpl. auto.
Qed.

Lemma Product_ReduceStock_spec_witness :
  let p := ReconstructProduct "P" "Pen" "" (mkMoney 1000 "USD") (mkQuantity 5) 0 0 in
  Product_ReduceStock p (mkQuantity 6) 1 = (p, Some "insufficient stock") /\
  exists p', Product_ReduceStock p (mkQuantity 2) 1 = (p', None) /\
    value (Product_stock p') = 3.
Proof.
  intros p.
  assert (Hs : Quantity_valid (Product_stock p))
    by (in_range).
  split.
  - apply (Product_ReduceStock_spec p (mkQuantity 6) 1 Hs).
    + in_range.
    + simpl; lia.
  - destruct (Product_ReduceStock_spec p (mkQuantity 2) 1 Hs) as [_ H].
    + in_range.
    + destruct H as (p' & H1 & H2 & _); [simpl; lia|].
      exists p'. split; [exact H1|exact H2].
Defined.

(** ** Order status machine *)

(** C6: [Confirm] succeeds exactly from PENDING, [Ship] exactly from
    CONFIRMED, [Deliver] exactly from SHIPPED, [Cancel] exactly when the
    status is neither DELIVERED nor CANCELLED; a successful transition sets
    the new status, a failed one returns an error and the order unchanged. *)
Theorem Order_transitions (o : Order) (now : Time) :
  (succeeds (Order_Confirm o now) <-> Order_status o = OrderStatusPending) /\
  (succeeds (Order_Ship o now) <-> Order_status o = OrderStatusConfirmed) /\
  (succeeds (Order_Deliver o now) <-> Order_status o = OrderStatusShipped) /\
  (succeeds (Order_Cancel o now) <->
     Order_status o <> OrderStatusDelivered /\
     Order_status o <> OrderStatusCancelled) /\
  (succeeds (Order_Confirm o now) ->
     Order_status (Order_Confirm o now).1 = OrderStatusConfirmed) /\
  (succeeds (Order_Ship o now) ->
     Order_status (Order_Ship o now).1 = OrderStatusShipped) /\
  (succeeds (Order_Deliver o now) ->
     Order_status (Order_Deliver o now).1 = OrderStatusDelivered) /\
  (succeeds (Order_Cancel o now) ->
     Order_status (Order_Cancel o now).1 = OrderStatusCancelled) /\
  (~ succeeds (Order_Confirm o now) ->
     exists e, Order_Confirm o now = (o, Some e)) /\
  (~ succeeds (Order_Ship o now) ->
     exists e, Order_Ship o now = (o, Some e)) /\
  (~ succeeds (Order_Deliver o now) ->
     exists e, Order_Deliver o now = (o, Some e)) /\
  (~ succeeds (Order_Cancel o now) ->
     exists e, Order_Cancel o now = (o, Some e)).
Proof.
  unfold succeeds, Order_Confirm, Order_Ship, Order_Deliver, Order_Cancel.
  repeat split;
    repeat match goal with
           | |- context [decide ?P] => destruct (decide P)
           end; simpl; intros;
    try (exfalso; congruence); try tauto; try congruence; eauto;
    try (destruct_and?; exfalso; congruence);
    try (apply dec_stable; assumption);
    try (intros Heq; rewrite Heq in *; discriminate).
Qed.

(** ** Basket *)

Lemma NewBasketItem_Ok (productID : string) (q : Quantity) (price : Money) :
  productID <> "" -> value q <> 0 ->
  NewBasketItem productID (Some q) (Some price)
  = Ok (mkBasketItem productID q price).
Proof.
  intros Hp Hq. unfold NewBasketItem, Quantity_IsZero.
  destruct (decide (productID = "")); [contradiction|].
  destruct (Z.eqb_spec (value q) 0); [contradiction|reflexivity].
Qed.

Lemma Quantity_Add_spec (q other : Quantity) :
  Quantity_valid q -> Quantity_valid other ->
  Quantity_Add q other =
    if value q + value other <=? max_int64
    then Ok (mkQuantity (value q + value other))
    else Err "quantity cannot be negative".
Proof.
  unfold Quantity_valid, Quantity_Add, NewQuantity. intros Hq Ho.
  destruct (Z.leb_spec (value q + value other) max_int64).
  - rewrite wrap64_id by in_range.
    destruct (Z.ltb_spec (value q + value other) 0); [lia|reflexivity].
  - rewrite wrap64_overflow by (unfold max_int64 in *; lia).
    destruct (Z.ltb_spec (value q + value other - 2 ^ 64) 0);
      [reflexivity|unfold max_int64 in *; lia].
Qed.

Section ByProductID.
Context {A : Type} (f : A -> string).

Lemma filter_absent (l : list A) (k : string) :
  k ∉ f <$> l -> filter (fun z => f z = k) l = [].
Proof.
  induction l as [|h l IH]; [reflexivity|].
  rewrite fmap_cons, not_elem_of_cons. intros [Hh Hl].
  rewrite filter_cons_False by congruence. auto.
Qed.

Lemma filter_insert_unique (l : list A) (i : nat) (x y : A) :
  NoDup (f <$> l) -> l !! i = Some x -> f y = f x ->
  filter (fun z => f z = f x) (<[i := y]> l) = [y].
Proof.
  revert i. induction l as [|h l IH]; intros i Hnd Hi Hy; [discriminate|].
  rewrite fmap_cons, NoDup_cons in Hnd. destruct Hnd as [Hh Hnd].
  destruct i as [|i]; simpl in *.
  - inversion Hi; subst h. rewrite filter_cons_True by assumption.
    rewrite filter_absent by assumption. reflexivity.
  - rewrite filter_cons_False.
    + apply IH; assumption.
    + intros Heq. apply Hh. rewrite Heq.
      apply list_elem_of_fmap_2, list_elem_of_lookup. eauto.
Qed.

Lemma find_present (l : list A) (i : nat) (x : A) :
  NoDup (f <$> l) -> l !! i = Some x ->
  list_find (fun z => f z = f x) l = Some (i, x).
Proof.
  intros Hnd Hi. apply list_find_Some. split; [assumption|].
  split; [reflexivity|]. intros j y Hj Hlt Heq.
  assert (i = j); [|lia].
  apply (NoDup_lookup _ _ _ (f x) Hnd);
    rewrite list_lookup_fmap; [rewrite Hi|rewrite Hj; simpl; rewrite Heq];
    reflexivity.
Qed.

Lemma find_absent (l : list A) (k : string) :
  k ∉ f <$> l -> list_find (fun z => f z = k) l = None.
Proof.
  intros Hk. apply list_find_None, Forall_forall. intros x Hx Heq.
  apply Hk. rewrite <- Heq. apply list_elem_of_fmap_2. assumption.
Qed.
End ByProductID.

(** C7 (as amended): in a basket of valid items with pairwise-distinct
    product IDs, [AddItem] on a product ID already present, with a sum of
    quantities that fits in an int, succeeds and leaves exactly one item
    with that ID, holding the summed quantity and the incoming price (when
    the sum does not fit it fails and the basket is unchanged); on a product
    ID not present, non-empty and with a non-zero quantity, it appends the
    new item (with a zero quantity it fails and the basket is unchanged). *)
Theorem Basket_AddItem_spec (b : Basket) (productID : string)
    (q2 : Quantity) (price2 : Money) (now : Time) :
  Forall BasketItem_valid (Basket_items b) ->
  NoDup (BasketItem_productID <$> Basket_items b) ->
  Quantity_valid q2 ->
  (forall i item,
     Basket_items b !! i = Some item ->
     BasketItem_productID item = productID ->
     let total := value (BasketItem_quantity item) + value q2 in
     let newItem := mkBasketItem productID (mkQuantity total) price2 in
     let b' := Basket_set_items b (<[i := newItem]> (Basket_items b)) now in
     (total <= max_int64 ->
        Basket_AddItem b productID q2 (Some price2) now = (b', None) /\
        Basket_items_of b' productID = [newItem] /\
        length (Basket_items b') = length (Basket_items b)) /\
     (total > max_int64 ->
        Basket_AddItem b productID q2 (Some price2) now
        = (b, Some "quantity cannot be negative"))) /\
  (productID ∉ BasketItem_productID <$> Basket_items b ->
     productID <> "" ->
     (value q2 <> 0 ->
        Basket_AddItem b productID q2 (Some price2) now
        = (Basket_set_items b
             (Basket_items b ++ [mkBasketItem productID q2 price2]) now, None)) /\
     (value q2 = 0 ->
        Basket_AddItem b productID q2 (Some price2) now
        = (b, Some "quantity must be greater than zero"))).
Proof.
  intros Hvalid Hnd Hq2. split.
  - intros i item Hi Hpid total newItem b'.
    assert (Hitem : BasketItem_valid item).
    { rewrite Forall_forall in Hvalid. apply Hvalid.
      apply list_elem_of_lookup. eauto. }
    destruct Hitem as (Hne & Hq & Hnz & _).
    assert (Hfind : Basket_find b productID = Some (i, item)).
    { unfold Basket_find. subst productID.
      apply (find_present BasketItem_productID); assumption. }
    unfold Basket_AddItem. rewrite Hfind.
    rewrite Quantity_Add_spec by assumption. fold total.
    split; intros Htot.
    + destruct (Z.leb_spec total max_int64); [|lia].
      rewrite NewBasketItem_Ok.
      * split; [reflexivity|]. split.
        -- unfold Basket_items_of, b'. simpl. subst productID.
           apply (filter_insert_unique BasketItem_productID);
             [assumption|assumption|reflexivity].
        -- unfold b'. simpl. apply length_insert.
      * congruence.
      * unfold Quantity_valid in *. simpl. subst total. lia.
    + destruct (Z.leb_spec total max_int64); [lia|reflexivity].
  - intros Habsent Hne.
    assert (Hfind : Basket_find b productID = None).
    { unfold Basket_find.
      apply (find_absent BasketItem_productID). assumption. }
    unfold Basket_AddItem. rewrite Hfind. split; intros Hz.
    + rewrite NewBasketItem_Ok by assumption. reflexivity.
    + unfold NewBasketItem, Quantity_IsZero.
      destruct (decide (productID = "")); [contradiction|].
      rewrite Hz. reflexivity.
Qed.

Lemma Basket_AddItem_spec_witness :
  let price := mkMoney 1000 "USD" in
  let b := ReconstructBasket "B" [mkBasketItem "P" (mkQuantity 2) price] 0 0 in
  Basket_AddItem b "P" (mkQuantity 3) (Some (mkMoney 1200 "USD")) 1
  = (Basket_set_items b
       [mkBasketItem "P" (mkQuantity 5) (mkMoney 1200 "USD")] 1, None)
  /\ Basket_AddItem b "Q" (mkQuantity 3) (Some price) 1
  = (Basket_set_items b
       [mkBasketItem "P" (mkQuantity 2) price;
        mkBasketItem "Q" (mkQuantity 3) price] 1, None).
Proof.
  intros price b.
  assert (Hv : Forall BasketItem_valid (Basket_items b)).
  { repeat constructor; simpl; unfold max_int64; try lia; discriminate. }
  assert (Hnd : NoDup (BasketItem_productID <$> Basket_items b)).
  { simpl. apply NoDup_singleton. }
  assert (Hq : Quantity_valid (mkQuantity 3)).
  { in_range. }
  split.
  - destruct (Basket_AddItem_spec b "P" (mkQuantity 3) (mkMoney 1200 "USD") 1
                Hv Hnd Hq) as [H _].
    destruct (H 0%nat (mkBasketItem "P" (mkQuantity 2) price)
                eq_refl eq_refl) as [H1 _].
    destruct H1 as [H1 _]; [simpl; unfold max_int64; lia|exact H1].
  - destruct (Basket_AddItem_spec b "Q" (mkQuantity 3) price 1 Hv Hnd Hq)
      as [_ H].
    destruct H as [H _].
    + simpl. rewrite list_elem_of_singleton. discriminate.
    + discriminate.
    + apply H. simpl. lia.
Defined.

(** C7, as stated, fails.  On a product ID that is not present, a zero
    quantity (a valid [Quantity]) is rejected and nothing is appended; on a
    product ID that is present, a sum beyond the int range is rejected and
    the item keeps its quantity and its price; and in a reconstructed basket
    that holds the product ID twice, two items with it remain. *)
Lemma Basket_AddItem_counterexample :
  let price := mkMoney 1000 "USD" in
  let price2 := mkMoney 1200 "USD" in
  let empty := NewBasket "B" 0 in
  let full := ReconstructBasket "B" [mkBasketItem "P" (mkQuantity max_int64) price] 0 0 in
  let twice := ReconstructBasket "B"
      [mkBasketItem "P" (mkQuantity 2) price; mkBasketItem "P" (mkQuantity 3) price] 0 0 in
  NewQuantity 0 = Ok (mkQuantity 0) /\
  Basket_AddItem empty "P" (mkQuantity 0) (Some price) 1
    = (empty, Some "quantity must be greater than zero") /\
  Basket_AddItem full "P" (mkQuantity 1) (Some price2) 1
    = (full, Some "quantity cannot be negative") /\
  Basket_items_of (Basket_AddItem twice "P" (mkQuantity 1) (Some price2) 1).1 "P"
    = [mkBasketItem "P" (mkQuantity 3) price2; mkBasketItem "P" (mkQuantity 3) price].
Proof. simpl. repeat split; vm_compute; reflexivity. Qed.

Lemma Money_Multiply_currency (m s : Money) (n : Z) :
  Money_Multiply m n = Ok s -> currency s = currency m.
Proof.
  unfold Money_Multiply, NewMoney. intros H.
  repeat match type of H with
         | (if ?c then _ else _) = _ => destruct c; try discriminate
         end.
  inversion H. reflexivity.
Qed.

Lemma Money_Add_currency (a b s : Money) :
  Money_Add a b = Ok s -> currency s = currency a /\ currency b = currency a.
Proof.
  unfold Money_Add, NewMoney. intros H.
  destruct (decide (currency a <> currency b)) as [|Heq]; [discriminate|].
  apply dec_stable in Heq.
  repeat match type of H with
         | (if ?c then _ else _) = _ => destruct c; try discriminate
         end.
  inversion H. simpl. auto.
Qed.

Lemma subtotal_sum_nonneg (items : list BasketItem) :
  Forall BasketItem_valid items -> 0 <= subtotal_sum items.
Proof.
  induction 1 as [|item items (_ & Hq & _ & Hp & _) _ IH]; simpl; [lia|].
  unfold Quantity_valid in Hq. nia.
Qed.

Section TotalLoop.
Variable c : string.

Let in_currency (item : BasketItem) : Prop :=
  currency (BasketItem_price item) = c.

(** Some item in another currency: the loop cannot return a total. *)
Lemma Basket_Total_loop_mixed (items : list BasketItem) (t : Money) :
  currency t = c -> Exists (fun item => ~ in_currency item) items ->
  is_Err (Basket_Total_loop t items).
Proof.
  intros Ht Hex. revert t Ht.
  induction items as [|item items IH]; intros t Ht; [inversion Hex|].
  cbn [Basket_Total_loop]. unfold BasketItem_Subtotal.
  destruct (Money_Multiply _ _) as [sub|] eqn:Hsub; [|exact I].
  apply Money_Multiply_currency in Hsub. cbn [bind].
  destruct (Money_Add t sub) as [t'|] eqn:Hadd; [|exact I].
  apply Money_Add_currency in Hadd as [Ht' Hs]. cbn [bind].
  inversion Hex as [? ? Hhead|? ? Htail]; subst.
  - exfalso. apply Hhead. unfold in_currency. congruence.
  - apply IH; [assumption|congruence].
Qed.

Hypothesis c_nonempty : c <> "".

(** All items in the running currency, nothing overflows: the exact sum. *)
Lemma Basket_Total_loop_exact (items : list BasketItem) (t : Z) :
  Forall BasketItem_valid items -> Forall in_currency items ->
  0 <= t -> t + subtotal_sum items <= max_int64 ->
  Basket_Total_loop (mkMoney t c) items
  = Ok (mkMoney (t + subtotal_sum items) c).
Proof.
  intros Hv. revert t.
  induction Hv as [|item items Hitem Hv IH]; intros t Hc Ht Hfit.
  - simpl. rewrite Z.add_0_r. reflexivity.
  - inversion Hc as [|? ? Hcur Hc']; subst. simpl in Hfit.
    pose proof (subtotal_sum_nonneg items Hv) as Hrest.
    destruct Hitem as (_ & Hq & _ & Hp).
    assert (0 <= amount (BasketItem_price item) * value (BasketItem_quantity item))
      by (destruct Hp as [? _]; unfold Quantity_valid in Hq; nia).
    cbn [Basket_Total_loop]. unfold BasketItem_Subtotal.
    rewrite Money_Multiply_exact by (assumption || apply Hq || lia).
    cbn [bind]. rewrite Money_Add_same; simpl.
    + destruct (Z.leb_spec
        (t + amount (BasketItem_price item) * value (BasketItem_quantity item))
        max_int64); [|lia].
      cbn [bind]. rewrite IH by (assumption || lia).
      do 2 f_equal. lia.
    + split; simpl; [lia|assumption].
    + split; simpl; [lia|]. rewrite Hcur. assumption.
    + symmetry. exact Hcur.
Qed.

(** Some item in another currency and nothing overflows: the error is the
    currency mismatch. *)
Lemma Basket_Total_loop_mismatch (items : list BasketItem) (t : Z) :
  Forall BasketItem_valid items ->
  Exists (fun item => ~ in_currency item) items ->
  0 <= t -> t + subtotal_sum items <= max_int64 ->
  Basket_Total_loop (mkMoney t c) items
  = Err "cannot add money with different currencies".
Proof.
  intros Hv. revert t.
  induction Hv as [|item items Hitem Hv IH]; intros t Hex Ht Hfit;
    [inversion Hex|].
  simpl in Hfit. pose proof (subtotal_sum_nonneg items Hv) as Hrest.
  destruct Hitem as (_ & Hq & _ & Hp).
  assert (0 <= amount (BasketItem_price item) * value (BasketItem_quantity item))
    by (destruct Hp as [? _]; unfold Quantity_valid in Hq; nia).
  cbn [Basket_Total_loop]. unfold BasketItem_Subtotal.
  rewrite Money_Multiply_exact by (assumption || apply Hq || lia).
  cbn [bind].
  destruct (decide (in_currency item)) as [Hcur|Hcur].
  - rewrite Money_Add_same; simpl.
    + destruct (Z.leb_spec
        (t + amount (BasketItem_price item) * value (BasketItem_quantity item))
        max_int64); [|lia].
      cbn [bind]. apply IH; [|lia|lia].
      inversion Hex; subst; [contradiction|assumption].
    + split; simpl; [lia|assumption].
    + split; simpl; [lia|]. rewrite Hcur. assumption.
    + symmetry. exact Hcur.
  - rewrite Money_Add_mismatch; [reflexivity|].
    simpl. intros Heq. apply Hcur. symmetry. exact Heq.
Qed.
End TotalLoop.

(** C8 (as amended): the total of an empty basket is zero Money in "USD";
    the total of a non-empty basket of valid items in one currency, whose sum
    of subtotals fits in an int64, is that sum in that currency; and if some
    item's currency differs from the first item's, [Total] fails, with the
    currency-mismatch error when the items are valid and the sum of subtotals
    fits in an int64. *)
Theorem Basket_Total_spec (b : Basket) :
  (Basket_items b = [] -> Basket_Total b = Ok (mkMoney 0 "USD")) /\
  (forall first rest,
     Basket_items b = first :: rest ->
     let c := currency (BasketItem_price first) in
     let other item := currency (BasketItem_price item) <> c in
     (Forall BasketItem_valid (Basket_items b) ->
      Forall (fun item => currency (BasketItem_price item) = c) (Basket_items b) ->
      subtotal_sum (Basket_items b) <= max_int64 ->
      Basket_Total b = Ok (mkMoney (subtotal_sum (Basket_items b)) c)) /\
     (Exists other (Basket_items b) ->
      is_Err (Basket_Total b) /\
      (Forall BasketItem_valid (Basket_items b) ->
       subtotal_sum (Basket_items b) <= max_int64 ->
       Basket_Total b = Err "cannot add money with different currencies"))).
Proof.
  split.
  - intros Hnil. unfold Basket_Total, Basket_IsEmpty. rewrite Hnil. reflexivity.
  - intros first rest Hitems c other.
    assert (Htotal : Basket_Total b
                     = try zero <- NewMoney 0 c;
                       Basket_Total_loop zero (Basket_items b)).
    { unfold Basket_Total, Basket_IsEmpty. rewrite Hitems. reflexivity. }
    assert (Hvalid : Forall BasketItem_valid (Basket_items b) ->
                     c <> "" /\ NewMoney 0 c = Ok (mkMoney 0 c)).
    { intros Hv. rewrite Hitems in Hv.
      inversion Hv as [|? ? (_ & _ & _ & _ & Hc) _].
      split; [exact Hc|]. apply NewMoney_Ok; [lia|exact Hc]. }
    rewrite Htotal. split.
    + intros Hv Hsame Hfit. destruct (Hvalid Hv) as [Hc ->]. cbn [bind].
      rewrite (Basket_Total_loop_exact c Hc) by (assumption || lia).
      reflexivity.
    + intros Hex. split.
      * destruct (NewMoney 0 c) as [zero|] eqn:Hzero; [|exact I]. cbn [bind].
        apply (Basket_Total_loop_mixed c); [|exact Hex].
        unfold NewMoney in Hzero. simpl in Hzero.
        destruct (decide (c = "")); [discriminate|].
        inversion Hzero. reflexivity.
      * intros Hv Hfit. destruct (Hvalid Hv) as [Hc ->]. cbn [bind].
        apply (Basket_Total_loop_mismatch c Hc); assumption || lia.
Qed.

Lemma Basket_Total_spec_witness :
  let usd := mkBasketItem "P" (mkQuantity 2) (mkMoney 1000 "USD") in
  let usd' := mkBasketItem "Q" (mkQuantity 1) (mkMoney 1500 "USD") in
  let eur := mkBasketItem "R" (mkQuantity 1) (mkMoney 100 "EUR") in
  Basket_Total (ReconstructBasket "B" [usd; usd'] 0 0) = Ok (mkMoney 3500 "USD")
  /\ Basket_Total (ReconstructBasket "B" [usd; eur] 0 0)
     = Err "cannot add money with different currencies".
Proof.
  intros usd usd' eur.
  assert (V : forall p q a c, p <> "" -> 0 < q <= max_int64 ->
                0 <= a <= max_int64 -> c <> "" ->
                BasketItem_valid (mkBasketItem p (mkQuantity q) (mkMoney a c))).
  { intros. unfold BasketItem_valid, Quantity_valid, Money_valid. simpl.
    repeat split; try lia; assumption. }
  split.
  - destruct (Basket_Total_spec (ReconstructBasket "B" [usd; usd'] 0 0))
      as [_ H].
    destruct (H usd [usd'] eq_refl) as [H1 _].
    apply H1; [|repeat constructor|vm_compute; discriminate].
    repeat constructor; apply V; (unfold max_int64; lia) || discriminate.
  - destruct (Basket_Total_spec (ReconstructBasket "B" [usd; eur] 0 0))
      as [_ H].
    destruct (H usd [eur] eq_refl) as [_ H2].
    destruct H2 as [_ H2].
    + apply Exists_cons_tl, Exists_cons_hd. discriminate.
    + apply H2; [|vm_compute; discriminate].
      repeat constructor; apply V; (unfold max_int64; lia) || discriminate.
Defined.

(** C8, as stated, fails where the int64 arithmetic wraps.  A single item of
    price 2^62 and quantity 2 makes [Total] fail although there is one
    currency; with quantity 4 the subtotal wraps to 0 and [Total] returns a
    total that is not the sum; and a basket of two currencies whose first
    subtotal wraps fails with the negative-amount error, not with the
    currency mismatch. *)
Lemma Basket_Total_counterexample :
  let big n := mkBasketItem "P" (mkQuantity n) (mkMoney (2 ^ 62) "USD") in
  let one := mkBasketItem "Q" (mkQuantity 1) (mkMoney 1 "USD") in
  let eur := mkBasketItem "R" (mkQuantity 1) (mkMoney 100 "EUR") in
  Forall BasketItem_valid [big 2; big 4; one; eur] /\
  Basket_Total (ReconstructBasket "B" [big 2] 0 0)
    = Err "amount cannot be negative" /\
  Basket_Total (ReconstructBasket "B" [big 4; one] 0 0)
    = Ok (mkMoney 1 "USD") /\
  subtotal_sum [big 4; one] = 2 ^ 64 + 1 /\
  Basket_Total (ReconstructBasket "B" [big 2; eur] 0 0)
    = Err "amount cannot be negative".
Proof.
  simpl. split; [|repeat split; vm_compute; reflexivity].
  repeat constructor; simpl; unfold max_int64; try lia; discriminate.
Qed.

(** ** Basket invariants *)

Lemma Basket_find_Some (b : Basket) (productID : string) i item :
  Basket_find b productID = Some (i, item) ->
  Basket_items b !! i = Some item /\ BasketItem_productID item = productID.
Proof.
  unfold Basket_find. intros H. apply list_find_Some in H. tauto.
Qed.

Lemma NewBasketItem_inv productID q price item :
  NewBasketItem productID q price = Ok item ->
  BasketItem_productID item = productID /\
  q = Some (BasketItem_quantity item) /\
  value (BasketItem_quantity item) <> 0.
Proof.
  unfold NewBasketItem, Quantity_IsZero. intros H.
  destruct (decide (productID = "")); [discriminate|].
  destruct q as [q|]; [|discriminate].
  destruct (Z.eqb_spec (value q) 0); [discriminate|].
  destruct price; [|discriminate]. inversion H; subst. auto.
Qed.

Lemma NewQuantity_inv v q : NewQuantity v = Ok q -> value q = v /\ 0 <= v.
Proof.
  unfold NewQuantity. destruct (Z.ltb_spec v 0) as [|Hv]; [discriminate|].
  intros Hq. inversion Hq. simpl. auto.
Qed.

Lemma Basket_inv_replace (b : Basket) i item newItem now :
  Basket_inv b -> Basket_items b !! i = Some item ->
  BasketItem_productID newItem = BasketItem_productID item ->
  0 < value (BasketItem_quantity newItem) ->
  Basket_inv (Basket_set_items b (<[i := newItem]> (Basket_items b)) now).
Proof.
  intros [Hnd Hpos] Hi Hpid Hq. split; simpl.
  - rewrite list_fmap_insert, Hpid, list_insert_id; [assumption|].
    rewrite list_lookup_fmap, Hi. reflexivity.
  - apply Forall_insert; assumption.
Qed.

Lemma Basket_AddItem_inv b productID quantity price now :
  Basket_inv b -> Quantity_valid quantity ->
  Basket_inv (Basket_AddItem b productID quantity price now).1.
Proof.
  intros Hinv Hq. unfold Basket_AddItem.
  destruct (Basket_find b productID) as [[i item]|] eqn:Hfind.
  - apply Basket_find_Some in Hfind as [Hi Hpid].
    destruct (Quantity_Add _ _) as [newQuantity|] eqn:Hadd; [|exact Hinv].
    destruct (NewBasketItem _ _ _) as [newItem|] eqn:Hnew; [|exact Hinv].
    apply NewBasketItem_inv in Hnew as (Hp & Hsome & Hnz).
    inversion Hsome; subst newQuantity.
    apply NewQuantity_inv in Hadd as [Hv Hnn].
    eapply Basket_inv_replace; eauto; [congruence|lia].
  - destruct (NewBasketItem _ _ _) as [item|] eqn:Hnew; [|exact Hinv].
    apply NewBasketItem_inv in Hnew as (Hp & Hsome & Hnz).
    inversion Hsome; subst quantity.
    destruct Hinv as [Hnd Hpos]. split; simpl.
    + rewrite fmap_app. apply NoDup_app. split; [assumption|]. split.
      * intros x Hx Hx'. simpl in Hx'. apply list_elem_of_singleton in Hx'.
        subst x. apply list_elem_of_fmap in Hx as (y & Hy & Hin).
        unfold Basket_find in Hfind.
        rewrite list_find_None, Forall_forall in Hfind.
        apply (Hfind y Hin). congruence.
      * simpl. apply NoDup_singleton.
    + apply Forall_app. split; [assumption|].
      repeat constructor. unfold Quantity_valid in Hq. lia.
Qed.

Lemma Basket_RemoveItem_inv b productID now :
  Basket_inv b -> Basket_inv (Basket_RemoveItem b productID now).1.
Proof.
  intros Hinv. unfold Basket_RemoveItem.
  destruct (Basket_find b productID) as [[i item]|]; [|exact Hinv].
  destruct Hinv as [Hnd Hpos]. simpl. rewrite <- delete_take_drop.
  split; simpl.
  - rewrite list_fmap_delete. exact (sublist_NoDup _ _ Hnd (sublist_delete _ _)).
  - apply Forall_delete. assumption.
Qed.

Lemma Basket_UpdateItemQuantity_inv b productID quantity now :
  Basket_inv b -> Quantity_valid quantity ->
  Basket_inv (Basket_UpdateItemQuantity b productID quantity now).1.
Proof.
  intros Hinv Hq. unfold Basket_UpdateItemQuantity.
  destruct (Quantity_IsZero quantity); [apply Basket_RemoveItem_inv; assumption|].
  destruct (Basket_find b productID) as [[i item]|] eqn:Hfind; [|exact Hinv].
  apply Basket_find_Some in Hfind as [Hi Hpid].
  destruct (NewBasketItem _ _ _) as [newItem|] eqn:Hnew; [|exact Hinv].
  apply NewBasketItem_inv in Hnew as (Hp & Hsome & Hnz).
  inversion Hsome; subst quantity.
  eapply Basket_inv_replace; eauto; [congruence|].
  unfold Quantity_valid in Hq. lia.
Qed.

Lemma Basket_built_inv b : Basket_built b -> Basket_inv b.
Proof.
  induction 1.
  - split; simpl; constructor.
  - apply Basket_AddItem_inv; assumption.
  - apply Basket_RemoveItem_inv; assumption.
  - apply Basket_UpdateItemQuantity_inv; assumption.
  - split; simpl; constructor.
Qed.

(** C10: [ReconstructBasket] and [ReconstructProduct] validate nothing.
    [ReconstructBasket] returns a basket with one product ID twice, from
    two items that [NewBasketItem] itself built, and a basket with an item
    of zero quantity, an item [NewBasketItem] refuses; [ReconstructProduct]
    returns a product with the empty name [NewProduct] refuses.  Every basket
    built by [NewBasket] and changed only through [AddItem], [RemoveItem],
    [UpdateItemQuantity] and [Clear] has pairwise-distinct product IDs and
    positive quantities. *)
Theorem Reconstruct_no_validation :
  (exists id item createdAt updatedAt,
     NewBasketItem "P" (Some (mkQuantity 1)) (Some (mkMoney 1000 "USD")) = Ok item /\
     ~ NoDup (BasketItem_productID <$>
                Basket_items (ReconstructBasket id [item; item] createdAt updatedAt))) /\
  (exists id item createdAt updatedAt,
     is_Err (NewBasketItem (BasketItem_productID item)
               (Some (BasketItem_quantity item)) (Some (BasketItem_price item))) /\
     Exists (fun item => value (BasketItem_quantity item) = 0)
       (Basket_items (ReconstructBasket id [item] createdAt updatedAt))) /\
  (exists id price stock createdAt updatedAt,
     is_Err (NewProduct "" "" (Some price) (Some stock) id createdAt) /\
     Product_name (ReconstructProduct id "" "" price stock createdAt updatedAt) = "") /\
  (forall b, Basket_built b -> Basket_inv b).
Proof.
  split; [|split; [|split]].
  - exists "B", (mkBasketItem "P" (mkQuantity 1) (mkMoney 1000 "USD")), 0, 0.
    split; [reflexivity|]. simpl. rewrite NoDup_cons.
    intros [Hin _]. apply Hin. left.
  - exists "B", (mkBasketItem "P" (mkQuantity 0) (mkMoney 1000 "USD")), 0, 0.
    split; [exact I|]. apply Exists_cons_hd. reflexivity.
  - exists "P", (mkMoney 1000 "USD"), (mkQuantity 5), 0, 0.
    split; [exact I|reflexivity].
  - apply Basket_built_inv.
Qed.

Lemma Reconstruct_no_validation_witness :
  Basket_inv
    (Basket_AddItem
       (Basket_AddItem (NewBasket "B" 0) "P" (mkQuantity 2)
          (Some (mkMoney 1000 "USD")) 1).1
       "P" (mkQuantity 3) (Some (mkMoney 1000 "USD")) 2).1.
Proof.
  apply Reconstruct_no_validation.
  repeat (apply built_AddItem; [|in_range]).
  apply built_NewBasket.
Defined.

(** ** Checkout: the two passes over the products *)

Lemma CreateOrder_verify_None products items :
  CreateOrder_verify products items = None <->
  Forall (in_stock products) items.
Proof.
  induction items as [|item items IH]; simpl.
  - split; [constructor|reflexivity].
  - unfold ProductRepo_FindByID.
    destruct (products !! BasketItem_productID item) as [p|] eqn:Hp.
    + destruct (Z.ltb_spec (value (Product_stock p))
                  (value (BasketItem_quantity item))) as [Hlt|Hge].
      * split; [discriminate|]. intros H. inversion H as [|? ? (p' & Hp' & Hle) _].
        subst. rewrite Hp in Hp'. inversion Hp'; subst. lia.
      * rewrite IH. split.
        -- intros H. constructor; [exists p; auto|assumption].
        -- intros H. inversion H. assumption.
    + split; [discriminate|]. intros H. inversion H as [|? ? (p' & Hp' & _) _].
      subst. rewrite Hp in Hp'. discriminate.
Qed.

Lemma in_stock_ext products products' item :
  products' !! BasketItem_productID item = products !! BasketItem_productID item ->
  in_stock products item -> in_stock products' item.
Proof. intros Heq (p & Hp & Hle). exists p. rewrite Heq. auto. Qed.

Lemma products_wf_insert products p :
  products_wf products -> Quantity_valid (Product_stock p) ->
  products_wf (<[Product_id p := p]> products).
Proof.
  intros Hwf Hp id p'. rewrite lookup_insert.
  destruct (decide (Product_id p = id)) as [Heq|Hne].
  - intros H. inversion H; subst. auto.
  - apply Hwf.
Qed.

(** One step of the second pass, on an item that is in stock. *)
Lemma CreateOrder_reduce_step products item now :
  products_wf products -> Quantity_valid (BasketItem_quantity item) ->
  in_stock products item ->
  exists p p',
    products !! BasketItem_productID item = Some p /\
    Product_ReduceStock p (BasketItem_quantity item) now = (p', None) /\
    ProductRepo_Update products p'
    = (<[BasketItem_productID item := p']> products, None) /\
    value (Product_stock p')
    = value (Product_stock p) - value (BasketItem_quantity item) /\
    Quantity_valid (Product_stock p') /\
    Product_id p' = BasketItem_productID item.
Proof.
  intros Hwf Hq (p & Hp & Hle). destruct (Hwf _ _ Hp) as [Hid Hs].
  exists p. eexists. split; [exact Hp|].
  split; [apply Product_ReduceStock_Ok; assumption|].
  unfold ProductRepo_Update. simpl. rewrite Hid, Hp.
  repeat split; unfold Quantity_valid in *; simpl; lia.
Qed.

(** The second pass on a basket of distinct product IDs that passed the
    first: it completes, each referenced product has lost exactly the
    requested quantity, and no other product changed. *)
Lemma CreateOrder_reduce_Ok items :
  forall products now k,
  products_wf products ->
  Forall (fun item => Quantity_valid (BasketItem_quantity item)) items ->
  NoDup (BasketItem_productID <$> items) ->
  Forall (in_stock products) items ->
  exists products',
    CreateOrder_reduce products items now k = (products', None) /\
    products_wf products' /\
    (forall id, id ∉ BasketItem_productID <$> items ->
       products' !! id = products !! id) /\
    (forall item, item ∈ items ->
       exists p p', products !! BasketItem_productID item = Some p /\
         products' !! BasketItem_productID item = Some p' /\
         value (Product_stock p')
         = value (Product_stock p) - value (BasketItem_quantity item)).
Proof.
  induction items as [|item items IH]; intros products now k Hwf Hq Hnd Hin.
  - exists products. simpl.
    split; [reflexivity|]. split; [assumption|]. split; [reflexivity|].
    intros item Hitem. inversion Hitem.
  - inversion Hq as [|? ? Hq1 Hq']; subst.
    inversion Hin as [|? ? Hin1 Hin']; subst.
    rewrite fmap_cons, NoDup_cons in Hnd. destruct Hnd as [Hfresh Hnd].
    destruct (CreateOrder_reduce_step products item (now k) Hwf Hq1 Hin1)
      as (p & p' & Hp & Hred & Hupd & Hval & Hvalid & Hid).
    set (products1 := <[BasketItem_productID item := p']> products) in *.
    assert (Hwf1 : products_wf products1).
    { unfold products1. rewrite <- Hid. apply products_wf_insert; assumption. }
    assert (Hsame : forall it, it ∈ items ->
              products1 !! BasketItem_productID it
              = products !! BasketItem_productID it).
    { intros it Hit. unfold products1. apply lookup_insert_ne.
      intros Heq. apply Hfresh. rewrite Heq.
      apply list_elem_of_fmap_2. assumption. }
    assert (Hin1' : Forall (in_stock products1) items).
    { rewrite Forall_forall in Hin' |- *. intros it Hit.
      eapply in_stock_ext; [apply Hsame|]; auto. }
    destruct (IH products1 now (S k) Hwf1 Hq' Hnd Hin1')
      as (products' & Hrun & Hwf' & Hother & Heach).
    exists products'. cbn [CreateOrder_reduce].
    unfold ProductRepo_FindByID at 1. rewrite Hp, Hred, Hupd.
    split; [exact Hrun|]. split; [exact Hwf'|]. split.
    + intros id Hid'. rewrite fmap_cons, not_elem_of_cons in Hid'.
      destruct Hid' as [Hne Hid']. rewrite Hother by assumption.
      unfold products1. apply lookup_insert_ne. congruence.
    + intros it Hit. apply elem_of_cons in Hit as [->|Hit].
      * exists p, p'. split; [exact Hp|]. split; [|exact Hval].
        rewrite Hother by assumption. unfold products1.
        apply lookup_insert_eq.
      * destruct (Heach it Hit) as (q & q' & Hq0 & Hq1' & Hv).
        exists q, q'. rewrite <- Hsame by assumption. auto.
Qed.

(** C9: in the sequential storage model (a repository that holds each
    product under its own ID, with a valid stock), for items of valid
    quantities with pairwise-distinct product IDs, once the first pass (the
    stock check of every item) has succeeded, the second pass returns no
    error: no [ReduceStock] in it fails, so its insufficient-stock branch is
    not reached. *)
Theorem CreateOrder_reduce_cannot_fail
    (products : gmap string Product) (items : list BasketItem)
    (now : nat -> Time) (k : nat) :
  products_wf products ->
  Forall (fun item => Quantity_valid (BasketItem_quantity item)) items ->
  NoDup (BasketItem_productID <$> items) ->
  CreateOrder_verify products items = None ->
  (CreateOrder_reduce products items now k).2 = None.
Proof.
  intros Hwf Hq Hnd Hverify. apply CreateOrder_verify_None in Hverify.
  destruct (CreateOrder_reduce_Ok items products now k Hwf Hq Hnd Hverify)
    as (products' & Hrun & _).
  rewrite Hrun. reflexivity.
Qed.

Lemma CreateOrder_reduce_cannot_fail_witness :
  (CreateOrder_reduce {["P" := scenario_P 5]}
     [mkBasketItem "P" (mkQuantity 2) (mkMoney 1000 "USD")] scenario_now 0).2
  = None.
Proof.
  apply CreateOrder_reduce_cannot_fail.
  - intros id p Hp. apply lookup_singleton_Some in Hp as [<- <-].
    split; [reflexivity|]. in_range.
  - repeat constructor; unfold max_int64; simpl; lia.
  - simpl. apply NoDup_singleton.
  - reflexivity.
Defined.

(** ** Checkout: the order *)

Lemma NewOrder_convert_valid items :
  Forall BasketItem_valid items ->
  NewOrder_convert items = Ok (toOrderItem <$> items).
Proof.
  induction 1 as [|item items (Hp & _ & Hq & _) _ IH]; [reflexivity|].
  cbn [NewOrder_convert]. unfold NewOrderItem, Quantity_IsZero.
  destruct (decide (BasketItem_productID item = "")); [contradiction|].
  destruct (Z.eqb_spec (value (BasketItem_quantity item)) 0); [contradiction|].
  cbn [bind]. rewrite IH. reflexivity.
Qed.

Lemma NewOrder_total_loop_toOrderItem items :
  forall t, NewOrder_total_loop t (toOrderItem <$> items)
            = Basket_Total_loop t items.
Proof.
  induction items as [|item items IH]; intros t; [reflexivity|].
  rewrite fmap_cons. cbn [NewOrder_total_loop Basket_Total_loop].
  change (OrderItem_Subtotal (toOrderItem item)) with (BasketItem_Subtotal item).
  destruct (BasketItem_Subtotal item) as [sub|]; [|reflexivity]. cbn [bind].
  destruct (Money_Add t sub) as [t'|]; [|reflexivity]. cbn [bind]. apply IH.
Qed.

(** [NewOrder] computes its total as [Basket.Total] does. *)
Lemma NewOrder_of_Total (b : Basket) (total : Money) uuid now :
  Forall BasketItem_valid (Basket_items b) -> Basket_items b <> [] ->
  Basket_Total b = Ok total ->
  NewOrder (Basket_items b) uuid now
  = Ok (mkOrder uuid (toOrderItem <$> Basket_items b) total
          OrderStatusPending now now).
Proof.
  intros Hv Hne. unfold Basket_Total, Basket_IsEmpty, NewOrder.
  rewrite (NewOrder_convert_valid _ Hv).
  destruct (Basket_items b) as [|first rest] eqn:Hitems; [contradiction|].
  rewrite <- Hitems. rewrite Hitems at 1. simpl length. cbn [Nat.eqb bind].
  destruct (NewMoney 0 _) as [zero|]; [|discriminate]. cbn [bind].
  rewrite NewOrder_total_loop_toOrderItem. intros ->. reflexivity.
Qed.

Lemma toOrderResponse_items_Ok orderItems :
  forall t total, NewOrder_total_loop t orderItems = Ok total ->
  is_Ok (toOrderResponse_items orderItems).
Proof.
  induction orderItems as [|item rest IH]; intros t total H; [exact I|].
  cbn [NewOrder_total_loop toOrderResponse_items] in *.
  destruct (OrderItem_Subtotal item) as [sub|]; [|discriminate].
  cbn [bind] in H. destruct (Money_Add t sub) as [t'|]; [|discriminate].
  cbn [bind] in H. specialize (IH _ _ H).
  destruct (toOrderResponse_items rest); [exact I|contradiction].
Qed.

Lemma Basket_Total_loop_nonempty (b : Basket) (total : Money) :
  Basket_items b <> [] -> Basket_Total b = Ok total ->
  exists zero, Basket_Total_loop zero (Basket_items b) = Ok total.
Proof.
  unfold Basket_Total, Basket_IsEmpty. intros Hne.
  destruct (Basket_items b) as [|first rest] eqn:Hitems; [contradiction|].
  cbn [length Nat.eqb].
  destruct (NewMoney 0 _) as [zero|]; [|discriminate]. cbn [bind]. eauto.
Qed.

Section Checkout.
Variables (s : Store) (req : CreateOrderRequest) (uuid : string)
          (now : nat -> Time) (basket : Basket).

(** The request names a basket of the repository, stored under its ID. *)
Hypothesis req_nonempty : BasketID req <> "".
Hypothesis basket_stored : basketRepo s !! BasketID req = Some basket.

Let items := Basket_items basket.

(** C2 (as amended): when some item of the basket references a product
    whose stock is strictly less than the requested quantity, [CreateOrder]
    fails and the whole store is as before: no product's stock is altered
    and the basket is unchanged.  The error is the insufficient-stock error
    of the first pass when every item references an existing product. *)
Theorem CreateOrder_insufficient_stock :
  Exists (under_stocked (productRepo s)) items ->
  exists e,
    OrderService_CreateOrder s req uuid now = (s, Err e) /\
    (Forall (fun item =>
               is_Some (productRepo s !! BasketItem_productID item)) items ->
     exists p, p ∈ (map_to_list (productRepo s)).*2 /\
       e = "insufficient stock for product: " +:+ Product_name p).
Proof.
  intros Hex.
  assert (Hverify : exists e,
    CreateOrder_verify (productRepo s) items = Some e /\
    (Forall (fun item =>
               is_Some (productRepo s !! BasketItem_productID item)) items ->
     exists p, p ∈ (map_to_list (productRepo s)).*2 /\
       e = "insufficient stock for product: " +:+ Product_name p)).
  { clear basket_stored. induction items as [|item rest IH];
      [inversion Hex|].
    cbn [CreateOrder_verify]. unfold ProductRepo_FindByID.
    destruct (productRepo s !! BasketItem_productID item) as [p|] eqn:Hp.
    - destruct (Z.ltb_spec (value (Product_stock p))
                  (value (BasketItem_quantity item))) as [Hlt|Hge].
      + eexists. split; [reflexivity|]. intros _. exists p.
        split; [|reflexivity].
        apply list_elem_of_fmap. exists (BasketItem_productID item, p).
        split; [reflexivity|]. apply elem_of_map_to_list. exact Hp.
      + destruct IH as (e & He & Hkind).
        * inversion Hex as [? ? (p' & Hp' & Hlt)|]; subst; [|assumption].
          rewrite Hp in Hp'. inversion Hp'; subst. lia.
        * exists e. split; [exact He|]. intros Hall. apply Hkind.
          inversion Hall. assumption.
    - eexists. split; [reflexivity|]. intros Hall.
      inversion Hall as [|? ? [p Hp'] _]; subst.
      rewrite Hp in Hp'. discriminate. }
  destruct Hverify as (e & Hverify & Hkind). exists e. split; [|exact Hkind].
  unfold OrderService_CreateOrder, BasketRepo_FindByID.
  destruct (decide (BasketID req = "")); [contradiction|].
  rewrite basket_stored. fold items. unfold Basket_IsEmpty. fold items.
  destruct items as [|item rest]; [inversion Hex|].
  cbn [length Nat.eqb]. rewrite Hverify. reflexivity.
Qed.
(** C1 (as amended): for a non-empty basket, stored under its own ID, of
    valid items with pairwise-distinct product IDs, whose [Total] is defined
    (one currency, no int64 overflow) and whose items all reference existing
    products with stock at least the requested quantity, in a repository
    that holds each product under its own ID, [CreateOrder] succeeds; the
    order it returns and stores is PENDING with the basket's total; each
    referenced product's stock has decreased by exactly the requested
    quantity and no other product changed; the stored basket is empty. *)
Theorem CreateOrder_success (total : Money) :
  Basket_id basket = BasketID req ->
  products_wf (productRepo s) ->
  items <> [] ->
  Forall BasketItem_valid items ->
  NoDup (BasketItem_productID <$> items) ->
  Forall (in_stock (productRepo s)) items ->
  Basket_Total basket = Ok total ->
  exists s' resp order basket',
    OrderService_CreateOrder s req uuid now = (s', Ok resp) /\
    OrderResponse_Status resp = "PENDING" /\
    OrderResponse_Total resp = amount total /\
    OrderResponse_Currency resp = currency total /\
    orderRepo s' !! OrderResponse_ID resp = Some order /\
    Order_status order = OrderStatusPending /\
    Order_total order = total /\
    (forall item, item ∈ items ->
       exists p p', productRepo s !! BasketItem_productID item = Some p /\
         productRepo s' !! BasketItem_productID item = Some p' /\
         value (Product_stock p')
         = value (Product_stock p) - value (BasketItem_quantity item)) /\
    (forall id, id ∉ BasketItem_productID <$> items ->
       productRepo s' !! id = productRepo s !! id) /\
    basketRepo s' !! BasketID req = Some basket' /\
    Basket_items basket' = [].
Proof.
  intros Hid Hwf Hne Hvalid Hnd Hstock Htotal.
  assert (Hq : Forall (fun item => Quantity_valid (BasketItem_quantity item))
                 items).
  { eapply Forall_impl; [exact Hvalid|]. intros item (_ & Hq & _). exact Hq. }
  destruct (CreateOrder_reduce_Ok items (productRepo s) now 0 Hwf Hq Hnd Hstock)
    as (products' & Hrun & _ & Hother & Heach).
  pose proof (NewOrder_of_Total basket total uuid (now (length items))
                Hvalid Hne Htotal) as Horder.
  destruct (Basket_Total_loop_nonempty basket total Hne Htotal)
    as (zero & Hloop).
  rewrite <- NewOrder_total_loop_toOrderItem in Hloop.
  apply toOrderResponse_items_Ok in Hloop.
  destruct (toOrderResponse_items (toOrderItem <$> Basket_items basket))
    as [responses|] eqn:Hresp; [|contradiction].
  set (order := mkOrder uuid (toOrderItem <$> items) total OrderStatusPending
                  (now (length items)) (now (length items))) in *.
  set (basket' := Basket_Clear basket (now (S (length items)))).
  exists (mkStore (<[uuid := order]> (orderRepo s))
            (<[BasketID req := basket']> (basketRepo s)) products').
  eexists. exists order, basket'.
  split.
  - unfold OrderService_CreateOrder, BasketRepo_FindByID.
    destruct (decide (BasketID req = "")); [contradiction|].
    rewrite basket_stored. unfold Basket_IsEmpty. fold items.
    destruct (Nat.eqb_spec (length items) 0) as [Hlen|_].
    { destruct items; [contradiction|discriminate]. }
    apply CreateOrder_verify_None in Hstock. rewrite Hstock, Hrun.
    cbv zeta. cbn [productRepo orderRepo basketRepo].
    fold items in Horder |- *. rewrite Horder. fold order.
    unfold OrderRepo_Save, BasketRepo_Update.
    cbn [Basket_Clear Basket_set_items Basket_id Order_id order].
    rewrite Hid, basket_stored. unfold toOrderResponse.
    cbn [Order_items order]. fold items in Hresp. rewrite Hresp.
    cbn [bind]. reflexivity.
  - cbn. repeat split; try reflexivity.
    + apply lookup_insert_eq.
    + exact Heach.
    + exact Hother.
    + apply lookup_insert_eq.
Qed.
End Checkout.

Lemma CreateOrder_success_witness :
  let item := mkBasketItem "P" (mkQuantity 2) (mkMoney 1000 "USD") in
  let s := scenario_store [item] {["P" := scenario_P 5]} in
  exists s' resp p' basket',
    OrderService_CreateOrder s (mkCreateOrderRequest "B") "O" scenario_now
    = (s', Ok resp) /\
    OrderResponse_Status resp = "PENDING" /\
    OrderResponse_Total resp = 2000 /\
    productRepo s' !! "P" = Some p' /\ value (Product_stock p') = 3 /\
    basketRepo s' !! "B" = Some basket' /\ Basket_items basket' = [].
Proof.
  intros item s.
  destruct (CreateOrder_success s (mkCreateOrderRequest "B") "O" scenario_now
              (ReconstructBasket "B" [item] 0 0)
              ltac:(discriminate) ltac:(reflexivity) (mkMoney 2000 "USD"))
    as (s' & resp & order & basket' & Hrun & Hstatus & Htotal & _ & _ & _ & _
        & Heach & _ & Hbasket & Hempty).
  - reflexivity.
  - intros id p Hp.
    change (({["P" := scenario_P 5]} : gmap string Product) !! id = Some p) in Hp.
    apply lookup_singleton_Some in Hp as [<- <-].
    split; [reflexivity|]. in_range.
  - discriminate.
  - repeat constructor; simpl; unfold max_int64; try lia; discriminate.
  - simpl. apply NoDup_singleton.
  - repeat constructor. exists (scenario_P 5). split; [reflexivity|].
    simpl. lia.
  - reflexivity.
  - destruct (Heach item) as (p & p' & Hp & Hp' & Hv); [simpl; left|].
    change (({["P" := scenario_P 5]} : gmap string Product) !! "P" = Some p) in Hp.
    apply lookup_singleton_Some in Hp as [_ <-].
    exists s', resp, p', basket'. simpl in *. auto 10.
Defined.

(** C1, as stated, fails.  With every referenced product in stock,
    [CreateOrder] still fails on an empty basket; on a basket of two
    currencies, after the stock of its products has been reduced and
    stored; on a reconstructed basket that holds one product twice, at the
    second reduction; and on a basket whose total leaves the int64 range. *)
Lemma CreateOrder_success_counterexample :
  let req := mkCreateOrderRequest "B" in
  let usd := mkBasketItem "P" (mkQuantity 2) (mkMoney 1000 "USD") in
  let eur := mkBasketItem "Q" (mkQuantity 1) (mkMoney 100 "EUR") in
  let three := mkBasketItem "P" (mkQuantity 3) (mkMoney 1000 "USD") in
  let big := mkBasketItem "P" (mkQuantity 2) (mkMoney (2 ^ 62) "USD") in
  let Q := ReconstructProduct "Q" "Quill" "" (mkMoney 100 "EUR") (mkQuantity 5) 0 0 in
  let products := <["Q" := Q]> {["P" := scenario_P 5]} in
  let run items :=
    OrderService_CreateOrder (scenario_store items products) req "O" scenario_now in
  let stock_of (r : Store * result OrderResponse) id :=
    (fun p => value (Product_stock p)) <$> productRepo r.1 !! id in
  Forall (in_stock products) [usd; eur; three; big] /\
  (run []).2 = Err "cannot create order from empty basket" /\
  (run [usd; eur]).2 = Err "cannot add money with different currencies" /\
  stock_of (run [usd; eur]) "P" = Some 3 /\
  stock_of (run [usd; eur]) "Q" = Some 4 /\
  (run [three; three]).2 = Err "insufficient stock" /\
  stock_of (run [three; three]) "P" = Some 2 /\
  (run [big]).2 = Err "amount cannot be negative" /\
  stock_of (run [big]) "P" = Some 3.
Proof.
  cbv zeta. split.
  - repeat constructor.
    1, 3, 4: exists (scenario_P 5); split; [reflexivity|simpl; lia].
    eexists; split; [reflexivity|simpl; lia].
  - repeat split; vm_compute; reflexivity.
Qed.

(** C2, as stated, fails in the kind of the error: when an item before the
    under-stocked one references a product that does not exist, the first
    pass stops there with the not-found error of the repository. *)
Lemma CreateOrder_insufficient_stock_counterexample :
  let ghost := mkBasketItem "G" (mkQuantity 1) (mkMoney 500 "USD") in
  let item := mkBasketItem "P" (mkQuantity 2) (mkMoney 1000 "USD") in
  let s := scenario_store [ghost; item] {["P" := scenario_P 1]} in
  Exists (under_stocked (productRepo s)) [ghost; item] /\
  OrderService_CreateOrder s (mkCreateOrderRequest "B") "O" scenario_now
  = (s, Err "product not found").
Proof.
  cbv zeta. split; [|reflexivity].
  apply Exists_cons_tl, Exists_cons_hd. exists (scenario_P 1).
  split; [reflexivity|simpl; lia].
Qed.

Lemma CreateOrder_insufficient_stock_witness :
  let item := mkBasketItem "P" (mkQuantity 2) (mkMoney 1000 "USD") in
  let s := scenario_store [item] {["P" := scenario_P 1]} in
  exists e,
    OrderService_CreateOrder s (mkCreateOrderRequest "B") "O" scenario_now
    = (s, Err e).
Proof.
  intros item s.
  destruct (CreateOrder_insufficient_stock s (mkCreateOrderRequest "B") "O"
              scenario_now (ReconstructBasket "B" [item] 0 0)
              ltac:(discriminate) ltac:(reflexivity)) as (e & Hrun & _).
  - apply Exists_cons_hd. exists (scenario_P 1).
    split; [reflexivity|simpl; lia].
  - exists e. exact Hrun.
Defined.

(** * Further properties of the code *)

(** ** package value: invariants and algebra *)

(** X1: every Money the package returns satisfies the invariant of the type
    (amount between 0 and the largest int64, currency non-empty), whatever
    the operands and also when the int64 arithmetic wraps; [Add] and
    [Multiply] keep the currency of the receiver. *)
Theorem Money_results_valid :
  (forall a c m, in_int64 a -> NewMoney a c = Ok m ->
     Money_valid m /\ amount m = a /\ currency m = c) /\
  (forall x y m, Money_Add x y = Ok m ->
     Money_valid m /\ currency m = currency x /\ currency y = currency x) /\
  (forall x n m, Money_Multiply x n = Ok m ->
     Money_valid m /\ currency m = currency x /\ 0 <= n).
Proof.
  split; [|split].
  - intros a c m Ha H. destruct (NewMoney_valid a c m Ha H) as [Hv ->].
    auto.
  - intros x y m H. pose proof (Money_Add_currency _ _ _ H) as [Hc Hy].
    unfold Money_Add in H.
    destruct (decide (currency x <> currency y)); [discriminate|].
    apply NewMoney_valid in H as [Hv _]; [auto|apply wrap64_range].
  - intros x n m H. pose proof (Money_Multiply_currency _ _ _ H) as Hc.
    unfold Money_Multiply in H.
    destruct (Z.ltb_spec n 0); [discriminate|].
    apply NewMoney_valid in H as [Hv _]; [auto|apply wrap64_range].
Qed.

Lemma Money_results_valid_witness :
  Money_valid (mkMoney 1500 "USD").
Proof.
  destruct Money_results_valid as (_ & Hadd & _).
  apply (Hadd (mkMoney 1000 "USD") (mkMoney 500 "USD")). reflexivity.
Defined.

Lemma NewQuantity_valid v q :
  in_int64 v -> NewQuantity v = Ok q -> Quantity_valid q /\ value q = v.
Proof.
  intros Hv H. apply NewQuantity_inv in H as [Hq H0].
  unfold Quantity_valid. rewrite Hq. split; [in_range|reflexivity].
Qed.

(** X2: every Quantity the package returns is valid, whatever the operands:
    [Subtract] (and [Add]) never produce a negative value, they fail
    instead, also when the int arithmetic wraps. *)
Theorem Quantity_results_valid :
  (forall v q, in_int64 v -> NewQuantity v = Ok q ->
     Quantity_valid q /\ value q = v) /\
  (forall x y q, Quantity_Add x y = Ok q -> Quantity_valid q) /\
  (forall x y q, Quantity_Subtract x y = Ok q -> Quantity_valid q).
Proof.
  split; [exact NewQuantity_valid|split].
  - intros x y q H. unfold Quantity_Add in H.
    apply NewQuantity_valid in H as [Hv _]; [exact Hv|apply wrap64_range].
  - intros x y q H. unfold Quantity_Subtract in H. cbv zeta in H.
    destruct (Z.ltb_spec (wrap64 (value x - value y)) 0); [discriminate|].
    apply NewQuantity_valid in H as [Hv _]; [exact Hv|apply wrap64_range].
Qed.

Lemma Quantity_results_valid_witness :
  Quantity_valid (mkQuantity 7).
Proof.
  destruct Quantity_results_valid as (_ & _ & Hsub).
  apply (Hsub (mkQuantity 10) (mkQuantity 3)). reflexivity.
Defined.

(** X3: on valid quantities, [Subtract] succeeds exactly when the operand
    does not exceed the receiver, and adding the operand back to the
    difference returns the receiver. *)
Theorem Quantity_Subtract_Add (q other : Quantity) :
  Quantity_valid q -> Quantity_valid other ->
  (is_Ok (Quantity_Subtract q other) <-> value other <= value q) /\
  (value other <= value q ->
   (try r <- Quantity_Subtract q other; Quantity_Add r other) = Ok q).
Proof.
  intros Hq Ho. rewrite Quantity_Subtract_spec by assumption.
  destruct (Z.ltb_spec (value q) (value other)); simpl.
  - split; [split; [contradiction|lia]|lia].
  - split; [split; [lia|exact (fun _ => I)]|]. intros _.
    rewrite Quantity_Add_spec by (assumption || in_range). simpl.
    destruct (Z.leb_spec (value q - value other + value other) max_int64);
      [|in_range].
    destruct q as [v]. simpl. do 2 f_equal. lia.
Qed.

Lemma Quantity_Subtract_Add_witness :
  (try r <- Quantity_Subtract (mkQuantity 10) (mkQuantity 3);
   Quantity_Add r (mkQuantity 3)) = Ok (mkQuantity 10).
Proof.
  apply (Quantity_Subtract_Add (mkQuantity 10) (mkQuantity 3));
    in_range.
Defined.

(** X4: [Multiply] distributes over the sum of two non-negative factors:
    when [amount * (n1 + n2)] fits in an int64, multiplying by [n1] and by
    [n2] and adding the results is multiplying by [n1 + n2]. *)
Theorem Money_Multiply_distributes (m : Money) (n1 n2 : Z) :
  Money_valid m -> 0 <= n1 -> 0 <= n2 ->
  amount m * (n1 + n2) <= max_int64 ->
  (try a <- Money_Multiply m n1;
   try b <- Money_Multiply m n2; Money_Add a b)
  = Money_Multiply m (n1 + n2).
Proof.
  intros Hm H1 H2 Hfit. pose proof Hm as [Ha Hc].
  rewrite !Money_Multiply_exact by (assumption || nia). cbn [bind].
  rewrite Money_Add_same; simpl; try reflexivity.
  - destruct (Z.leb_spec (amount m * n1 + amount m * n2) max_int64); [|nia].
    do 2 f_equal. lia.
  - split; simpl; [nia|assumption].
  - split; simpl; [nia|assumption].
Qed.

Lemma Money_Multiply_distributes_witness :
  (try a <- Money_Multiply (mkMoney 1000 "USD") 2;
   try b <- Money_Multiply (mkMoney 1000 "USD") 3; Money_Add a b)
  = Money_Multiply (mkMoney 1000 "USD") (2 + 3).
Proof.
  apply Money_Multiply_distributes; try lia.
  - split; simpl; [unfold max_int64; lia|discriminate].
  - simpl. unfold max_int64. lia.
Defined.

(** ** Product *)

(** X5: [NewProduct] fails exactly on an empty name, a nil price or a nil
    stock; otherwise the product carries the generated ID, the arguments,
    and the same time as creation and update time, and it is available
    exactly when its (valid) stock is positive. *)
Theorem NewProduct_spec (name description : string)
    (price : option Money) (stock : option Quantity)
    (uuid : string) (now : Time) :
  (is_Err (NewProduct name description price stock uuid now) <->
     name = "" \/ price = None \/ stock = None) /\
  (forall p, NewProduct name description price stock uuid now = Ok p ->
     Product_id p = uuid /\ Product_name p = name /\
     Product_description p = description /\
     price = Some (Product_price p) /\ stock = Some (Product_stock p) /\
     Product_createdAt p = now /\ Product_updatedAt p = now /\
     (Quantity_valid (Product_stock p) ->
      (Product_IsAvailable p = true <-> 0 < value (Product_stock p)))).
Proof.
  unfold NewProduct. split.
  - destruct (decide (name = "")) as [Hn|Hn]; [simpl; tauto|].
    destruct price, stock; simpl; split; intros H; try exact I;
      try contradiction; auto.
    destruct H as [H|[H|H]]; [contradiction|discriminate|discriminate].
  - intros p H. destruct (decide (name = "")); [discriminate|].
    destruct price as [pr|]; [|discriminate].
    destruct stock as [st|]; [|discriminate].
    inversion H; subst; simpl. repeat split; try reflexivity.
    + unfold Product_IsAvailable, Quantity_IsZero in *. simpl in *.
      destruct (Z.eqb_spec (value st) 0); [discriminate|in_range].
    + unfold Product_IsAvailable, Quantity_IsZero. simpl.
      destruct (Z.eqb_spec (value st) 0); [lia|reflexivity].
Qed.

Lemma NewProduct_spec_witness :
  exists p,
    NewProduct "Pen" "" (Some (mkMoney 1000 "USD")) (Some (mkQuantity 5)) "P" 1
    = Ok p /\ Product_IsAvailable p = true.
Proof.
  eexists. split; [reflexivity|].
  destruct (NewProduct_spec "Pen" "" (Some (mkMoney 1000 "USD"))
              (Some (mkQuantity 5)) "P" 1) as [_ H].
  destruct (H _ eq_refl) as (_ & _ & _ & _ & _ & _ & _ & Hav).
  apply Hav; in_range.
Defined.

(** X6: no method of [Product] changes the ID or the creation time; a
    method that returns an error leaves the product as it was; a
    successful one stamps the update time, and [UpdateDetails] keeps the
    stock while [UpdateStock] and [ReduceStock] keep name, description and
    price. *)
Theorem Product_methods_frame (p : Product) (name description : string)
    (price : option Money) (stock : option Quantity) (q : Quantity)
    (now : Time) :
  let details := Product_UpdateDetails p name description price now in
  let restock := Product_UpdateStock p stock now in
  let reduce := Product_ReduceStock p q now in
  Forall (fun r : Product * option error =>
            Product_id r.1 = Product_id p /\
            Product_createdAt r.1 = Product_createdAt p /\
            (r.2 <> None -> r.1 = p) /\
            (r.2 = None -> Product_updatedAt r.1 = now))
    [details; restock; reduce] /\
  Product_stock details.1 = Product_stock p /\
  Forall (fun r : Product * option error =>
            Product_name r.1 = Product_name p /\
            Product_description r.1 = Product_description p /\
            Product_price r.1 = Product_price p)
    [restock; reduce].
Proof.
  unfold Product_UpdateDetails, Product_UpdateStock, Product_ReduceStock.
  destruct (decide (name = "")), price, stock,
    (Quantity_Subtract (Product_stock p) q);
    simpl; repeat constructor; simpl; congruence.
Qed.

(** X7: reducing the stock by [q1] and then by [q2] is reducing it once by
    [q1 + q2], when the stock covers the sum; and reducing by the whole
    stock leaves the product unavailable. *)
Theorem Product_ReduceStock_twice (p : Product) (q1 q2 : Quantity)
    (t1 t2 : Time) :
  Quantity_valid (Product_stock p) -> Quantity_valid q1 -> Quantity_valid q2 ->
  value q1 + value q2 <= value (Product_stock p) ->
  Product_ReduceStock (Product_ReduceStock p q1 t1).1 q2 t2
  = Product_ReduceStock p (mkQuantity (value q1 + value q2)) t2 /\
  (Product_ReduceStock p (mkQuantity (value q1 + value q2)) t2).2 = None /\
  (value q1 + value q2 = value (Product_stock p) ->
   Product_IsAvailable
     (Product_ReduceStock (Product_ReduceStock p q1 t1).1 q2 t2).1 = false).
Proof.
  intros Hs H1 H2 Hle.
  rewrite (Product_ReduceStock_Ok p q1) by (assumption || in_range).
  rewrite (Product_ReduceStock_Ok _ q2) by (assumption || in_range).
  rewrite (Product_ReduceStock_Ok p (mkQuantity _))
    by (assumption || in_range).
  simpl. replace (value (Product_stock p) - value q1 - value q2)
    with (value (Product_stock p) - (value q1 + value q2)) by lia.
  split; [reflexivity|]. split; [reflexivity|]. intros Heq.
  unfold Product_IsAvailable, Quantity_IsZero. simpl.
  rewrite Heq, Z.sub_diag. reflexivity.
Qed.

Lemma Product_ReduceStock_twice_witness :
  Product_ReduceStock (Product_ReduceStock (scenario_P 5) (mkQuantity 2) 1).1
    (mkQuantity 3) 2
  = Product_ReduceStock (scenario_P 5) (mkQuantity (2 + 3)) 2.
Proof.
  apply Product_ReduceStock_twice; in_range.
Defined.

(** ** Basket: removing, updating, counting *)

Section RemoveByKey.
Context {A : Type} (f : A -> string).

Lemma filter_all (l : list A) (k : string) :
  k ∉ f <$> l -> filter (fun z => f z <> k) l = l.
Proof.
  induction l as [|h l IH]; [reflexivity|].
  rewrite fmap_cons, not_elem_of_cons. intros [Hh Hl].
  rewrite filter_cons_True by congruence. rewrite IH by assumption.
  reflexivity.
Qed.

Lemma delete_unique_filter (l : list A) (i : nat) (x : A) :
  NoDup (f <$> l) -> l !! i = Some x ->
  (take i l ++ drop (S i) l)%list = filter (fun z => f z <> f x) l.
Proof.
  revert i. induction l as [|h l IH]; intros i Hnd Hi; [discriminate|].
  rewrite fmap_cons, NoDup_cons in Hnd. destruct Hnd as [Hh Hnd].
  destruct i as [|i]; simpl in *.
  - inversion Hi; subst h. rewrite filter_cons_False by tauto.
    rewrite drop_0. symmetry. apply filter_all. assumption.
  - rewrite filter_cons_True.
    + f_equal. apply IH; assumption.
    + intros Heq. apply Hh. rewrite Heq.
      apply list_elem_of_fmap_2, list_elem_of_lookup. eauto.
Qed.
End RemoveByKey.

(** X8: [RemoveItem] of a product ID that is not in the basket returns the
    item-not-found error and the basket unchanged; of one that is in a
    basket of pairwise-distinct IDs, it succeeds, the ID is gone, and the
    other items remain, in their order. *)
Theorem Basket_RemoveItem_spec (b : Basket) (productID : string) (now : Time) :
  (productID ∉ BasketItem_productID <$> Basket_items b ->
   Basket_RemoveItem b productID now = (b, Some "item not found in basket")) /\
  (NoDup (BasketItem_productID <$> Basket_items b) ->
   (productID ∈ BasketItem_productID <$> Basket_items b) ->
   let kept := filter (fun item => BasketItem_productID item <> productID)
                 (Basket_items b) in
   Basket_RemoveItem b productID now = (Basket_set_items b kept now, None) /\
   (productID ∉ BasketItem_productID <$> kept) /\
   length (Basket_items b) = S (length kept)).
Proof.
  split.
  - intros Habs. unfold Basket_RemoveItem, Basket_find.
    rewrite (find_absent BasketItem_productID) by assumption. reflexivity.
  - intros Hnd Hin kept. unfold Basket_RemoveItem.
    apply list_elem_of_fmap in Hin as (item & Hpid & Hin).
    apply list_elem_of_lookup in Hin as [i Hi]. subst productID.
    unfold Basket_find.
    rewrite (find_present BasketItem_productID _ _ _ Hnd Hi).
    rewrite (delete_unique_filter BasketItem_productID _ _ _ Hnd Hi).
    fold kept. split; [reflexivity|]. split.
    + intros Hk. apply list_elem_of_fmap in Hk as (y & Hy & Hyin).
      unfold kept in Hyin. apply list_elem_of_filter in Hyin as [Hne _].
      congruence.
    + unfold kept.
      rewrite <- (delete_unique_filter BasketItem_productID _ _ _ Hnd Hi).
      rewrite <- delete_take_drop.
      rewrite length_delete by eauto.
      apply lookup_lt_Some in Hi. lia.
Qed.

Lemma Basket_RemoveItem_spec_witness :
  let p := mkBasketItem "P" (mkQuantity 2) (mkMoney 1000 "USD") in
  let q := mkBasketItem "Q" (mkQuantity 1) (mkMoney 1500 "USD") in
  let b := ReconstructBasket "B" [p; q] 0 0 in
  Basket_RemoveItem b "P" 1 = (Basket_set_items b [q] 1, None) /\
  Basket_RemoveItem b "R" 1 = (b, Some "item not found in basket").
Proof.
  intros p q b. split.
  - destruct (Basket_RemoveItem_spec b "P" 1) as [_ H].
    destruct H as [H _]; [| |exact H].
    + simpl. compute_done.
    + simpl. compute_done.
  - apply (Basket_RemoveItem_spec b "R" 1). simpl. compute_done.
Defined.

(** X9: adding an item under a product ID the basket does not hold
    (non-empty ID, non-zero quantity) and removing that ID again gives back
    the items the basket had, in their order. *)
Theorem Basket_AddItem_RemoveItem (b : Basket) (productID : string)
    (q : Quantity) (price : Money) (t1 t2 : Time) :
  productID ∉ BasketItem_productID <$> Basket_items b ->
  productID <> "" -> value q <> 0 ->
  (Basket_AddItem b productID q (Some price) t1).2 = None /\
  Basket_RemoveItem (Basket_AddItem b productID q (Some price) t1).1
    productID t2
  = (Basket_set_items b (Basket_items b) t2, None).
Proof.
  intros Habs Hne Hq. unfold Basket_AddItem, Basket_find.
  rewrite (find_absent BasketItem_productID) by assumption.
  rewrite NewBasketItem_Ok by assumption. split; [reflexivity|].
  cbn [fst]. unfold Basket_RemoveItem, Basket_find.
  cbn [Basket_items Basket_set_items].
  assert (Hfind : list_find (fun item => BasketItem_productID item = productID)
                    (Basket_items b ++ [mkBasketItem productID q price])
                  = Some (length (Basket_items b),
                          mkBasketItem productID q price)).
  { apply list_find_Some. split; [|split; [reflexivity|]].
    - rewrite lookup_app_r by lia. rewrite Nat.sub_diag. reflexivity.
    - intros j y Hj Hlt Hy. rewrite lookup_app_l in Hj by assumption.
      apply Habs. rewrite <- Hy. apply list_elem_of_fmap_2.
      apply list_elem_of_lookup. eauto. }
  rewrite Hfind. unfold Basket_set_items. cbn [Basket_id Basket_createdAt].
  rewrite take_app_length. rewrite drop_app_ge by lia.
  replace (S (length (Basket_items b)) - length (Basket_items b))%nat
    with 1%nat by lia.
  simpl. rewrite app_nil_r. reflexivity.
Qed.

Lemma Basket_AddItem_RemoveItem_witness :
  let b := ReconstructBasket "B"
             [mkBasketItem "P" (mkQuantity 2) (mkMoney 1000 "USD")] 0 0 in
  Basket_RemoveItem
    (Basket_AddItem b "Q" (mkQuantity 1) (Some (mkMoney 1500 "USD")) 1).1 "Q" 2
  = (Basket_set_items b (Basket_items b) 2, None).
Proof.
  intros b.
  apply (Basket_AddItem_RemoveItem b "Q" (mkQuantity 1) (mkMoney 1500 "USD") 1 2).
  - simpl. compute_done.
  - discriminate.
  - simpl. lia.
Defined.

(** X10: [UpdateItemQuantity] with a zero quantity is [RemoveItem]; with a
    non-zero quantity it fails on a product ID the basket does not hold,
    and otherwise replaces the quantity of the item in place and keeps the
    price the item had. *)
Theorem Basket_UpdateItemQuantity_spec (b : Basket) (productID : string)
    (q : Quantity) (now : Time) :
  (value q = 0 ->
   Basket_UpdateItemQuantity b productID q now
   = Basket_RemoveItem b productID now) /\
  (value q <> 0 ->
   productID ∉ BasketItem_productID <$> Basket_items b ->
   Basket_UpdateItemQuantity b productID q now
   = (b, Some "item not found in basket")) /\
  (value q <> 0 -> productID <> "" ->
   NoDup (BasketItem_productID <$> Basket_items b) ->
   forall i item,
     Basket_items b !! i = Some item ->
     BasketItem_productID item = productID ->
     Basket_UpdateItemQuantity b productID q now
     = (Basket_set_items b
          (<[i := mkBasketItem productID q (BasketItem_price item)]>
             (Basket_items b)) now, None)).
Proof.
  unfold Basket_UpdateItemQuantity, Quantity_IsZero. split; [|split].
  - intros ->. reflexivity.
  - intros Hq Habs. destruct (Z.eqb_spec (value q) 0); [contradiction|].
    unfold Basket_find.
    rewrite (find_absent BasketItem_productID) by assumption. reflexivity.
  - intros Hq Hne Hnd i item Hi Hpid.
    destruct (Z.eqb_spec (value q) 0); [contradiction|].
    unfold Basket_find. subst productID.
    rewrite (find_present BasketItem_productID _ _ _ Hnd Hi).
    rewrite NewBasketItem_Ok by assumption. reflexivity.
Qed.

Lemma Basket_UpdateItemQuantity_spec_witness :
  let b := ReconstructBasket "B"
             [mkBasketItem "P" (mkQuantity 2) (mkMoney 1000 "USD")] 0 0 in
  Basket_UpdateItemQuantity b "P" (mkQuantity 7) 1
  = (Basket_set_items b
       [mkBasketItem "P" (mkQuantity 7) (mkMoney 1000 "USD")] 1, None).
Proof.
  intros b.
  destruct (Basket_UpdateItemQuantity_spec b "P" (mkQuantity 7) 1)
    as (_ & _ & H).
  apply (H ltac:(simpl; lia) ltac:(discriminate)
           ltac:(simpl; apply NoDup_singleton) 0%nat
           (mkBasketItem "P" (mkQuantity 2) (mkMoney 1000 "USD"))
           eq_refl eq_refl).
Defined.

Lemma ItemCount_fold (items : list BasketItem) :
  Forall (fun item => Quantity_valid (BasketItem_quantity item)) items ->
  forall count, 0 <= count -> count + quantity_sum items <= max_int64 ->
  fold_left (fun count item => wrap64 (count + value (BasketItem_quantity item)))
    items count = count + quantity_sum items.
Proof.
  induction 1 as [|item items Hq Hv IH]; intros count H0 Hfit; simpl in *.
  - lia.
  - assert (0 <= quantity_sum items).
    { clear -Hv. induction Hv as [|? ? Hq _ IH]; simpl; [lia|in_range]. }
    rewrite wrap64_id by in_range. rewrite IH by in_range. lia.
Qed.

Lemma quantity_sum_insert (items : list BasketItem) i item newItem :
  items !! i = Some item ->
  quantity_sum (<[i := newItem]> items)
  = quantity_sum items - value (BasketItem_quantity item)
    + value (BasketItem_quantity newItem).
Proof.
  revert i. induction items as [|h items IH]; intros i Hi; [discriminate|].
  destruct i as [|i]; simpl in *.
  - inversion Hi; subst. lia.
  - rewrite (IH i Hi). lia.
Qed.

Lemma quantity_sum_app (l1 l2 : list BasketItem) :
  quantity_sum (l1 ++ l2) = quantity_sum l1 + quantity_sum l2.
Proof. induction l1 as [|h l1 IH]; simpl; [reflexivity|]. rewrite IH. lia. Qed.

(** X11: [ItemCount] is the number of units (the sum of the quantities,
    not the number of lines) when that sum fits in an int, and a successful
    [AddItem] of a quantity [q] raises it by exactly [q], whether the
    product was in the basket or not. *)
Theorem Basket_ItemCount_spec (b : Basket) :
  Forall (fun item => Quantity_valid (BasketItem_quantity item))
    (Basket_items b) ->
  (quantity_sum (Basket_items b) <= max_int64 ->
   Basket_ItemCount b = quantity_sum (Basket_items b)) /\
  (forall productID q price now b',
     Quantity_valid q ->
     Basket_AddItem b productID q price now = (b', None) ->
     quantity_sum (Basket_items b') = quantity_sum (Basket_items b) + value q /\
     (quantity_sum (Basket_items b') <= max_int64 ->
      Basket_ItemCount b' = Basket_ItemCount b + value q)).
Proof.
  intros Hv.
  assert (Hcount : forall c : Basket,
    Forall (fun item => Quantity_valid (BasketItem_quantity item))
      (Basket_items c) ->
    quantity_sum (Basket_items c) <= max_int64 ->
    Basket_ItemCount c = quantity_sum (Basket_items c)).
  { intros c Hc Hfit. unfold Basket_ItemCount.
    rewrite ItemCount_fold by (assumption || lia). lia. }
  split; [apply Hcount; assumption|].
  intros productID q price now b' Hq Hadd.
  assert (Hnew : quantity_sum (Basket_items b')
                 = quantity_sum (Basket_items b) + value q /\
                 Forall (fun item => Quantity_valid (BasketItem_quantity item))
                   (Basket_items b')).
  { unfold Basket_AddItem in Hadd.
    destruct (Basket_find b productID) as [[i item]|] eqn:Hfind.
    - apply Basket_find_Some in Hfind as [Hi _].
      assert (Hitem : Quantity_valid (BasketItem_quantity item)).
      { rewrite Forall_forall in Hv. apply Hv.
        apply list_elem_of_lookup. eauto. }
      rewrite Quantity_Add_spec in Hadd by assumption.
      destruct (Z.leb_spec (value (BasketItem_quantity item) + value q)
                  max_int64); [|discriminate].
      destruct (NewBasketItem _ _ _) as [newItem|] eqn:Hitem';
        [|discriminate].
      apply NewBasketItem_inv in Hitem' as (_ & Hsome & _).
      inversion Hadd; subst b'. inversion Hsome as [Hquant]. simpl. split.
      + rewrite (quantity_sum_insert _ _ _ _ Hi), <- Hquant. simpl. lia.
      + apply Forall_insert; [assumption|]. rewrite <- Hquant. in_range.
    - destruct (NewBasketItem _ _ _) as [newItem|] eqn:Hitem'; [|discriminate].
      apply NewBasketItem_inv in Hitem' as (_ & Hsome & _).
      inversion Hadd; subst b'. inversion Hsome as [Hquant]. simpl. split.
      + rewrite quantity_sum_app. simpl. lia.
      + apply Forall_app. split; [assumption|]. apply Forall_singleton.
        rewrite <- Hquant. assumption. }
  destruct Hnew as [Hsum Hv']. split; [exact Hsum|]. intros Hfit.
  rewrite (Hcount b') by assumption.
  rewrite (Hcount b) by (assumption || in_range). exact Hsum.
Qed.

Lemma Basket_ItemCount_spec_witness :
  Basket_ItemCount
    (ReconstructBasket "B"
       [mkBasketItem "P" (mkQuantity 2) (mkMoney 1000 "USD");
        mkBasketItem "Q" (mkQuantity 3) (mkMoney 1500 "USD")] 0 0) = 5.
Proof.
  apply Basket_ItemCount_spec.
  - repeat constructor; in_range.
  - simpl. unfold max_int64. lia.
Defined.

(** X12: no method of [Basket] changes the ID or the creation time, and a
    method that returns an error leaves the basket as it was; after
    [Clear] the basket is empty, counts no item and totals zero "USD". *)
Theorem Basket_methods_frame (b : Basket) (productID : string)
    (q : Quantity) (price : option Money) (now : Time) :
  Forall (fun r : Basket * option error =>
            Basket_id r.1 = Basket_id b /\
            Basket_createdAt r.1 = Basket_createdAt b /\
            (r.2 <> None -> r.1 = b) /\
            (r.2 = None -> Basket_updatedAt r.1 = now))
    [Basket_AddItem b productID q price now;
     Basket_RemoveItem b productID now;
     Basket_UpdateItemQuantity b productID q now;
     (Basket_Clear b now, None)] /\
  Basket_IsEmpty (Basket_Clear b now) = true /\
  Basket_ItemCount (Basket_Clear b now) = 0 /\
  Basket_Total (Basket_Clear b now) = Ok (mkMoney 0 "USD").
Proof.
  split; [|repeat split].
  unfold Basket_UpdateItemQuantity, Basket_AddItem, Basket_RemoveItem.
  destruct (Basket_find b productID) as [[i item]|];
    destruct (Quantity_IsZero q);
    repeat match goal with
           | |- context [match ?r with Ok _ => _ | Err _ => _ end] =>
               destruct r
           end;
    repeat constructor; simpl; congruence.
Qed.

(** ** Order *)

Lemma NewOrder_convert_inv basketItems :
  forall orderItems,
  NewOrder_convert basketItems = Ok orderItems ->
  orderItems = toOrderItem <$> basketItems /\
  Forall (fun bi => BasketItem_productID bi <> "" /\
                    value (BasketItem_quantity bi) <> 0) basketItems.
Proof.
  induction basketItems as [|bi rest IH]; intros orderItems H.
  - inversion H. split; [reflexivity|constructor].
  - cbn [NewOrder_convert] in H. unfold NewOrderItem, Quantity_IsZero in H.
    destruct (decide (BasketItem_productID bi = "")); [discriminate|].
    destruct (Z.eqb_spec (value (BasketItem_quantity bi)) 0); [discriminate|].
    cbn [bind] in H.
    destruct (NewOrder_convert rest) as [ois|]; [|discriminate].
    destruct (IH ois eq_refl) as [-> Hrest]. inversion H.
    split; [reflexivity|]. constructor; auto.
Qed.

Lemma Basket_Total_loop_valid items :
  forall t total, Money_valid t -> Basket_Total_loop t items = Ok total ->
  Money_valid total.
Proof.
  induction items as [|item items IH]; intros t total Ht H.
  - inversion H; subst. exact Ht.
  - cbn [Basket_Total_loop] in H.
    destruct (BasketItem_Subtotal item) as [sub|]; [|discriminate].
    cbn [bind] in H. destruct (Money_Add t sub) as [t'|] eqn:Hadd;
      [|discriminate].
    cbn [bind] in H. apply (IH t' total); [|exact H].
    unfold Money_Add in Hadd.
    destruct (decide (currency t <> currency sub)); [discriminate|].
    apply NewMoney_valid in Hadd as [Hv _]; [exact Hv|apply wrap64_range].
Qed.

(** X13: [NewOrder] fails on no items; when it succeeds, the order has the
    generated ID, status PENDING and one time for creation and update, its
    items are the basket's items one for one (product ID, quantity and
    price, in order), each with a non-empty product ID and a non-zero
    quantity, and its total is a valid Money, the one [Basket.Total] gives
    for a basket holding those items. *)
Theorem NewOrder_snapshot (basketItems : list BasketItem)
    (uuid : string) (now : Time) :
  (basketItems = [] ->
   NewOrder basketItems uuid now = Err "cannot create order with empty basket") /\
  (forall o, NewOrder basketItems uuid now = Ok o ->
     basketItems <> [] /\
     Order_id o = uuid /\ Order_status o = OrderStatusPending /\
     Order_createdAt o = now /\ Order_updatedAt o = now /\
     Order_items o = toOrderItem <$> basketItems /\
     Forall (fun bi => BasketItem_productID bi <> "" /\
                       value (BasketItem_quantity bi) <> 0) basketItems /\
     Money_valid (Order_total o) /\
     forall id createdAt updatedAt,
       Basket_Total (ReconstructBasket id basketItems createdAt updatedAt)
       = Ok (Order_total o)).
Proof.
  split; [intros ->; reflexivity|].
  intros o H. unfold NewOrder in H.
  destruct basketItems as [|first rest] eqn:Hitems; [discriminate|].
  rewrite <- Hitems in *.
  destruct (NewOrder_convert basketItems) as [orderItems|] eqn:Hconv;
    [|discriminate].
  apply NewOrder_convert_inv in Hconv as [-> Hvalid]. cbn [bind] in H.
  destruct (NewMoney 0 _) as [zero|] eqn:Hzero; [|discriminate].
  cbn [bind] in H. rewrite NewOrder_total_loop_toOrderItem in H.
  destruct (Basket_Total_loop zero basketItems) as [total|] eqn:Hloop;
    [|discriminate].
  inversion H; subst o; simpl.
  split; [rewrite Hitems; discriminate|].
  do 6 (split; [reflexivity || assumption|]). split.
  - assert (Hz : in_int64 0) by in_range.
    apply (Basket_Total_loop_valid _ _ _
             (proj1 (NewMoney_valid _ _ _ Hz Hzero)) Hloop).
  - intros id c u. unfold Basket_Total, Basket_IsEmpty. simpl.
    rewrite Hitems. cbn [length Nat.eqb]. rewrite <- Hitems, Hzero.
    exact Hloop.
Qed.

Lemma NewOrder_snapshot_witness :
  let item := mkBasketItem "P" (mkQuantity 2) (mkMoney 1000 "USD") in
  exists o, NewOrder [item] "O" 1 = Ok o /\
    Order_items o = [toOrderItem item] /\
    Order_status o = OrderStatusPending.
Proof.
  intros item. eexists. split; [reflexivity|].
  destruct (NewOrder_snapshot [item] "O" 1) as [_ H].
  destruct (H _ eq_refl) as (_ & _ & Hs & _ & _ & Hi & _). auto.
Defined.

(** X14: the items, the total, the ID and the creation time of an order
    never change after creation: every transition keeps them, a refused
    transition returns the order as it was, and an accepted one stamps the
    update time. *)
Theorem Order_transitions_frame (o : Order) (now : Time) :
  Forall (fun r : Order * option error =>
            Order_id r.1 = Order_id o /\
            Order_items r.1 = Order_items o /\
            Order_total r.1 = Order_total o /\
            Order_createdAt r.1 = Order_createdAt o /\
            (r.2 <> None -> r.1 = o) /\
            (r.2 = None -> Order_updatedAt r.1 = now))
    [Order_Confirm o now; Order_Ship o now;
     Order_Deliver o now; Order_Cancel o now].
Proof.
  unfold Order_Confirm, Order_Ship, Order_Deliver, Order_Cancel.
  repeat match goal with
         | |- context [decide ?P] => destruct (decide P)
         end;
    repeat constructor; simpl; congruence.
Qed.

Lemma Order_step (o : Order) (from to : OrderStatus) (now : Time) :
  Order_status o = from ->
  (from = OrderStatusPending -> to = OrderStatusConfirmed ->
   Order_Confirm o now = (Order_set_status o to now, None)) /\
  (from = OrderStatusConfirmed -> to = OrderStatusShipped ->
   Order_Ship o now = (Order_set_status o to now, None)) /\
  (from = OrderStatusShipped -> to = OrderStatusDelivered ->
   Order_Deliver o now = (Order_set_status o to now, None)).
Proof.
  intros Hs. unfold Order_Confirm, Order_Ship, Order_Deliver.
  repeat split; intros -> ->; rewrite Hs;
    match goal with
    | |- context [decide ?P] => destruct (decide P) as [Hne|_]
    end; try reflexivity; exfalso; apply Hne; reflexivity.
Qed.

(** X15: a PENDING order can be confirmed, then shipped, then delivered, in
    that sequence, and ends DELIVERED; and once an order is DELIVERED or
    CANCELLED every transition, cancelling included, is refused. *)
Theorem Order_lifecycle (o : Order) (t1 t2 t3 t4 : Time) :
  (Order_status o = OrderStatusPending ->
   let o1 := (Order_Confirm o t1).1 in
   let o2 := (Order_Ship o1 t2).1 in
   let o3 := (Order_Deliver o2 t3).1 in
   (Order_Confirm o t1).2 = None /\ (Order_Ship o1 t2).2 = None /\
   (Order_Deliver o2 t3).2 = None /\
   Order_status o3 = OrderStatusDelivered /\
   Order_Cancel o3 t4 = (o3, Some "delivered orders cannot be cancelled")) /\
  (Order_status o = OrderStatusDelivered \/
   Order_status o = OrderStatusCancelled ->
   Forall (fun r : Order * option error => r.1 = o /\ r.2 <> None)
     [Order_Confirm o t1; Order_Ship o t1;
      Order_Deliver o t1; Order_Cancel o t1]).
Proof.
  split.
  - intros Hs.
    destruct (Order_step o _ OrderStatusConfirmed t1 Hs) as (-> & _);
      try reflexivity.
    cbn [fst snd].
    destruct (Order_step (Order_set_status o OrderStatusConfirmed t1) _
                OrderStatusShipped t2 eq_refl) as (_ & -> & _);
      try reflexivity.
    cbn [fst snd].
    destruct (Order_step
                (Order_set_status
                   (Order_set_status o OrderStatusConfirmed t1)
                   OrderStatusShipped t2) _
                OrderStatusDelivered t3 eq_refl) as (_ & _ & ->);
      try reflexivity.
    repeat split.
  - unfold Order_Confirm, Order_Ship, Order_Deliver, Order_Cancel.
    intros [Hs|Hs]; rewrite Hs;
      repeat match goal with
             | |- context [decide ?P] => destruct (decide P)
             end;
      repeat constructor; simpl; try discriminate; exfalso;
      match goal with
      | H : ~ (_ <> _) |- _ => apply H; discriminate
      | H : _ <> _ |- _ => apply H; reflexivity
      end.
Qed.

Lemma Order_lifecycle_witness :
  let o := ReconstructOrder "O" [] (mkMoney 0 "USD") OrderStatusPending 0 0 in
  Order_status
    (Order_Deliver (Order_Ship (Order_Confirm o 1).1 2).1 3).1
  = OrderStatusDelivered.
Proof.
  intros o. destruct (Order_lifecycle o 1 2 3 4) as [H _].
  destruct (H eq_refl) as (_ & _ & _ & Hd & _). exact Hd.
Defined.

(** X16: [IsCancellable] and [Cancel] agree: [IsCancellable] is true
    exactly when [Cancel] is accepted, and then the order is CANCELLED and
    no longer cancellable. *)
Theorem Order_IsCancellable_Cancel (o : Order) (now : Time) :
  (Order_IsCancellable o = true <-> succeeds (Order_Cancel o now)) /\
  (Order_IsCancellable o = true ->
   Order_status (Order_Cancel o now).1 = OrderStatusCancelled /\
   Order_IsCancellable (Order_Cancel o now).1 = false).
Proof.
  unfold Order_IsCancellable, Order_Cancel, succeeds.
  destruct (decide (Order_status o = OrderStatusDelivered)) as [Hd|Hd];
    [|destruct (decide (Order_status o = OrderStatusCancelled)) as [Hc|Hc]];
    simpl.
  - rewrite bool_decide_eq_false_2 by tauto. simpl.
    split; [split|]; discriminate.
  - rewrite (bool_decide_eq_false_2 (_ <> OrderStatusCancelled)) by tauto.
    rewrite andb_false_r. split; [split|]; discriminate.
  - rewrite !bool_decide_eq_true_2 by assumption.
    split; [split; reflexivity|]. intros _. split; reflexivity.
Qed.

Lemma Order_IsCancellable_Cancel_witness :
  let o := ReconstructOrder "O" [] (mkMoney 0 "USD") OrderStatusShipped 0 0 in
  Order_status (Order_Cancel o 1).1 = OrderStatusCancelled.
Proof.
  intros o. apply (Order_IsCancellable_Cancel o 1). reflexivity.
Defined.

(** X17: every order made by [NewOrder] and moved only by [Confirm],
    [Ship], [Deliver] and [Cancel] has one of the five statuses, at least
    one item, only items with a non-empty product ID and a non-zero
    quantity, and a valid total. *)
Theorem Order_built_inv (o : Order) : Order_built o -> Order_inv o.
Proof.
  assert (Hframe : forall (o : Order) (r : Order * option error) status now,
            Order_inv o ->
            r = (o, r.2) \/ r = (Order_set_status o status now, None) ->
            status ∈ [OrderStatusPending; OrderStatusConfirmed;
                      OrderStatusShipped; OrderStatusDelivered;
                      OrderStatusCancelled] ->
            Order_inv r.1).
  { intros o' r status now Hinv [->| ->] Hs; [exact Hinv|].
    destruct Hinv as (_ & H2 & H3 & H4).
    split; [exact Hs|]. split; [exact H2|]. split; [exact H3|exact H4]. }
  induction 1 as [items uuid now o Hnew|o now _ IH|o now _ IH|o now _ IH
                 |o now _ IH].
  - destruct (NewOrder_convert items) as [ois|] eqn:Hconv.
    + unfold NewOrder in Hnew. destruct items as [|first rest] eqn:Hitems;
        [discriminate|]. rewrite <- Hitems in *. rewrite Hconv in Hnew.
      apply NewOrder_convert_inv in Hconv as [-> Hvalid]. cbn [bind] in Hnew.
      destruct (NewMoney 0 _) as [zero|] eqn:Hzero; [|discriminate].
      cbn [bind] in Hnew. rewrite NewOrder_total_loop_toOrderItem in Hnew.
      destruct (Basket_Total_loop zero items) as [total|] eqn:Hloop;
        [|discriminate].
      inversion Hnew; subst o. split; [|split; [|split]]; simpl.
      * compute_done.
      * rewrite Hitems. discriminate.
      * rewrite Forall_fmap. exact Hvalid.
      * assert (Hz : in_int64 0) by in_range.
        apply (Basket_Total_loop_valid _ _ _
                 (proj1 (NewMoney_valid _ _ _ Hz Hzero)) Hloop).
    + unfold NewOrder in Hnew. destruct items; [discriminate|].
      rewrite Hconv in Hnew. discriminate.
  - apply (Hframe o _ OrderStatusConfirmed now IH); [|compute_done].
    unfold Order_Confirm. destruct (decide _); auto.
  - apply (Hframe o _ OrderStatusShipped now IH); [|compute_done].
    unfold Order_Ship. destruct (decide _); auto.
  - apply (Hframe o _ OrderStatusDelivered now IH); [|compute_done].
    unfold Order_Deliver. destruct (decide _); auto.
  - apply (Hframe o _ OrderStatusCancelled now IH); [|compute_done].
    unfold Order_Cancel. repeat destruct (decide _); auto.
Qed.

Lemma Order_built_inv_witness :
  exists o,
    NewOrder [mkBasketItem "P" (mkQuantity 2) (mkMoney 1000 "USD")] "O" 1 = Ok o /\
    Order_inv (Order_Ship (Order_Confirm o 2).1 3).1.
Proof.
  exists (mkOrder "O" [mkOrderItem "P" (mkQuantity 2) (mkMoney 1000 "USD")]
            (mkMoney 2000 "USD") OrderStatusPending 1 1).
  split; [reflexivity|].
  apply Order_built_inv. apply built_Ship, built_Confirm.
  apply (built_NewOrder
           [mkBasketItem "P" (mkQuantity 2) (mkMoney 1000 "USD")] "O" 1).
  reflexivity.
Defined.

(** ** ProductService *)









Lemma products_inv_insert products p :
  products_inv products -> Quantity_valid (Product_stock p) ->
  Money_valid (Product_price p) ->
  products_inv (<[Product_id p := p]> products).
Proof.
  intros [Hwf Hprice] Hs Hp. split.
  - apply products_wf_insert; assumption.
  - intros id p'. rewrite lookup_insert.
    destruct (decide (Product_id p = id)).
    + intros H. inversion H; subst. assumption.
    + apply Hprice.
Qed.

(** X22: the invariant of the product repository (every product stored
    under its own ID, with a valid stock and a valid price) holds of the
    empty repository and is kept by [CreateProduct], [UpdateProduct],
    [UpdateStock] and [DeleteProduct], for requests whose price and stock
    are an int64 and an int. *)
Theorem ProductService_keeps_products_inv :
  products_inv ∅ /\
  forall products, products_inv products ->
    (forall req uuid now,
       in_int64 (CreateProductRequest_Price req) ->
       in_int64 (CreateProductRequest_Stock req) ->
       products_inv (ProductService_CreateProduct products req uuid now).1) /\
    (forall id req now,
       in_int64 (UpdateProductRequest_Price req) ->
       products_inv (ProductService_UpdateProduct products id req now).1) /\
    (forall id req now,
       in_int64 (UpdateStockRequest_Stock req) ->
       products_inv (ProductService_UpdateStock products id req now).1) /\
    (forall id, products_inv (ProductService_DeleteProduct products id).1).
Proof.
  split.
  - split; intros id p H; rewrite lookup_empty in H; discriminate.
  - intros products Hinv. split; [|split; [|split]].
    + intros req uuid now Hprice Hstock.
      unfold ProductService_CreateProduct, NewProduct, ProductRepo_Save.
      case_decide; [exact Hinv|].
      destruct (_ <? 0); [exact Hinv|]. destruct (_ <? 0); [exact Hinv|].
      destruct (NewMoney _ _) as [price|] eqn:Hm; [|exact Hinv].
      destruct (NewQuantity _) as [stock|] eqn:Hq; [|exact Hinv].
      apply NewMoney_valid in Hm as [Hm _]; [|assumption].
      apply NewQuantity_valid in Hq as [Hq _]; [|assumption].
      cbn [fst].
      apply (products_inv_insert products
               (mkProduct uuid _ _ price stock now now)); assumption.
    + intros id req now Hprice.
      unfold ProductService_UpdateProduct, ProductRepo_FindByID,
        Product_UpdateDetails, ProductRepo_Update.
      case_decide; [exact Hinv|].
      destruct (_ <? 0); [exact Hinv|].
      destruct (products !! id) as [p|] eqn:Hp; [|exact Hinv].
      destruct (NewMoney _ _) as [price|] eqn:Hm; [|exact Hinv].
      apply NewMoney_valid in Hm as [Hm _]; [|assumption].
      cbn [Product_id].
      destruct (products !! Product_id p); [|exact Hinv]. cbn [fst].
      destruct (proj1 Hinv _ _ Hp) as [_ Hs].
      apply (products_inv_insert products
               (mkProduct (Product_id p) _ _ price (Product_stock p) _ now));
        assumption.
    + intros id req now Hstock.
      unfold ProductService_UpdateStock, ProductRepo_FindByID,
        Product_UpdateStock, ProductRepo_Update.
      destruct (_ <? 0); [exact Hinv|].
      destruct (products !! id) as [p|] eqn:Hp; [|exact Hinv].
      destruct (NewQuantity _) as [stock|] eqn:Hq; [|exact Hinv].
      apply NewQuantity_valid in Hq as [Hq _]; [|assumption].
      cbn [Product_id].
      destruct (products !! Product_id p); [|exact Hinv]. cbn [fst].
      apply (products_inv_insert products
               (mkProduct (Product_id p) _ _ (Product_price p) stock _ now));
        [assumption|assumption|]. apply (proj2 Hinv _ _ Hp).
    + intros id. unfold ProductService_DeleteProduct, ProductRepo_Delete.
      destruct (ProductRepo_ExistsByID products id); [|exact Hinv].
      destruct (products !! id); [|exact Hinv]. cbn [fst].
      destruct Hinv as [Hwf Hprice].
      split; intros id' p'; rewrite lookup_delete;
        destruct (decide (id = id')); try discriminate;
        [apply Hwf|apply Hprice].
Qed.

Lemma ProductService_keeps_products_inv_witness :
  products_inv
    (ProductService_CreateProduct ∅
       (mkCreateProductRequest "Pen" "" 1000 "USD" 5) "P" 1).1.
Proof.
  destruct ProductService_keeps_products_inv as [Hempty Hkeep].
  apply (Hkeep ∅ Hempty); in_range.
Defined.

(** ** BasketService *)

Lemma NewBasketItem_Some_inv productID q price item :
  NewBasketItem productID (Some q) (Some price) = Ok item ->
  item = mkBasketItem productID q price /\ productID <> "" /\ value q <> 0.
Proof.
  unfold NewBasketItem, Quantity_IsZero. intros H.
  destruct (decide (productID = "")); [discriminate|].
  destruct (Z.eqb_spec (value q) 0); [discriminate|].
  inversion H. auto.
Qed.

Lemma Basket_wf_replace (b : Basket) i item newItem now :
  Basket_wf b -> Basket_items b !! i = Some item ->
  BasketItem_productID newItem = BasketItem_productID item ->
  BasketItem_valid newItem ->
  Basket_wf (Basket_set_items b (<[i := newItem]> (Basket_items b)) now).
Proof.
  intros [Hnd Hv] Hi Hpid Hnew. split; simpl.
  - rewrite list_fmap_insert, Hpid, list_insert_id; [assumption|].
    rewrite list_lookup_fmap, Hi. reflexivity.
  - apply Forall_insert; assumption.
Qed.

Lemma Basket_wf_lookup (b : Basket) i item :
  Basket_wf b -> Basket_items b !! i = Some item -> BasketItem_valid item.
Proof.
  intros [_ Hv] Hi. rewrite Forall_forall in Hv. apply Hv.
  apply list_elem_of_lookup. eauto.
Qed.

Lemma Basket_AddItem_wf b productID q price now :
  Basket_wf b -> Quantity_valid q -> Money_valid price ->
  Basket_wf (Basket_AddItem b productID q (Some price) now).1.
Proof.
  intros Hwf Hq Hp. unfold Basket_AddItem.
  destruct (Basket_find b productID) as [[i item]|] eqn:Hfind.
  - apply Basket_find_Some in Hfind as [Hi Hpid].
    destruct (Quantity_Add _ _) as [newQuantity|] eqn:Hadd; [|exact Hwf].
    destruct (NewBasketItem _ _ _) as [newItem|] eqn:Hnew; [|exact Hwf].
    unfold Quantity_Add in Hadd.
    apply NewQuantity_valid in Hadd as [Hv _]; [|apply wrap64_range].
    apply NewBasketItem_Some_inv in Hnew as (-> & Hne & Hnz).
    eapply Basket_wf_replace; eauto.
    repeat split; simpl; assumption || apply Hv || apply Hp.
  - destruct (NewBasketItem _ _ _) as [newItem|] eqn:Hnew; [|exact Hwf].
    apply NewBasketItem_Some_inv in Hnew as (-> & Hne & Hnz).
    destruct Hwf as [Hnd Hv]. split; simpl.
    + rewrite fmap_app. apply NoDup_app. split; [assumption|]. split.
      * intros x Hx Hx'. simpl in Hx'. apply list_elem_of_singleton in Hx'.
        subst x. apply list_elem_of_fmap in Hx as (y & Hy & Hin).
        unfold Basket_find in Hfind.
        rewrite list_find_None, Forall_forall in Hfind.
        apply (Hfind y Hin). congruence.
      * simpl. apply NoDup_singleton.
    + apply Forall_app. split; [assumption|]. apply Forall_singleton.
      repeat split; simpl; assumption || apply Hq || apply Hp.
Qed.

Lemma Basket_RemoveItem_wf b productID now :
  Basket_wf b -> Basket_wf (Basket_RemoveItem b productID now).1.
Proof.
  intros Hwf. unfold Basket_RemoveItem.
  destruct (Basket_find b productID) as [[i item]|]; [|exact Hwf].
  destruct Hwf as [Hnd Hv]. simpl. rewrite <- delete_take_drop.
  split; simpl.
  - rewrite list_fmap_delete.
    exact (sublist_NoDup _ _ Hnd (sublist_delete _ _)).
  - apply Forall_delete. assumption.
Qed.

Lemma Basket_UpdateItemQuantity_wf b productID q now :
  Basket_wf b -> Quantity_valid q ->
  Basket_wf (Basket_UpdateItemQuantity b productID q now).1.
Proof.
  intros Hwf Hq. unfold Basket_UpdateItemQuantity.
  destruct (Quantity_IsZero q); [apply Basket_RemoveItem_wf; assumption|].
  destruct (Basket_find b productID) as [[i item]|] eqn:Hfind; [|exact Hwf].
  apply Basket_find_Some in Hfind as [Hi Hpid].
  destruct (NewBasketItem _ _ _) as [newItem|] eqn:Hnew; [|exact Hwf].
  apply NewBasketItem_Some_inv in Hnew as (-> & Hne & Hnz).
  destruct (Basket_wf_lookup _ _ _ Hwf Hi) as (_ & _ & _ & Hprice).
  eapply Basket_wf_replace; eauto.
  repeat split; simpl; assumption || apply Hq || apply Hprice.
Qed.

(** Persisting a well-formed basket that kept its ID keeps the invariant
    and touches neither the products nor the orders. *)
Lemma BasketService_persist_inv (s : Store) (b : Basket) :
  baskets_inv (basketRepo s) -> Basket_wf b ->
  let s' := (BasketService_persist s b).1 in
  baskets_inv (basketRepo s') /\
  productRepo s' = productRepo s /\ orderRepo s' = orderRepo s.
Proof.
  intros Hinv Hwf. unfold BasketService_persist, BasketRepo_Update.
  destruct (basketRepo s !! Basket_id b); simpl; [|auto].
  split; [|auto]. intros id b'. rewrite lookup_insert.
  destruct (decide (Basket_id b = id)).
  - intros H. inversion H; subst. auto.
  - apply Hinv.
Qed.

(** X23: the invariant of the basket repository (every basket stored under
    its own ID, with pairwise-distinct product IDs and valid items) is kept
    by every operation of [BasketService], given the invariant of the
    product repository; none of them changes a product or an order. *)
Theorem BasketService_keeps_baskets_inv (s : Store) :
  baskets_inv (basketRepo s) -> products_inv (productRepo s) ->
  let kept (r : Store * result BasketResponse) :=
    baskets_inv (basketRepo r.1) /\
    productRepo r.1 = productRepo s /\ orderRepo r.1 = orderRepo s in
  (forall uuid now, kept (BasketService_CreateBasket s uuid now)) /\
  (forall basketID req now,
     in_int64 (AddItemRequest_Quantity req) ->
     kept (BasketService_AddItem s basketID req now)) /\
  (forall basketID productID now,
     kept (BasketService_RemoveItem s basketID productID now)) /\
  (forall basketID productID req now,
     in_int64 (UpdateItemQuantityRequest_Quantity req) ->
     kept (BasketService_UpdateItemQuantity s basketID productID req now)) /\
  (forall basketID now, kept (BasketService_ClearBasket s basketID now)).
Proof.
  intros Hb [Hwf Hprice] kept.
  assert (Hsame' : forall e, kept (s, Err e)) by (unfold kept; auto).
  assert (Hpersist : forall b, Basket_wf b -> kept (BasketService_persist s b)).
  { intros b Hbw. apply BasketService_persist_inv; assumption. }
  assert (Hfound : forall id b, BasketRepo_FindByID (basketRepo s) id = Ok b ->
                                Basket_wf b).
  { unfold BasketRepo_FindByID. intros id b H.
    destruct (basketRepo s !! id) as [b'|] eqn:Hl; [|discriminate].
    inversion H; subst. apply (Hb _ _ Hl). }
  split; [|split; [|split; [|split]]].
  - intros uuid now. unfold BasketService_CreateBasket, BasketRepo_Save.
    unfold kept. simpl. split; [|auto]. intros id b. rewrite lookup_insert.
    destruct (decide (uuid = id)).
    + intros H. inversion H; subst. split; [reflexivity|].
      split; simpl; constructor.
    + apply Hb.
  - intros basketID req now Hq. unfold BasketService_AddItem.
    case_decide; [apply Hsame'|].
    destruct (_ <=? 0); [apply Hsame'|].
    destruct (BasketRepo_FindByID _ _) as [basket|] eqn:Hfind; [|apply Hsame'].
    unfold ProductRepo_FindByID.
    destruct (productRepo s !! _) as [product|] eqn:Hp; [|apply Hsame'].
    destruct (NewQuantity _) as [qty|] eqn:Hqty; [|apply Hsame'].
    apply NewQuantity_valid in Hqty as [Hqty _]; [|assumption].
    destruct (_ <? _); [apply Hsame'|].
    pose proof (Basket_AddItem_wf basket (Product_id product) qty
                  (Product_price product) now (Hfound _ _ Hfind) Hqty
                  (Hprice _ _ Hp)) as Hnew.
    destruct (Basket_AddItem _ _ _ _ _) as [b' [e|]]; [apply Hsame'|].
    apply Hpersist. exact Hnew.
  - intros basketID productID now. unfold BasketService_RemoveItem.
    destruct (BasketRepo_FindByID _ _) as [basket|] eqn:Hfind; [|apply Hsame'].
    pose proof (Basket_RemoveItem_wf basket productID now (Hfound _ _ Hfind))
      as Hnew.
    destruct (Basket_RemoveItem _ _ _) as [b' [e|]]; [apply Hsame'|].
    apply Hpersist. exact Hnew.
  - intros basketID productID req now Hq.
    unfold BasketService_UpdateItemQuantity.
    destruct (_ <? 0); [apply Hsame'|].
    destruct (BasketRepo_FindByID _ _) as [basket|] eqn:Hfind; [|apply Hsame'].
    destruct (_ =? 0).
    + pose proof (Basket_RemoveItem_wf basket productID now (Hfound _ _ Hfind))
        as Hnew.
      destruct (Basket_RemoveItem _ _ _) as [b' [e|]]; [apply Hsame'|].
      apply Hpersist. exact Hnew.
    + destruct (ProductRepo_FindByID _ _); [|apply Hsame'].
      destruct (_ <? _); [apply Hsame'|].
      destruct (NewQuantity _) as [qty|] eqn:Hqty; [|apply Hsame'].
      apply NewQuantity_valid in Hqty as [Hqty _]; [|assumption].
      pose proof (Basket_UpdateItemQuantity_wf basket productID qty now
                    (Hfound _ _ Hfind) Hqty) as Hnew.
      destruct (Basket_UpdateItemQuantity _ _ _ _) as [b' [e|]];
        [apply Hsame'|].
      apply Hpersist. exact Hnew.
  - intros basketID now. unfold BasketService_ClearBasket.
    destruct (BasketRepo_FindByID _ _) as [basket|] eqn:Hfind; [|apply Hsame'].
    apply Hpersist. split; simpl; constructor.
Qed.

Lemma BasketService_keeps_baskets_inv_witness :
  let s := scenario_store [] {["P" := scenario_P 5]} in
  baskets_inv
    (basketRepo (BasketService_AddItem s "B" (mkAddItemRequest "P" 2) 1).1).
Proof.
  intros s.
  destruct (BasketService_keeps_baskets_inv s) as (_ & Hadd & _).
  - intros id b Hl.
    change (({["B" := ReconstructBasket "B" [] 0 0]} : gmap string Basket)
              !! id = Some b) in Hl.
    apply lookup_singleton_Some in Hl as [<- <-].
    split; [reflexivity|]. split; simpl; constructor.
  - split; intros id p Hl;
      change (({["P" := scenario_P 5]} : gmap string Product) !! id = Some p)
        in Hl;
      apply lookup_singleton_Some in Hl as [<- <-].
    + split; [reflexivity|in_range].
    + split; simpl; [unfold max_int64; lia|discriminate].
  - apply (Hadd "B" (mkAddItemRequest "P" 2) 1). in_range.
Defined.

Lemma Basket_AddItem_absent b productID q price now :
  productID ∉ BasketItem_productID <$> Basket_items b ->
  productID <> "" -> value q <> 0 ->
  Basket_AddItem b productID q (Some price) now
  = (Basket_set_items b
       (Basket_items b ++ [mkBasketItem productID q price]) now, None).
Proof.
  intros Habs Hne Hq. unfold Basket_AddItem, Basket_find.
  rewrite (find_absent BasketItem_productID) by assumption.
  rewrite NewBasketItem_Ok by assumption. reflexivity.
Qed.

Lemma Basket_AddItem_present b productID q price now i item :
  NoDup (BasketItem_productID <$> Basket_items b) ->
  Basket_items b !! i = Some item ->
  BasketItem_productID item = productID -> productID <> "" ->
  Quantity_valid (BasketItem_quantity item) -> Quantity_valid q ->
  0 < value (BasketItem_quantity item) + value q <= max_int64 ->
  Basket_AddItem b productID q (Some price) now
  = (Basket_set_items b
       (<[i := mkBasketItem productID
                 (mkQuantity (value (BasketItem_quantity item) + value q))
                 price]> (Basket_items b)) now, None).
Proof.
  intros Hnd Hi Hpid Hne Hold Hq Hsum. unfold Basket_AddItem, Basket_find.
  subst productID. rewrite (find_present BasketItem_productID _ _ _ Hnd Hi).
  rewrite Quantity_Add_spec by assumption.
  destruct (Z.leb_spec (value (BasketItem_quantity item) + value q) max_int64);
    [|lia].
  rewrite NewBasketItem_Ok; [reflexivity|assumption|simpl; lia].
Qed.

Lemma BasketService_persist_stored (s : Store) (b : Basket) :
  is_Some (basketRepo s !! Basket_id b) ->
  BasketService_persist s b
  = (mkStore (orderRepo s) (<[Basket_id b := b]> (basketRepo s))
       (productRepo s), toBasketResponse b).
Proof.
  intros [b0 Hb]. unfold BasketService_persist, BasketRepo_Update.
  rewrite Hb. reflexivity.
Qed.

(** X24: [BasketService.AddItem] checks, in this order, the product ID, the
    quantity, the basket, the product and the stock, and on each refusal
    leaves the store unchanged.  An accepted request stores a new item
    with the product's current price when the basket does not hold the
    product; when it does, it stores the summed quantity, again with the
    product's current price: the stock is compared with the requested
    quantity only, not with the sum. *)
Theorem BasketService_AddItem_spec (s : Store) (basketID : string)
    (req : AddItemRequest) (now : Time) :
  let productID := AddItemRequest_ProductID req in
  let q := AddItemRequest_Quantity req in
  let stored b := mkStore (orderRepo s) (<[basketID := b]> (basketRepo s))
                    (productRepo s) in
  (productID = "" ->
   BasketService_AddItem s basketID req now
   = (s, Err "product ID is required")) /\
  (productID <> "" -> q <= 0 ->
   BasketService_AddItem s basketID req now
   = (s, Err "quantity must be greater than zero")) /\
  (productID <> "" -> 0 < q -> basketRepo s !! basketID = None ->
   BasketService_AddItem s basketID req now = (s, Err "basket not found")) /\
  (productID <> "" -> 0 < q -> is_Some (basketRepo s !! basketID) ->
   productRepo s !! productID = None ->
   BasketService_AddItem s basketID req now = (s, Err "product not found")) /\
  (forall basket product,
     productID <> "" -> 0 < q ->
     basketRepo s !! basketID = Some basket ->
     productRepo s !! productID = Some product ->
     (value (Product_stock product) < q ->
      BasketService_AddItem s basketID req now
      = (s, Err "insufficient stock")) /\
     (q <= value (Product_stock product) ->
      Basket_id basket = basketID -> Product_id product = productID ->
      (productID ∉ BasketItem_productID <$> Basket_items basket ->
       (BasketService_AddItem s basketID req now).1
       = stored (Basket_set_items basket
                   (Basket_items basket ++
                    [mkBasketItem productID (mkQuantity q)
                       (Product_price product)]) now)) /\
      (forall i item,
         NoDup (BasketItem_productID <$> Basket_items basket) ->
         Basket_items basket !! i = Some item ->
         BasketItem_productID item = productID ->
         Quantity_valid (BasketItem_quantity item) ->
         value (BasketItem_quantity item) + q <= max_int64 ->
         (BasketService_AddItem s basketID req now).1
         = stored (Basket_set_items basket
                     (<[i := mkBasketItem productID
                               (mkQuantity (value (BasketItem_quantity item) + q))
                               (Product_price product)]>
                        (Basket_items basket)) now)))).
Proof.
  intros productID q stored.
  assert (Hguards : productID <> "" -> 0 < q ->
    BasketService_AddItem s basketID req now
    = match BasketRepo_FindByID (basketRepo s) basketID with
      | Err err => (s, Err err)
      | Ok basket =>
        match productRepo s !! productID with
        | None => (s, Err "product not found")
        | Some product =>
          if value (Product_stock product) <? q
          then (s, Err "insufficient stock")
          else match Basket_AddItem basket (Product_id product) (mkQuantity q)
                       (Some (Product_price product)) now with
               | (_, Some err) => (s, Err err)
               | (basket', None) => BasketService_persist s basket'
               end
        end
      end).
  { intros Hne Hq. unfold BasketService_AddItem, ProductRepo_FindByID,
      NewQuantity. fold productID q.
    destruct (decide (productID = "")); [contradiction|].
    destruct (Z.leb_spec q 0); [lia|].
    destruct (Z.ltb_spec q 0); [lia|].
    destruct (BasketRepo_FindByID _ _); [|reflexivity].
    destruct (productRepo s !! productID); reflexivity. }
  split; [|split; [|split; [|split]]].
  - intros He. unfold BasketService_AddItem. fold productID.
    destruct (decide (productID = "")); [reflexivity|contradiction].
  - intros Hne Hq. unfold BasketService_AddItem. fold productID q.
    destruct (decide (productID = "")); [contradiction|].
    destruct (Z.leb_spec q 0); [reflexivity|lia].
  - intros Hne Hq Hb. rewrite Hguards by assumption.
    unfold BasketRepo_FindByID. rewrite Hb. reflexivity.
  - intros Hne Hq [b Hb] Hp. rewrite Hguards by assumption.
    unfold BasketRepo_FindByID. rewrite Hb, Hp. reflexivity.
  - intros basket product Hne Hq Hb Hp. rewrite Hguards by assumption.
    unfold BasketRepo_FindByID. rewrite Hb, Hp. split.
    + intros Hlt. destruct (Z.ltb_spec (value (Product_stock product)) q);
        [reflexivity|lia].
    + intros Hle Hid Hpid.
      destruct (Z.ltb_spec (value (Product_stock product)) q); [lia|].
      rewrite Hpid. split.
      * intros Habs.
        rewrite Basket_AddItem_absent by (assumption || (simpl; lia)).
        rewrite BasketService_persist_stored;
          cbn [Basket_set_items Basket_id]; rewrite Hid; [reflexivity|eauto].
      * intros i item Hnd Hi Hitem Hold Hsum.
        rewrite (Basket_AddItem_present basket productID (mkQuantity q) _ now
                   i item) by (assumption || in_range).
        rewrite BasketService_persist_stored;
          cbn [Basket_set_items Basket_id]; rewrite Hid; [reflexivity|eauto].
Qed.

Lemma BasketService_AddItem_spec_witness :
  let s := scenario_store [] {["P" := scenario_P 5]} in
  basketRepo (BasketService_AddItem s "B" (mkAddItemRequest "P" 2) 1).1 !! "B"
  = Some (Basket_set_items (ReconstructBasket "B" [] 0 0)
            [mkBasketItem "P" (mkQuantity 2) (mkMoney 1000 "USD")] 1).
Proof.
  intros s.
  destruct (BasketService_AddItem_spec s "B" (mkAddItemRequest "P" 2) 1)
    as (_ & _ & _ & _ & H).
  destruct (H (ReconstructBasket "B" [] 0 0) (scenario_P 5)
              ltac:(discriminate) ltac:(simpl; lia) eq_refl eq_refl)
    as [_ H'].
  destruct (H' ltac:(simpl; lia) eq_refl eq_refl) as [Habsent _].
  rewrite Habsent; [reflexivity|]. simpl. compute_done.
Defined.

Lemma Basket_Total_mixed (b : Basket) first rest :
  Basket_items b = first :: rest ->
  Exists (fun item => currency (BasketItem_price item)
                      <> currency (BasketItem_price first)) (Basket_items b) ->
  is_Err (Basket_Total b).
Proof.
  intros Hitems Hex. unfold Basket_Total, Basket_IsEmpty.
  rewrite Hitems. cbn [length Nat.eqb]. rewrite <- Hitems.
  destruct (NewMoney 0 _) as [zero|] eqn:Hzero; [|exact I]. cbn [bind].
  apply (Basket_Total_loop_mixed (currency (BasketItem_price first)));
    [|exact Hex].
  unfold NewMoney in Hzero. simpl in Hzero.
  destruct (decide _); [discriminate|]. inversion Hzero. reflexivity.
Qed.

(** X25: [BasketService.AddItem] stores the basket before it computes the
    response.  When the basket is not empty and the product added is priced
    in another currency than the basket's first item, the item is stored
    and the call still returns an error, the total of the new basket being
    undefined. *)
Theorem BasketService_AddItem_other_currency (s : Store) (basketID : string)
    (req : AddItemRequest) (now : Time) (basket : Basket) (product : Product)
    (first : BasketItem) (rest : list BasketItem) :
  let productID := AddItemRequest_ProductID req in
  let q := AddItemRequest_Quantity req in
  productID <> "" -> 0 < q <= value (Product_stock product) ->
  basketRepo s !! basketID = Some basket -> Basket_id basket = basketID ->
  productRepo s !! productID = Some product -> Product_id product = productID ->
  Basket_items basket = first :: rest ->
  productID ∉ BasketItem_productID <$> Basket_items basket ->
  currency (Product_price product) <> currency (BasketItem_price first) ->
  is_Err (BasketService_AddItem s basketID req now).2 /\
  basketRepo (BasketService_AddItem s basketID req now).1 !! basketID
  = Some (Basket_set_items basket
            (Basket_items basket ++
             [mkBasketItem productID (mkQuantity q) (Product_price product)])
            now).
Proof.
  intros productID q Hne [Hq Hle] Hb Hid Hp Hpid Hitems Habs Hcur.
  unfold BasketService_AddItem, BasketRepo_FindByID, ProductRepo_FindByID,
    NewQuantity. fold productID q.
  destruct (decide (productID = "")); [contradiction|].
  destruct (Z.leb_spec q 0); [lia|]. rewrite Hb, Hp.
  destruct (Z.ltb_spec q 0); [lia|].
  destruct (Z.ltb_spec (value (Product_stock product)) q); [lia|].
  rewrite Hpid. rewrite Basket_AddItem_absent by (assumption || (simpl; lia)).
  rewrite BasketService_persist_stored
    by (cbn [Basket_set_items Basket_id]; rewrite Hid; eauto).
  cbn [fst snd basketRepo Basket_set_items Basket_id]. rewrite Hid.
  split; [|apply lookup_insert_eq].
  unfold toBasketResponse.
  destruct (toBasketResponse_items _); [|exact I]. cbn [bind].
  match goal with
  | |- context [Basket_Total ?b'] =>
      pose proof (Basket_Total_mixed b' first
                    (rest ++ [mkBasketItem productID (mkQuantity q)
                                (Product_price product)])) as Hmixed
  end.
  destruct (Basket_Total _); [|exact I]. exfalso. apply Hmixed.
  - simpl. rewrite Hitems. reflexivity.
  - simpl. apply Exists_app. right. apply Exists_cons_hd. exact Hcur.
Qed.

Lemma BasketService_AddItem_other_currency_witness :
  let usd := mkBasketItem "P" (mkQuantity 2) (mkMoney 1000 "USD") in
  let Q := ReconstructProduct "Q" "Quill" "" (mkMoney 100 "EUR") (mkQuantity 5) 0 0 in
  let s := scenario_store [usd] (<["Q" := Q]> {["P" := scenario_P 5]}) in
  let r := BasketService_AddItem s "B" (mkAddItemRequest "Q" 1) 1 in
  is_Err r.2 /\
  basketRepo r.1 !! "B"
  = Some (Basket_set_items (ReconstructBasket "B" [usd] 0 0)
            [usd; mkBasketItem "Q" (mkQuantity 1) (mkMoney 100 "EUR")] 1).
Proof.
  intros usd Q s r.
  apply (BasketService_AddItem_other_currency s "B" (mkAddItemRequest "Q" 1) 1
           (ReconstructBasket "B" [usd] 0 0) Q usd []);
    try reflexivity; try discriminate.
  - simpl. lia.
  - simpl. compute_done.
Defined.

(** X26: [BasketService.UpdateItemQuantity] refuses a negative quantity;
    with quantity zero it is [BasketService.RemoveItem]; with a positive
    quantity it requires the product to exist with at least that stock, and
    then stores the item with exactly that quantity and the price it had;
    every refusal leaves the store unchanged. *)
Theorem BasketService_UpdateItemQuantity_spec (s : Store)
    (basketID productID : string) (req : UpdateItemQuantityRequest)
    (now : Time) :
  let q := UpdateItemQuantityRequest_Quantity req in
  (q < 0 ->
   BasketService_UpdateItemQuantity s basketID productID req now
   = (s, Err "quantity cannot be negative")) /\
  (q = 0 ->
   BasketService_UpdateItemQuantity s basketID productID req now
   = BasketService_RemoveItem s basketID productID now) /\
  (0 < q -> forall basket,
   basketRepo s !! basketID = Some basket ->
   (productRepo s !! productID = None ->
    BasketService_UpdateItemQuantity s basketID productID req now
    = (s, Err "product not found")) /\
   (forall product, productRepo s !! productID = Some product ->
    (value (Product_stock product) < q ->
     BasketService_UpdateItemQuantity s basketID productID req now
     = (s, Err "insufficient stock")) /\
    (q <= value (Product_stock product) ->
     (productID ∉ BasketItem_productID <$> Basket_items basket ->
      BasketService_UpdateItemQuantity s basketID productID req now
      = (s, Err "item not found in basket")) /\
     (Basket_id basket = basketID -> productID <> "" ->
      NoDup (BasketItem_productID <$> Basket_items basket) ->
      forall i item,
        Basket_items basket !! i = Some item ->
        BasketItem_productID item = productID ->
        (BasketService_UpdateItemQuantity s basketID productID req now).1
        = mkStore (orderRepo s)
            (<[basketID :=
                 Basket_set_items basket
                   (<[i := mkBasketItem productID (mkQuantity q)
                             (BasketItem_price item)]> (Basket_items basket))
                   now]> (basketRepo s))
            (productRepo s))))).
Proof.
  intros q.
  split; [|split];
    [intros Hq|intros Hq|intros Hq basket Hb];
    unfold BasketService_UpdateItemQuantity, BasketService_RemoveItem,
      BasketRepo_FindByID, ProductRepo_FindByID, NewQuantity; fold q.
  - destruct (Z.ltb_spec q 0); [reflexivity|lia].
  - rewrite Hq. simpl. reflexivity.
  - destruct (Z.ltb_spec q 0); [lia|]. rewrite Hb.
    destruct (Z.eqb_spec q 0); [lia|]. split.
    + intros ->. reflexivity.
    + intros product ->. split.
      * intros Hlt. destruct (Z.ltb_spec (value (Product_stock product)) q);
          [reflexivity|lia].
      * intros Hle.
        destruct (Z.ltb_spec (value (Product_stock product)) q); [lia|].
        unfold Basket_UpdateItemQuantity, Quantity_IsZero. cbn [value].
        destruct (Z.eqb_spec q 0); [lia|]. unfold Basket_find. split.
        -- intros Habs.
           rewrite (find_absent BasketItem_productID) by assumption.
           reflexivity.
        -- intros Hid Hne Hnd i item Hi Hpid. subst productID.
           rewrite (find_present BasketItem_productID _ _ _ Hnd Hi).
           rewrite NewBasketItem_Ok by (assumption || (simpl; lia)).
           rewrite BasketService_persist_stored;
             cbn [Basket_set_items Basket_id]; rewrite Hid;
             [reflexivity|eauto].
Qed.

Lemma BasketService_UpdateItemQuantity_spec_witness :
  let item := mkBasketItem "P" (mkQuantity 2) (mkMoney 900 "USD") in
  let s := scenario_store [item] {["P" := scenario_P 5]} in
  basketRepo (BasketService_UpdateItemQuantity s "B" "P"
                (mkUpdateItemQuantityRequest 4) 1).1 !! "B"
  = Some (Basket_set_items (ReconstructBasket "B" [item] 0 0)
            [mkBasketItem "P" (mkQuantity 4) (mkMoney 900 "USD")] 1).
Proof.
  intros item s.
  destruct (BasketService_UpdateItemQuantity_spec s "B" "P"
              (mkUpdateItemQuantityRequest 4) 1) as (_ & _ & H).
  destruct (H ltac:(simpl; lia) (ReconstructBasket "B" [item] 0 0) eq_refl)
    as [_ H'].
  destruct (H' (scenario_P 5) eq_refl) as [_ H''].
  destruct H'' as [_ H'']; [simpl; lia|].
  rewrite (H'' eq_refl ltac:(discriminate)
             ltac:(simpl; apply NoDup_singleton) 0%nat item eq_refl eq_refl).
  reflexivity.
Defined.

(** ** OrderService *)

Lemma OrderService_transition_stored
    (method : Order -> Time -> Order * option error)
    (s : Store) (id : string) (now : Time) (o : Order) :
  orderRepo s !! id = Some o -> Order_id (method o now).1 = id ->
  OrderService_transition method s id now
  = match method o now with
    | (_, Some err) => (s, Err err)
    | (o', None) =>
      (mkStore (<[id := o']> (orderRepo s)) (basketRepo s) (productRepo s),
       toOrderResponse o')
    end.
Proof.
  intros Ho Hid. unfold OrderService_transition, OrderRepo_FindByID,
    OrderRepo_Update. rewrite Ho.
  destruct (method o now) as [o' [e|]]; [reflexivity|].
  simpl in Hid. rewrite Hid, Ho. reflexivity.
Qed.

(** X27: for an order stored under its own ID with status PENDING,
    [ConfirmOrder], [ShipOrder] and [DeliverOrder] called in that sequence
    leave the stored order CONFIRMED, then SHIPPED, then DELIVERED, with its
    items and total as before and every other order, every basket and every
    product untouched; [CancelOrder] is then refused, and so is [ShipOrder]
    before the confirmation, both without changing the store; an unknown ID
    gives order-not-found. *)
Theorem OrderService_lifecycle (s : Store) (id : string) (o : Order)
    (t1 t2 t3 t4 : Time) :
  orderRepo s !! id = Some o -> Order_id o = id ->
  Order_status o = OrderStatusPending ->
  let s1 := (OrderService_ConfirmOrder s id t1).1 in
  let s2 := (OrderService_ShipOrder s1 id t2).1 in
  let s3 := (OrderService_DeliverOrder s2 id t3).1 in
  orderRepo s1 !! id = Some (Order_set_status o OrderStatusConfirmed t1) /\
  Order_status <$> orderRepo s2 !! id = Some OrderStatusShipped /\
  (exists o3, orderRepo s3 !! id = Some o3 /\
     Order_status o3 = OrderStatusDelivered /\
     Order_items o3 = Order_items o /\ Order_total o3 = Order_total o) /\
  (forall id', id' <> id -> orderRepo s3 !! id' = orderRepo s !! id') /\
  basketRepo s3 = basketRepo s /\ productRepo s3 = productRepo s /\
  OrderService_CancelOrder s3 id t4
  = (s3, Err "delivered orders cannot be cancelled") /\
  OrderService_ShipOrder s id t2
  = (s, Err "only confirmed orders can be shipped") /\
  (forall id', orderRepo s !! id' = None ->
     OrderService_ConfirmOrder s id' t1 = (s, Err "order not found")).
Proof.
  intros Ho Hid Hs.
  set (o1 := Order_set_status o OrderStatusConfirmed t1).
  set (o2 := Order_set_status o1 OrderStatusShipped t2).
  set (o3 := Order_set_status o2 OrderStatusDelivered t3).
  set (S1 := mkStore (<[id := o1]> (orderRepo s)) (basketRepo s) (productRepo s)).
  set (S2 := mkStore (<[id := o2]> (orderRepo S1)) (basketRepo s) (productRepo s)).
  set (S3 := mkStore (<[id := o3]> (orderRepo S2)) (basketRepo s) (productRepo s)).
  assert (H1 : OrderService_ConfirmOrder s id t1 = (S1, toOrderResponse o1)).
  { unfold OrderService_ConfirmOrder.
    rewrite (OrderService_transition_stored _ s id t1 o Ho);
      destruct (Order_step o _ OrderStatusConfirmed t1 Hs) as (-> & _);
      auto. }
  assert (H2 : OrderService_ShipOrder S1 id t2 = (S2, toOrderResponse o2)).
  { unfold OrderService_ShipOrder.
    rewrite (OrderService_transition_stored _ S1 id t2 o1);
      try apply lookup_insert_eq;
      destruct (Order_step o1 _ OrderStatusShipped t2 eq_refl) as (_ & -> & _);
      auto. }
  assert (H3 : OrderService_DeliverOrder S2 id t3 = (S3, toOrderResponse o3)).
  { unfold OrderService_DeliverOrder.
    rewrite (OrderService_transition_stored _ S2 id t3 o2);
      try apply lookup_insert_eq;
      destruct (Order_step o2 _ OrderStatusDelivered t3 eq_refl)
        as (_ & _ & ->); auto. }
  cbv zeta. rewrite H1. cbn [fst]. rewrite H2. cbn [fst]. rewrite H3.
  cbn [fst]. unfold S3, S2, S1. cbn [orderRepo basketRepo productRepo].
  split; [apply lookup_insert_eq|].
  split; [rewrite lookup_insert_eq; reflexivity|].
  split; [exists o3; rewrite lookup_insert_eq; auto|].
  split; [intros id' Hne; rewrite !lookup_insert_ne by congruence; reflexivity|].
  split; [reflexivity|]. split; [reflexivity|]. split; [|split].
  - unfold OrderService_CancelOrder.
    rewrite (OrderService_transition_stored _ _ id t4 o3);
      cbn [orderRepo];
      first [apply lookup_insert_eq | exact Hid | reflexivity].
  - unfold OrderService_ShipOrder.
    rewrite (OrderService_transition_stored _ s id t2 o Ho);
      unfold Order_Ship; rewrite Hs; simpl; auto.
  - intros id' Hnone. unfold OrderService_ConfirmOrder,
      OrderService_transition, OrderRepo_FindByID. rewrite Hnone. reflexivity.
Qed.

Lemma OrderService_lifecycle_witness :
  let o := ReconstructOrder "O" [mkOrderItem "P" (mkQuantity 2) (mkMoney 1000 "USD")]
             (mkMoney 2000 "USD") OrderStatusPending 0 0 in
  let s := mkStore {["O" := o]} ∅ ∅ in
  orderRepo (OrderService_ConfirmOrder s "O" 1).1 !! "O"
  = Some (Order_set_status o OrderStatusConfirmed 1).
Proof.
  intros o s.
  apply (OrderService_lifecycle s "O" o 1 2 3 4); reflexivity.
Defined.

(** ** Checkout: what it never does *)

Lemma stock_not_raised_refl p : stock_not_raised p p.
Proof. unfold stock_not_raised. repeat split; lia || reflexivity. Qed.

Lemma products_not_raised_refl products : products_not_raised products products.
Proof.
  intros id. destruct (products !! id); constructor.
  apply stock_not_raised_refl.
Qed.

Lemma products_not_raised_trans m1 m2 m3 :
  products_not_raised m1 m2 -> products_not_raised m2 m3 ->
  products_not_raised m1 m3.
Proof.
  intros H12 H23 id. specialize (H12 id). specialize (H23 id).
  destruct H12 as [p1 p2 H12|]; inversion H23 as [? p3 H23'|]; subst;
    constructor.
  unfold stock_not_raised in *. intuition (try congruence; try lia).
Qed.

Lemma CreateOrder_reduce_not_raised items :
  forall products now k,
  products_wf products ->
  Forall (fun item => Quantity_valid (BasketItem_quantity item)) items ->
  products_wf (CreateOrder_reduce products items now k).1 /\
  products_not_raised products (CreateOrder_reduce products items now k).1.
Proof.
  induction items as [|item items IH]; intros products now k Hwf Hq.
  - simpl. split; [assumption|apply products_not_raised_refl].
  - inversion Hq as [|? ? Hq1 Hq']; subst. cbn [CreateOrder_reduce].
    unfold ProductRepo_FindByID.
    destruct (products !! BasketItem_productID item) as [p|] eqn:Hp;
      [|split; [assumption|apply products_not_raised_refl]].
    destruct (Hwf _ _ Hp) as [Hid Hs].
    unfold Product_ReduceStock.
    rewrite Quantity_Subtract_spec by assumption.
    destruct (Z.ltb_spec (value (Product_stock p))
                (value (BasketItem_quantity item)));
      [split; [assumption|apply products_not_raised_refl]|].
    rewrite <- Hid in Hp.
    unfold ProductRepo_Update. cbn [Product_id]. rewrite Hp.
    match goal with
    | |- context [CreateOrder_reduce ?m items now (S k)] =>
        assert (Hwf1 : products_wf m);
        [|assert (Hle1 : products_not_raised products m)]
    end.
    + apply (products_wf_insert products
               (mkProduct (Product_id p) _ _ _ _ _ _)); [assumption|].
      in_range.
    + intros id. rewrite lookup_insert.
      destruct (decide (Product_id p = id)) as [<-|Hne].
      * rewrite Hp. constructor. unfold stock_not_raised. simpl.
        repeat split; in_range.
      * destruct (products !! id); constructor. apply stock_not_raised_refl.
    + destruct (IH _ now (S k) Hwf1 Hq') as [Hwf' Hle'].
      split; [exact Hwf'|].
      eapply products_not_raised_trans; eassumption.
Qed.

(** The product repository after [CreateOrder] is the one before, or the one
    the second pass left. *)
Lemma CreateOrder_products (s : Store) req uuid now :
  productRepo (OrderService_CreateOrder s req uuid now).1 = productRepo s \/
  exists basket,
    basketRepo s !! BasketID req = Some basket /\
    productRepo (OrderService_CreateOrder s req uuid now).1
    = (CreateOrder_reduce (productRepo s) (Basket_items basket) now 0).1.
Proof.
  unfold OrderService_CreateOrder, BasketRepo_FindByID.
  case_decide; [auto|].
  destruct (basketRepo s !! BasketID req) as [basket|] eqn:Hb; [|auto].
  destruct (Basket_IsEmpty basket); [auto|].
  destruct (CreateOrder_verify _ _); [auto|].
  right. exists basket. split; [reflexivity|].
  destruct (CreateOrder_reduce _ _ _ _) as [products [e|]]; [reflexivity|].
  destruct (NewOrder _ _ _); [|reflexivity].
  unfold OrderRepo_Save, BasketRepo_Update. cbn [basketRepo].
  destruct (basketRepo s !! Basket_id _); reflexivity.
Qed.

(** X28: whatever [CreateOrder] returns, it creates and deletes no product
    and raises no stock: every product is still stored, with the same name,
    description, price and creation time and a stock not larger than
    before, and the repository still holds every product under its own ID
    with a valid stock. *)
Theorem CreateOrder_never_raises_stock (s : Store) (req : CreateOrderRequest)
    (uuid : string) (now : nat -> Time) :
  products_wf (productRepo s) ->
  (forall basket, basketRepo s !! BasketID req = Some basket ->
     Forall (fun item => Quantity_valid (BasketItem_quantity item))
       (Basket_items basket)) ->
  let s' := (OrderService_CreateOrder s req uuid now).1 in
  products_wf (productRepo s') /\
  products_not_raised (productRepo s) (productRepo s').
Proof.
  intros Hwf Hq s'. unfold s'.
  destruct (CreateOrder_products s req uuid now) as [->|(basket & Hb & ->)].
  - split; [assumption|apply products_not_raised_refl].
  - apply CreateOrder_reduce_not_raised; [assumption|]. apply Hq, Hb.
Qed.

Lemma CreateOrder_never_raises_stock_witness :
  let item := mkBasketItem "P" (mkQuantity 2) (mkMoney 1000 "USD") in
  let s := scenario_store [item] {["P" := scenario_P 5]} in
  products_not_raised (productRepo s)
    (productRepo
       (OrderService_CreateOrder s (mkCreateOrderRequest "B") "O" scenario_now).1).
Proof.
  intros item s.
  apply (CreateOrder_never_raises_stock s (mkCreateOrderRequest "B") "O"
           scenario_now).
  - intros id p Hp.
    change (({["P" := scenario_P 5]} : gmap string Product) !! id = Some p) in Hp.
    apply lookup_singleton_Some in Hp as [<- <-].
    split; [reflexivity|in_range].
  - intros basket Hb.
    change (({["B" := ReconstructBasket "B" [item] 0 0]} : gmap string Basket)
              !! "B" = Some basket) in Hb.
    apply lookup_singleton_Some in Hb as [_ <-].
    repeat constructor; in_range.
Defined.

Lemma NewOrder_response_Ok basketItems uuid now order :
  NewOrder basketItems uuid now = Ok order -> is_Ok (toOrderResponse order).
Proof.
  unfold NewOrder. destruct basketItems as [|first rest]; [discriminate|].
  destruct (NewOrder_convert _) as [ois|]; [|discriminate]. cbn [bind].
  destruct (NewMoney 0 _) as [zero|]; [|discriminate]. cbn [bind].
  destruct (NewOrder_total_loop zero ois) as [total|] eqn:Hloop;
    [|discriminate].
  cbn [bind]. intros H. inversion H; subst order.
  unfold toOrderResponse. cbn [Order_items].
  apply toOrderResponse_items_Ok in Hloop.
  destruct (toOrderResponse_items ois); [exact I|contradiction].
Qed.

(** What [CreateOrder] did to the orders and the baskets, by its result. *)
Lemma CreateOrder_outcome (s : Store) req uuid now :
  (forall basket, basketRepo s !! BasketID req = Some basket ->
     Basket_id basket = BasketID req) ->
  let r := OrderService_CreateOrder s req uuid now in
  match r.2 with
  | Err _ => orderRepo r.1 = orderRepo s /\ basketRepo r.1 = basketRepo s
  | Ok resp =>
    exists basket order,
      BasketID req <> "" /\
      basketRepo s !! BasketID req = Some basket /\
      Basket_items basket <> [] /\
      NewOrder (Basket_items basket) uuid (now (length (Basket_items basket)))
      = Ok order /\
      toOrderResponse order = Ok resp /\
      orderRepo r.1 = <[uuid := order]> (orderRepo s) /\
      basketRepo r.1
      = <[BasketID req :=
            Basket_Clear basket (now (S (length (Basket_items basket))))]>
          (basketRepo s)
  end.
Proof.
  intros Hid. unfold OrderService_CreateOrder, BasketRepo_FindByID.
  case_decide; [simpl; auto|].
  destruct (basketRepo s !! BasketID req) as [basket|] eqn:Hb; [|simpl; auto].
  specialize (Hid basket eq_refl).
  destruct (Basket_IsEmpty basket) eqn:Hempty; [simpl; auto|].
  destruct (CreateOrder_verify _ _); [simpl; auto|].
  destruct (CreateOrder_reduce _ _ _ _) as [products [e|]]; [simpl; auto|].
  destruct (NewOrder _ _ _) as [order|] eqn:Hnew; [|simpl; auto].
  unfold OrderRepo_Save, BasketRepo_Update.
  cbn [basketRepo orderRepo productRepo Basket_Clear Basket_set_items Basket_id].
  rewrite Hid, Hb. cbn [fst snd].
  pose proof (NewOrder_response_Ok _ _ _ _ Hnew) as Hresp.
  destruct (toOrderResponse order) as [resp|] eqn:Hr; [|contradiction].
  exists basket, order.
  assert (Hoid : Order_id order = uuid).
  { unfold NewOrder in Hnew. destruct (Basket_items basket); [discriminate|].
    destruct (NewOrder_convert _); [|discriminate]. cbn [bind] in Hnew.
    destruct (NewMoney 0 _); [|discriminate]. cbn [bind] in Hnew.
    destruct (NewOrder_total_loop _ _); [|discriminate].
    inversion Hnew. reflexivity. }
  rewrite Hoid. repeat split; try assumption; try reflexivity.
  intros Hnil. unfold Basket_IsEmpty in Hempty. rewrite Hnil in Hempty.
  discriminate.
Qed.



(** X30: a basket cannot be checked out twice: after a successful
    [CreateOrder], a second [CreateOrder] for the same basket is refused as
    an empty basket and changes nothing. *)
Theorem CreateOrder_twice (s : Store) (req : CreateOrderRequest)
    (uuid uuid' : string) (now now' : nat -> Time) :
  (forall basket, basketRepo s !! BasketID req = Some basket ->
     Basket_id basket = BasketID req) ->
  is_Ok (OrderService_CreateOrder s req uuid now).2 ->
  let s' := (OrderService_CreateOrder s req uuid now).1 in
  OrderService_CreateOrder s' req uuid' now'
  = (s', Err "cannot create order from empty basket").
Proof.
  intros Hid Hok s'.
  pose proof (CreateOrder_outcome s req uuid now Hid) as H. cbv zeta in H.
  destruct (OrderService_CreateOrder s req uuid now).2 as [resp|];
    [|contradiction].
  destruct H as (basket & order & Hne & _ & _ & _ & _ & _ & Hbs).
  fold s' in Hbs. unfold OrderService_CreateOrder at 1, BasketRepo_FindByID.
  destruct (decide (BasketID req = "")); [contradiction|].
  rewrite Hbs, lookup_insert_eq. reflexivity.
Qed.

Lemma CreateOrder_twice_witness :
  let item := mkBasketItem "P" (mkQuantity 2) (mkMoney 1000 "USD") in
  let s := scenario_store [item] {["P" := scenario_P 5]} in
  let s' := (OrderService_CreateOrder s (mkCreateOrderRequest "B") "O"
               scenario_now).1 in
  OrderService_CreateOrder s' (mkCreateOrderRequest "B") "O2" scenario_now
  = (s', Err "cannot create order from empty basket").
Proof.
  intros item s s'.
  apply (CreateOrder_twice s (mkCreateOrderRequest "B") "O" "O2" scenario_now
           scenario_now).
  - intros basket Hb.
    change (({["B" := ReconstructBasket "B" [item] 0 0]} : gmap string Basket)
              !! "B" = Some basket) in Hb.
    apply lookup_singleton_Some in Hb as [_ <-]. reflexivity.
  - exact I.
Defined.
